(** * Air-quality anomaly pipeline: a shallow embedding and its properties

    The development follows the two batch stages of the repository:

    - [Ge]  : [ge_12_24.py]  (baseline index, validation, anomaly join,
              regional averages, major events);
    - [Stl] : [stl_12_24.py] (gap detection, bounded interpolation,
              seasonal decomposition, re-masking, per-file driver).

    Conventions of the embedding.

    - A timestamp is a [Z]: seconds since 1970-01-01 00:00 (the data are
      hourly; one hour is [3600]).
    - A floating-point cell is an [option Q]: [None] is NaN (a missing
      value), [Some q] a finite value.  Arithmetic on values is exact
      rational arithmetic; rounding, infinities and overflow of the
      machine floats are outside the model.
    - A pandas frame is the list of its rows, in row order; a pandas
      Series is the list of its (index, value) pairs.
    - pandas calls are embedded by what pandas 2.x does for the arguments
      the source passes; the behaviour relied upon is spelled out at each
      definition.
    - Every row carries its station and item; file access, plotting and
      the formatting of report texts are left out. *)

From Stdlib Require Import ZArith QArith Qminmax Lia Ascii String.
From Stdlib Require Import Floats.SpecFloat.
From stdpp Require Import base option list sorting gmap strings.

Open Scope Z_scope.

Abbreviation timestamp := Z.
Definition HOUR : Z := 3600.

(** ** pandas helpers shared by both scripts *)

Module Pandas.

(** [pd.date_range(start, end, freq='h')]: [start], [start + 1h], ... up to
    the last value not after [end]. *)
Definition date_range (start stop : timestamp) : list timestamp :=
  map (fun k : nat => start + HOUR * Z.of_nat k)
      (seq 0 (Z.to_nat ((stop - start) / HOUR + 1))).

(** Minimum and maximum of a column; [None] on an empty column (NaT). *)
Definition col_min (l : list Z) : option Z :=
  match l with
  | [] => None
  | x :: r => Some (fold_left Z.min r x)
  end.

Definition col_max (l : list Z) : option Z :=
  match l with
  | [] => None
  | x :: r => Some (fold_left Z.max r x)
  end.

(** Orders used by [groupby] and [sort_index]: Python compares [str] by code
    point, which on UTF-8 strings is the byte-wise order of
    [String.compare]. *)
Definition cmp_pair {A B} (ca : A -> A -> comparison) (cb : B -> B -> comparison)
    (x y : A * B) : comparison :=
  match ca (fst x) (fst y) with
  | Eq => cb (snd x) (snd y)
  | c => c
  end.

Definition le_by {K} (cmp : K -> K -> comparison) (x y : K) : Prop :=
  cmp x y <> Gt.

Global Instance le_by_dec {K} (cmp : K -> K -> comparison) :
  RelDecision (le_by cmp).
Proof.
  intros x y. unfold le_by. destruct (cmp x y).
  - left; discriminate.
  - left; discriminate.
  - right; intros H; apply H; reflexivity.
Defined.

(** [df.groupby(keys)] (with the default [sort=True]): one group per
    distinct key, groups in ascending key order, the rows of a group in
    frame order. *)
Definition groupby {K A} `{EqDecision K} (cmp : K -> K -> comparison)
    (key : A -> K) (rows : list A) : list (K * list A) :=
  map (fun k => (k, filter (fun r => key r = k) rows))
      (merge_sort (le_by cmp) (remove_dups (map key rows))).

End Pandas.

(** ** [stl_12_24.py] *)

Module Stl.

Definition TOLERANCE_HOURS : nat := 2.
Definition STL_PERIOD : nat := 24.
Definition STL_SEASONAL : nat := 13.

(** A Series over a datetime index. *)
Abbreviation series := (list (timestamp * option Q)).

Definition isna (v : option Q) : bool :=
  match v with
  | None => true
  | Some _ => false
  end.

Record gap_report := mk_gap_report {
  gr_file : string;
  gr_site : string;
  gr_item : string;
  gr_type : string;
  gr_duration_hours : nat;
  gr_start_time : timestamp;
  gr_end_time : timestamp
}.

(** [series[is_nan].groupby(is_nan.ne(is_nan.shift()).cumsum())]: the
    maximal runs of consecutive NaN, in order; a run is given by the index
    labels of its positions. *)
Definition starts_with_nan (s : series) : bool :=
  match s with
  | (_, None) :: _ => true
  | _ => false
  end.

Fixpoint nan_blocks (s : series) : list (list timestamp) :=
  match s with
  | [] => []
  | (t, Some _) :: rest => nan_blocks rest
  | (t, None) :: rest =>
      let bs := nan_blocks rest in
      if starts_with_nan rest
      then match bs with
           | b :: bs' => (t :: b) :: bs'
           | [] => [[t]]
           end
      else [t] :: bs
  end.

(** The loop over [nan_blocks] that fills [gap_reports]. *)
Definition gap_reports_of (filename site item : string)
    (blocks : list (list timestamp)) : list gap_report :=
  omap (fun block : list timestamp =>
          let gap_len := length block in
          if (TOLERANCE_HOURS <? gap_len)%nat
          then Some (mk_gap_report filename site item
                       "長時間缺測 (STL中斷)" gap_len
                       (List.hd 0 block) (List.last block 0))
          else None)
       blocks.

(** Distance to, and value of, the first valid entry of a series. *)
Fixpoint next_valid (s : series) : option (nat * Q) :=
  match s with
  | [] => None
  | (_, Some v) :: _ => Some (O, v)
  | (_, None) :: rest =>
      match next_valid rest with
      | Some (d, v) => Some (S d, v)
      | None => None
      end
  end.

(** [np.interp] between the neighbours [a] (at distance [k] to the left)
    and [b] (the gap spans [n] positions between them):
    [slope * (x - xp[j]) + fp[j]]. *)
Definition interp_point (a b : Q) (k n : nat) : Q :=
  ((b - a) / inject_Z (Z.of_nat n)) * inject_Z (Z.of_nat k) + a.

(** [series.interpolate(method='linear', limit=limit)] with pandas'
    defaults [limit_direction='forward'], [limit_area=None]:
    - values are treated as equally spaced;
    - NaN before the first valid value are left as they are;
    - in every later run of NaN the first [limit] positions are filled,
      by the line through the two valid neighbours, or by the last valid
      value when the run reaches the end of the series;
    - the positions of a run beyond the first [limit] stay NaN.
    [prev] is the last valid value seen and [k] the number of NaN seen
    since. *)
Fixpoint interpolate_from (limit : nat) (prev : option Q) (k : nat)
    (s : series) : series :=
  match s with
  | [] => []
  | (t, Some v) :: rest => (t, Some v) :: interpolate_from limit (Some v) 0 rest
  | (t, None) :: rest =>
      let filled :=
        match prev with
        | None => None
        | Some a =>
            if (S k <=? limit)%nat then
              match next_valid rest with
              | Some (d, b) => Some (interp_point a b (S k) (S k + d + 1))
              | None => Some a
              end
            else None
        end in
      (t, filled) :: interpolate_from limit prev (S k) rest
  end.

Definition interpolate (limit : nat) (s : series) : series :=
  interpolate_from limit None 0 s.

(** [series_interp.fillna(0)]: a complete series. *)
Definition fillna0 (s : series) : list (timestamp * Q) :=
  map (fun p => (fst p, default 0%Q (snd p))) s.

(** [a - b] on two Series over the same index. *)
Definition sub_series (a : list (timestamp * Q)) (b : list Q) :
    list (timestamp * Q) :=
  zip_with (fun p y => (fst p, (snd p - y)%Q)) a b.

(** [x.mask(m)]: NaN where [m] holds, the value of [x] elsewhere. *)
Definition mask (x : list (timestamp * Q)) (m : list bool) : series :=
  zip_with (fun p (b : bool) => (fst p, if b then None else Some (snd p))) x m.

Section Decomposer.

(** [STL(series, period, seasonal).fit().seasonal]: the seasonal component
    computed by statsmodels, or [None] when the fit raises. *)
Variable STL_fit_seasonal :
  list (timestamp * Q) -> nat -> nat -> option (list Q).

Definition process_series_stl (s : series) (site item filename : string) :
    series * list gap_report :=
  let is_nan := map (fun p => isna (snd p)) s in
  if forallb id is_nan then (s, [])
  else
    let gap_reports := gap_reports_of filename site item (nan_blocks s) in
    let series_interp := interpolate TOLERANCE_HOURS s in
    let mask_large_gaps := map (fun p => isna (snd p)) series_interp in
    let series_for_stl := fillna0 series_interp in
    let final_series :=
      if (STL_PERIOD * 2 <? length series_for_stl)%nat then
        match STL_fit_seasonal series_for_stl STL_PERIOD STL_SEASONAL with
        | Some seasonal =>
            let deseasonalized := sub_series series_for_stl seasonal in
            mask deseasonalized mask_large_gaps
        | None => series_interp
        end
      else series_interp in
    (final_series, gap_reports).

(** One row of the anomaly CSV read by [process_file]: the parsed
    [datetime] ([None] is NaT), and the cell of the target column. *)
Record row := mk_row {
  r_datetime : option timestamp;
  r_site : string;
  r_item : string;
  r_value : option Q
}.

Record out_row := mk_out_row {
  o_datetime : timestamp;
  o_site : string;
  o_item : string;
  o_anomaly_stl : Q
}.

Definition cmp_site_item : string * string -> string * string -> comparison :=
  Pandas.cmp_pair String.compare String.compare.

(** [group.set_index('datetime')] then
    [group[~group.index.duplicated(keep='first')]]: a row is kept when no
    earlier row of the group carries its timestamp. *)
Fixpoint drop_duplicated (seen : list timestamp)
    (g : list (timestamp * option Q)) : list (timestamp * option Q) :=
  match g with
  | [] => []
  | (t, v) :: rest =>
      if bool_decide (t ∈ seen) then drop_duplicated seen rest
      else (t, v) :: drop_duplicated (t :: seen) rest
  end.

(** [col.reindex(full_range)] on a duplicate-free index: the value carried
    by the label, NaN for a label the index lacks. *)
Definition reindex (g : list (timestamp * option Q))
    (full_range : list timestamp) : series :=
  map (fun t => (t, match list_find (fun p => fst p = t) g with
                    | Some (_, (_, v)) => v
                    | None => None
                    end))
      full_range.

Definition process_group (filename : string) (full_range : list timestamp)
    (site item : string) (group : list (timestamp * row)) :
    list out_row * list gap_report :=
  let indexed := map (fun p => (fst p, r_value (snd p))) group in
  let s := reindex (drop_duplicated [] indexed) full_range in
  let '(stl_series, reports) := process_series_stl s site item filename in
  (omap (fun p => match snd p with
                  | Some v => Some (mk_out_row (fst p) site item v)
                  | None => None
                  end) stl_series,
   reports).

(** [process_file] after the file has been read and the target column
    chosen.  The result is the pair of the rows written to the
    [stl_<file>] CSV ([None] when there is no group, so nothing is
    written) and the gap reports; the outer [None] is the exception pandas
    raises for a frame without any parsable timestamp. *)
Definition process_file (file_name : string) (df : list row) :
    option (option (list out_row) * list gap_report) :=
  let df := omap (fun r => match r_datetime r with
                           | Some t => Some (t, r)
                           | None => None
                           end) df in
  match Pandas.col_min (map fst df), Pandas.col_max (map fst df) with
  | Some min_dt, Some max_dt =>
      let full_range := Pandas.date_range min_dt max_dt in
      let grouped :=
        Pandas.groupby cmp_site_item
          (fun p => (r_site (snd p), r_item (snd p))) df in
      let results :=
        map (fun g => process_group file_name full_range
                        (fst (fst g)) (snd (fst g)) (snd g)) grouped in
      Some (match results with
            | [] => None
            | _ => Some (concat (map fst results))
            end,
            concat (map snd results))
  | _, _ => None
  end.

End Decomposer.

End Stl.

(** ** [ge_12_24.py] *)

Module Ge.

(** *** Configuration *)

Definition areas : list (string * list string) :=
  [("北", ["三重"; "中壢"; "中山"; "冬山"; "古亭"; "土城"; "基隆"; "士林";
           "大園"; "宜蘭"; "平鎮"; "新店"; "新竹"; "新莊"; "松山"; "板橋";
           "林口"; "桃園"; "永和"; "汐止"; "淡水"; "湖口"; "竹東"; "菜寮";
           "萬華"; "萬里"; "觀音"; "陽明"; "龍潭"]);
   ("中", ["三義"; "二林"; "南投"; "大里"; "彰化"; "忠明"; "沙鹿";
           "線西"; "苗栗"; "西屯"; "豐原"; "頭份"]);
   ("南", ["仁武"; "前金"; "前鎮"; "善化"; "嘉義"; "大寮"; "安南";
           "小港"; "屏東"; "崙背"; "左營"; "復興"; "恆春"; "斗六";
           "新港"; "新營"; "朴子"; "林園"; "楠梓"; "橋頭"; "潮州";
           "美濃"; "臺南"; "臺西"; "鳳山"]);
   ("東", ["臺東"; "花蓮"])].

(** The loop that inverts [areas] into the dict [site_to_region]. *)
Definition site_to_region : gmap string string :=
  foldl (fun m (a : string * list string) =>
           foldl (fun m site => <[site := fst a]> m) m (snd a))
        ∅ areas.

Record item_info := mk_item_info {
  info_name : string;
  info_unit : string;
  info_min : Z;
  info_max : Z
}.

Definition items_info : list (string * item_info) :=
  [("AMB_TEMP", mk_item_info "環境溫度" "°C" (-15) 55);
   ("CO", mk_item_info "一氧化碳" "ppm" 0 60);
   ("NO", mk_item_info "一氧化氮" "ppb" 0 600);
   ("NO2", mk_item_info "二氧化氮" "ppb" 0 600);
   ("NOx", mk_item_info "氮氧化物" "ppb" 0 1200);
   ("O3", mk_item_info "臭氧" "ppb" 0 600);
   ("PM10", mk_item_info "PM10" "μg/m³" 0 1200);
   ("PM2.5", mk_item_info "PM2.5" "μg/m³" 0 600);
   ("RAINFALL", mk_item_info "降雨量" "mm" 0 3000);
   ("RH", mk_item_info "相對濕度" "%" 0 100);
   ("SO2", mk_item_info "二氧化硫" "ppb" 0 300);
   ("WD_HR", mk_item_info "平均風向" "degrees" 0 360);
   ("WIND_DIREC", mk_item_info "風向" "degrees" 0 360);
   ("WIND_SPEED", mk_item_info "風速" "m/s" 0 120);
   ("WS_HR", mk_item_info "平均風速" "m/s" 0 120)].

(** [items_info.get(item)] *)
Definition items_info_get (item : string) : option item_info :=
  snd <$> List.find (fun p => String.eqb (fst p) item) items_info.

(** *** Cells and calendar *)

(** A CSV cell of a value column: blank (read as NaN), text that
    [pd.to_numeric(errors='coerce')] turns into NaN, or numeric text with
    its value. *)
Inductive cell :=
  | CNull
  | CText (raw : string)
  | CNum (x : Q).

Definition is_null (c : cell) : bool :=
  match c with CNull => true | _ => false end.

Definition is_invalid_text (c : cell) : bool :=
  match c with CText _ => true | _ => false end.

Definition to_numeric (c : cell) : option Q :=
  match c with CNum x => Some x | _ => None end.

(** Proleptic Gregorian calendar on days since 1970-01-01. *)
Definition year_of_days (days : Z) : Z :=
  let z := days + 719468 in
  let era := z / 146097 in
  let doe := z - era * 146097 in
  let yoe := (doe - doe / 1460 + doe / 36524 - doe / 146096) / 365 in
  let doy := doe - (365 * yoe + yoe / 4 - yoe / 100) in
  let mp := (5 * doy + 2) / 153 in
  yoe + era * 400 + (if mp <? 10 then 0 else 1).

Definition days_of_jan1 (y : Z) : Z :=
  let y' := y - 1 in
  let era := y' / 400 in
  let yoe := y' - era * 400 in
  era * 146097 + (yoe * 365 + yoe / 4 - yoe / 100 + 306) - 719468.

(** [.dt.dayofyear] and [.dt.hour] *)
Definition dayofyear (t : timestamp) : Z :=
  let days := t / 86400 in
  days - days_of_jan1 (year_of_days days) + 1.

Definition hour_of (t : timestamp) : Z := (t / HOUR) mod 24.

(** *** STEP 1: the baseline index *)

(** Index key [(item, site, day_of_year, hour)]. *)
Definition key := (string * string * Z * Z)%type.

Definition cmp_key : key -> key -> comparison :=
  Pandas.cmp_pair
    (Pandas.cmp_pair (Pandas.cmp_pair String.compare String.compare) Z.compare)
    Z.compare.

(** An historical table as [pd.read_csv] returns it once the station
    column is named [site]: the labels of the value columns, and per row
    the station and the cells under those labels. *)
Record wide_table := mk_wide_table {
  wt_labels : list string;
  wt_rows : list (string * list cell)
}.

(** [df.melt(id_vars=['site'])]: column by column, and within a column row
    by row. *)
Definition melt (tbl : wide_table) : list (string * string * cell) :=
  concat (imap (fun i label =>
                  map (fun r : string * list cell =>
                         (fst r, label, default CNull (snd r !! i)))
                      (wt_rows tbl))
               (wt_labels tbl)).

(** [str.split('_')] *)
Fixpoint split_underscore (s : string) : list string :=
  match s with
  | EmptyString => [EmptyString]
  | String c r =>
      if Ascii.eqb c "_"%char then EmptyString :: split_underscore r
      else match split_underscore r with
           | h :: t => String c h :: t
           | [] => [String c EmptyString]
           end
  end.

(** Conversion of a label part to an integer of [bits] bits.  The labels
    of the historical tables are plain decimal literals, and these are what
    is covered: any other text, and a value the integer type cannot hold,
    count here as a conversion error.  Python's [int] accepts more (a
    sign, white space around the digits); such labels are outside this
    model. *)
Fixpoint digits_value (acc : Z) (s : string) : option Z :=
  match s with
  | EmptyString => Some acc
  | String c r =>
      let n := Z.of_nat (Ascii.nat_of_ascii c) in
      if (48 <=? n) && (n <=? 57) then digits_value (10 * acc + (n - 48)) r
      else None
  end.

Definition parse_int (bits : Z) (s : string) : option Z :=
  match s with
  | EmptyString => None
  | _ =>
      match digits_value 0 s with
      | Some n => if n <? 2 ^ (bits - 1) then Some n else None
      | None => None
      end
  end.

(** [temp_split[0].astype('int16')], [temp_split[1].astype('int8')] *)
Definition parse_day_hour (label : string) : option (Z * Z) :=
  match split_underscore label with
  | d :: h :: _ =>
      match parse_int 16 d, parse_int 8 h with
      | Some d', Some h' => Some (d', h')
      | _, _ => None
      end
  | _ => None
  end.

(** The key columns of a melted row; [None] when a label part does not
    convert. *)
Definition keyed_row (item : string) (r : string * string * cell) :
    option (key * cell) :=
  match parse_day_hour (snd (fst r)) with
  | Some (d, h) => Some ((item, fst (fst r), d, h), snd r)
  | None => None
  end.

(** [pd.to_numeric(errors='coerce')] then [dropna(subset=['avg_value'])]
    on one row. *)
Definition numeric_entry (e : key * cell) : option (key * Q) :=
  match to_numeric (snd e) with
  | Some v => Some (fst e, v)
  | None => None
  end.

(** The body of the [try] for one item: [None] when it raises (the item
    is then skipped).  A table without any cell melts to an empty frame,
    whose split has no column [0]: the lookup raises as well. *)
Definition load_item (item : string) (tbl : wide_table) :
    option (list (key * Q)) :=
  match melt tbl with
  | [] => None
  | df_melted =>
      match mapM (keyed_row item) df_melted with
      | Some keyed => Some (omap numeric_entry keyed)
      | None => None
      end
  end.

(** [avg_file item] is the table of [<item>_hourly_avg_fast.csv], or [None]
    when the file is absent, unreadable or has no station column.
    [item_rows] is one turn of the loop over the items: the rows the item
    adds to [all_avg_list], if any. *)
Definition item_rows (avg_file : string -> option wide_table)
    (it : string * item_info) : option (list (key * Q)) :=
  match avg_file (fst it) with
  | Some tbl => load_item (fst it) tbl
  | None => None
  end.

Definition load_and_transform_averages
    (avg_file : string -> option wide_table) : option (list (key * Q)) :=
  let all_avg_list := omap (item_rows avg_file) items_info in
  match all_avg_list with
  | [] => None
  | _ =>
      Some (merge_sort (fun a b => Pandas.le_by cmp_key (fst a) (fst b))
                       (concat all_avg_list))
  end.

(** *** STEP 2 and 3: one raw file *)

(** One row of a raw hourly file; [raw_datetime] is the result of
    [pd.to_datetime(errors='coerce')] ([None] is NaT). *)
Record raw_row := mk_raw_row {
  raw_datetime : option timestamp;
  raw_site : string;
  raw_item : string;
  raw_value : cell
}.

(** A row that passed the numeric conversion: parsed timestamp and numeric
    value. *)
Record obs := mk_obs {
  obs_datetime : timestamp;
  obs_site : string;
  obs_item : string;
  obs_value : Q
}.

(** The [detail] text of a report row, by the data it is formatted from. *)
Inductive detail :=
  | NullCount (count : nat)
  | BadText (raw : string)
  | OutOfBound (value : Q) (lo hi : Z)
  | MissingHours (missing_count : Z).

Record finding := mk_finding {
  f_file : string;
  f_site : string;
  f_item : string;
  f_type : string;
  f_detail : detail
}.

Record major_event := mk_major_event {
  me_file : string;
  me_datetime : timestamp;
  me_event : string
}.

(** A row of [merged]. *)
Record merged_row := mk_merged_row {
  m_item : string;
  m_site : string;
  m_day_of_year : Z;
  m_hour : Z;
  m_datetime : timestamp;
  m_value : Q;
  m_avg_value : Q;
  m_anomaly : Q
}.

(** A row of the anomaly CSV: [merged[['datetime','site','item','anomaly']]]. *)
Record anomaly_record := mk_anomaly_record {
  a_datetime : timestamp;
  a_site : string;
  a_item : string;
  a_anomaly : Q
}.

(** A row of [region_avg]. *)
Record regional_average := mk_regional_average {
  ra_datetime : timestamp;
  ra_item : string;
  ra_region : string;
  ra_anomaly : Q;
  ra_site : string
}.

Record output := mk_output {
  out_anomaly : list anomaly_record;
  out_region_avg : list regional_average;
  out_report : list finding;
  out_major_events : list major_event
}.

Definition cmp_site_item : string * string -> string * string -> comparison :=
  Pandas.cmp_pair String.compare String.compare.

Definition cmp_dt_item_region :
    Z * string * string -> Z * string * string -> comparison :=
  Pandas.cmp_pair (Pandas.cmp_pair Z.compare String.compare) String.compare.

Definition Qltb (x y : Q) : bool := negb (Qle_bool y x).

(** [(value < min) | (value > max)] *)
Definition out_of_bound (info : item_info) (o : obs) : bool :=
  Qltb (obs_value o) (inject_Z (info_min info))
  || Qltb (inject_Z (info_max info)) (obs_value o).

Definition obs_key (o : obs) : key :=
  (obs_item o, obs_site o, dayofyear (obs_datetime o), hour_of (obs_datetime o)).

(** [df_clean.join(global_avg_lookup, how='inner')]: one row per pair of a
    clean row and an index entry under the same key. *)
Definition join_inner (df_clean : list obs) (lookup : list (key * Q)) :
    list (obs * Q) :=
  o ← df_clean;
  e ← filter (fun e : key * Q => fst e = obs_key o) lookup;
  [(o, snd e)].

Definition Qsum (l : list Q) : Q := foldr Qplus 0%Q l.

(** The arithmetic mean of a non-empty group, computed exactly. *)
Definition Qmean (l : list Q) : Q :=
  (Qsum l / inject_Z (Z.of_nat (length l)))%Q.

(** STEP 2: the null check. *)
Definition null_findings (file_name : string) (df : list raw_row) :
    list finding :=
  let null_rows := filter (fun r => is_null (raw_value r)) df in
  map (fun g : (string * string) * list raw_row =>
         mk_finding file_name (fst (fst g)) (snd (fst g)) "原始資料空值"
           (NullCount (length (snd g))))
      (Pandas.groupby cmp_site_item (fun r => (raw_site r, raw_item r))
         null_rows).

(** STEP 3: text that is not a number. *)
Definition invalid_text_findings (file_name : string) (df : list raw_row) :
    list finding :=
  omap (fun r => match raw_value r with
                 | CText raw =>
                     Some (mk_finding file_name (raw_site r) (raw_item r)
                             "非預期文字" (BadText raw))
                 | _ => None
                 end) df.

(** [df.dropna(subset=['datetime', 'numeric_value'])] *)
Definition dropna_rows (df : list raw_row) : list obs :=
  omap (fun r => match raw_datetime r, to_numeric (raw_value r) with
                 | Some t, Some x => Some (mk_obs t (raw_site r) (raw_item r) x)
                 | _, _ => None
                 end) df.

(** STEP 4: the range check of one item group: its findings and the rows
    it keeps. *)
Definition check_group (file_name : string) (item : string)
    (group : list obs) : list finding * list obs :=
  match items_info_get item with
  | Some info =>
      let errs := filter (fun o => out_of_bound info o) group in
      (map (fun o => mk_finding file_name (obs_site o) (obs_item o) "數值越界"
                       (OutOfBound (obs_value o) (info_min info) (info_max info)))
           (take 5 errs),
       filter (fun o => negb (out_of_bound info o)) group)
  | None => ([], group)
  end.

(** STEP 5: missing timestamps of the groups of [df_clean]. *)
Definition missing_findings (file_name : string) (expected_len : nat)
    (df_clean : list obs) : list finding :=
  omap (fun g : (string * string) * list obs =>
          if (length (snd g) <? expected_len)%nat then
            let existing_dts : gset Z :=
              list_to_set (map obs_datetime (snd g)) in
            let missing_count :=
              Z.of_nat expected_len - Z.of_nat (size existing_dts) in
            Some (mk_finding file_name (fst (fst g)) (snd (fst g))
                    "時段資料遺失" (MissingHours missing_count))
          else None)
       (Pandas.groupby cmp_site_item (fun o => (obs_site o, obs_item o))
          df_clean).

(** STEP 6: timestamps of the full range at which [df_clean] has no row. *)
Definition major_events_of (file_name : string) (full_range : list timestamp)
    (df_clean : list obs) : list major_event :=
  let existing_times : gset Z := list_to_set (map obs_datetime df_clean) in
  let missing_times : gset Z := list_to_set full_range ∖ existing_times in
  map (fun t => mk_major_event file_name t "重大事件：全網斷訊")
      (elements missing_times).

(** STEP 7: the anomaly. *)
Definition merge_anomaly (df_clean : list obs) (lookup : list (key * Q)) :
    list merged_row :=
  map (fun p : obs * Q =>
         let o := fst p in
         mk_merged_row (obs_item o) (obs_site o)
           (dayofyear (obs_datetime o)) (hour_of (obs_datetime o))
           (obs_datetime o) (obs_value o) (snd p)
           (obs_value o - snd p)%Q)
      (join_inner df_clean lookup).

(** STEP 8: [merged['site'].map(site_to_region)] and
    [dropna(subset=['region'])]. *)
Definition valid_regions (merged : list merged_row) :
    list (merged_row * string) :=
  omap (fun m => match site_to_region !! m_site m with
                 | Some region => Some (m, region)
                 | None => None
                 end) merged.

Definition region_key (p : merged_row * string) : Z * string * string :=
  (m_datetime (fst p), m_item (fst p), snd p).

(** STEP 8: the regional mean.  [mean] is the [.mean()] of a group of the
    [anomaly] column, applied to the values of the group in table order:
    pandas computes it in the float type of the column, so it is kept
    apart from the grouping. *)
Definition region_average_by (mean : list Q -> Q)
    (merged : list merged_row) : list regional_average :=
  map (fun g : (Z * string * string) * list (merged_row * string) =>
         let '(dt, item, region) := fst g in
         mk_regional_average dt item region
           (mean (map (fun p => m_anomaly (fst p)) (snd g)))
           ("AVG_" +:+ region))
      (Pandas.groupby cmp_dt_item_region region_key (valid_regions merged)).

(** The regional mean in exact arithmetic. *)
Definition region_average : list merged_row -> list regional_average :=
  region_average_by Qmean.

(** [min_dt], [max_dt] and [full_range]; [None] when no timestamp of the
    file could be parsed. *)
Definition full_range_of (df : list raw_row) : option (list timestamp) :=
  let dts := omap raw_datetime df in
  match Pandas.col_min dts, Pandas.col_max dts with
  | Some min_dt, Some max_dt => Some (Pandas.date_range min_dt max_dt)
  | _, _ => None
  end.

(** The loop of STEP 4 over [df.groupby('item')]. *)
Definition range_check (file_name : string) (df : list obs) :
    list (list finding * list obs) :=
  map (fun g : string * list obs => check_group file_name (fst g) (snd g))
      (Pandas.groupby String.compare obs_item df).

(** [df_clean]: the clean observations of a file. *)
Definition clean_rows (file_name : string) (df : list raw_row) : list obs :=
  concat (map snd (range_check file_name (dropna_rows df))).

Definition anomaly_csv (merged : list merged_row) : list anomaly_record :=
  map (fun m => mk_anomaly_record (m_datetime m) (m_site m) (m_item m)
                  (m_anomaly m)) merged.

(** [process_and_plot] up to the point where its tables are written; the
    plots are left out.  [None] is an early [return None], after which
    nothing is written.  [mean] is the group mean of STEP 8. *)
Definition process_and_plot_by (mean : list Q -> Q)
    (global_avg_lookup : list (key * Q))
    (file_name : string) (df : list raw_row) : option output :=
  match full_range_of df with
  | Some full_range =>
      let report2 := null_findings file_name df in
      let report3 := invalid_text_findings file_name df in
      let checked := range_check file_name (dropna_rows df) in
      let report4 := concat (map fst checked) in
      match map snd checked with
      | [] => None
      | _ =>
          let df_clean := clean_rows file_name df in
          let expected_len := length full_range in
          let report5 := missing_findings file_name expected_len df_clean in
          let major_events := major_events_of file_name full_range df_clean in
          let merged := merge_anomaly df_clean global_avg_lookup in
          match merged with
          | [] => None
          | _ =>
              Some (mk_output (anomaly_csv merged)
                      (region_average_by mean merged)
                      (report2 ++ report3 ++ report4 ++ report5)
                      major_events)
          end
      end
  | None => None
  end.

(** [process_and_plot] with the regional mean in exact arithmetic. *)
Definition process_and_plot :
    list (key * Q) -> string -> list raw_row -> option output :=
  process_and_plot_by Qmean.

End Ge.

(** ** Vocabulary of the properties *)

(** Whether position [i] of a series is missing. *)
Definition isna_at (s : Stl.series) (i : nat) : option bool :=
  (fun p => Stl.isna (snd p)) <$> s !! i.

(** A series all of whose values are missing. *)
Definition all_nan (s : Stl.series) : Prop :=
  Forall (fun p => snd p = None) s.

(** A maximal run of missing values: positions [start .. start+len-1]. *)
Definition missing_run (s : Stl.series) (start len : nat) : Prop :=
  (0 < len)%nat /\
  (forall i, (start <= i < start + len)%nat ->
             exists t, s !! i = Some (t, None)) /\
  (start = 0%nat \/ exists t v, s !! (start - 1)%nat = Some (t, Some v)) /\
  (s !! (start + len)%nat = None \/
   exists t v, s !! (start + len)%nat = Some (t, Some v)).

(** The seasonal component returned by a decomposition lies over the index
    of the decomposed series. *)
Definition seasonal_aligned
    (fit : list (timestamp * Q) -> nat -> nat -> option (list Q)) : Prop :=
  forall xs period seasonal seas,
    fit xs period seasonal = Some seas -> length seas = length xs.








(** ** Sample inputs *)

(** The 5-hour gap of the spec's scenario, between two valid hours. *)
Definition gap5 : Stl.series :=
  [(0, Some 1%Q); (3600, None); (7200, None); (10800, None);
   (14400, None); (18000, None); (21600, Some 7%Q)].


(** Zero seasonal component: a decomposition that always succeeds. *)
Definition flat_fit (xs : list (timestamp * Q)) (period seasonal : nat) :
    option (list Q) :=
  Some (map (fun _ => 0%Q) xs).

(** Fifty hours with a 2-hour gap after the first. *)
Definition hours50 : Stl.series :=
  (0, Some 1%Q) :: (3600, None) :: (7200, None) ::
  map (fun k : nat => (3600 * Z.of_nat k, Some 4%Q)) (seq 3 47).

(** IEEE binary32 (the [float32] dtype of the value and baseline columns):
    the float nearest to [m * 2^e], and subtraction. *)
Definition float32_of (m e : Z) : spec_float := binary_normalize 24 128 m e false.
Definition float32_sub : spec_float -> spec_float -> spec_float := SFsub 24 128.





(** The spec's scenario: the O3 table has station 臺南 with column 45_10 at
    30.0; the raw file has 35.5 for 臺南, O3 on 2024-02-14 10:00 (day 45 of
    the year, hour 10). *)
Definition scenario_table : Ge.wide_table :=
  Ge.mk_wide_table ["45_10"] [("臺南", [Ge.CNum 30%Q])].

Definition scenario_files (item : string) : option Ge.wide_table :=
  if String.eqb item "O3" then Some scenario_table else None.

Definition scenario_lookup : list (Ge.key * Q) :=
  [(("O3", "臺南", 45, 10), 30%Q)].

Definition scenario_time : timestamp := 1707904800.

Definition scenario_raw : list Ge.raw_row :=
  [Ge.mk_raw_row (Some scenario_time) "臺南" "O3" (Ge.CNum (71 # 2))].



(** A file with the scenario's observation and one of a station, 花蓮, for
    which the baseline index has no entry. *)
Definition unmatched_raw : list Ge.raw_row :=
  [Ge.mk_raw_row (Some scenario_time) "臺南" "O3" (Ge.CNum (71 # 2));
   Ge.mk_raw_row (Some scenario_time) "花蓮" "O3" (Ge.CNum 20%Q)].

(** A file in which the only station reports at 10:00 and 12:00: no station
    reports at 11:00. *)
Definition silent_hour_raw : list Ge.raw_row :=
  [Ge.mk_raw_row (Some scenario_time) "臺南" "O3" (Ge.CNum (71 # 2));
   Ge.mk_raw_row (Some (scenario_time + 2 * HOUR)) "臺南" "O3" (Ge.CNum 36%Q)].

(** Timestamps of the rows of a (station, item) group of clean rows. *)
Definition group_times (rows : list Ge.obs) (site item : string) : gset Z :=
  list_to_set
    (map Ge.obs_datetime
         (filter (fun o => (Ge.obs_site o, Ge.obs_item o) = (site, item)) rows)).

(** Timestamps at which some clean row exists. *)
Definition network_times (rows : list Ge.obs) : gset Z :=
  list_to_set (map Ge.obs_datetime rows).

(** What [process_and_plot] returns on [silent_hour_raw]. *)
Definition silent_hour_output : Ge.output :=
  Ge.mk_output
    [Ge.mk_anomaly_record scenario_time "臺南" "O3" (11 # 2)]
    [Ge.mk_regional_average scenario_time "O3" "南" (11 # 2) "AVG_南"]
    [Ge.mk_finding "f" "臺南" "O3" "時段資料遺失" (Ge.MissingHours 1)]
    [Ge.mk_major_event "f" (scenario_time + HOUR) "重大事件：全網斷訊"].




From Stdlib Require Import Lqa.

(** ** Vocabulary of the further properties *)

(** The index labels of the positions [start .. start+len-1]. *)
Definition run_labels (s : Stl.series) (start len : nat) : list timestamp :=
  map fst (take len (drop start s)).

(** The maximal runs of missing values of a series, each by its first
    position and its length, in order. *)
Fixpoint nan_runs (s : Stl.series) : list (nat * nat) :=
  match s with
  | [] => []
  | (_, Some _) :: rest => map (fun r => (S (fst r), snd r)) (nan_runs rest)
  | (_, None) :: rest =>
      if Stl.starts_with_nan rest
      then match nan_runs rest with
           | (_, n) :: rs => (0%nat, S n) :: map (fun r => (S (fst r), snd r)) rs
           | [] => [(0%nat, 1%nat)]
           end
      else (0%nat, 1%nat) :: map (fun r => (S (fst r), snd r)) (nan_runs rest)
  end.

(** ** Further sample inputs *)

(** A raw file with one observation that has a baseline entry, two blank
    values of (臺南, PM2.5), a text value, a numeric row whose timestamp
    does not parse, and six O3 values above the limit of 600. *)
Definition mixed_raw : list Ge.raw_row :=
  [Ge.mk_raw_row (Some scenario_time) "臺南" "O3" (Ge.CNum (71 # 2));
   Ge.mk_raw_row (Some scenario_time) "臺南" "PM2.5" Ge.CNull;
   Ge.mk_raw_row (Some (scenario_time + HOUR)) "臺南" "PM2.5" Ge.CNull;
   Ge.mk_raw_row (Some scenario_time) "花蓮" "O3" (Ge.CText "#");
   Ge.mk_raw_row None "臺南" "O3" (Ge.CNum 5)] ++
  map (fun k : nat =>
         Ge.mk_raw_row (Some (scenario_time + HOUR * Z.of_nat k)) "臺南" "O3"
           (Ge.CNum (inject_Z (600 + Z.of_nat k))))
      (seq 1 6).

(** What [process_and_plot] returns on [mixed_raw]. *)
Definition mixed_output : Ge.output :=
  Ge.mk_output
    [Ge.mk_anomaly_record scenario_time "臺南" "O3" (11 # 2)]
    [Ge.mk_regional_average scenario_time "O3" "南" (11 # 2) "AVG_南"]
    [Ge.mk_finding "f" "臺南" "PM2.5" "原始資料空值" (Ge.NullCount 2);
     Ge.mk_finding "f" "花蓮" "O3" "非預期文字" (Ge.BadText "#");
     Ge.mk_finding "f" "臺南" "O3" "數值越界" (Ge.OutOfBound 601 0 600);
     Ge.mk_finding "f" "臺南" "O3" "數值越界" (Ge.OutOfBound 602 0 600);
     Ge.mk_finding "f" "臺南" "O3" "數值越界" (Ge.OutOfBound 603 0 600);
     Ge.mk_finding "f" "臺南" "O3" "數值越界" (Ge.OutOfBound 604 0 600);
     Ge.mk_finding "f" "臺南" "O3" "數值越界" (Ge.OutOfBound 605 0 600);
     Ge.mk_finding "f" "臺南" "O3" "時段資料遺失" (Ge.MissingHours 6)]
    (map (fun t => Ge.mk_major_event "f" t "重大事件：全網斷訊")
         [1707922800; 1707908400; 1707915600; 1707919200; 1707912000;
          1707926400]).

(** ** [stl_pi_12_24.py] *)

Module StlPlot.

(** [region_order], the regions a plot draws, in this order. *)
Definition region_order : list string := ["北"; "中"; "南"; "東"].

(** [plot_file] once the stl table is read and its [datetime] column is
    converted (a blank timestamp is NaT, a blank value NaN):
    [df['site'].map(site_to_region)], [dropna(subset=['region'])] and the
    key columns of [groupby(['datetime', 'item', 'region'])], which leaves
    out a row whose timestamp is NaT.  The dict [site_to_region] is built
    by the same loop from the same [areas] as in [ge_12_24.py]. *)
Definition keyed (df : list Stl.row) :
    list ((Z * string * string) * option Q) :=
  omap (fun r =>
          match Ge.site_to_region !! Stl.r_site r, Stl.r_datetime r with
          | Some region, Some t =>
              Some ((t, Stl.r_item r, region), Stl.r_value r)
          | _, _ => None
          end) df.

(** [.mean()] of a group: NaN is skipped, and the mean of no value is NaN. *)
Definition nanmean (l : list (option Q)) : option Q :=
  match omap id l with
  | [] => None
  | vs => Some (Ge.Qmean vs)
  end.

Record region_row := mk_region_row {
  rr_datetime : timestamp;
  rr_item : string;
  rr_region : string;
  rr_anomaly_stl : option Q
}.

Definition region_avg (df : list Stl.row) : list region_row :=
  map (fun g : (Z * string * string) * list ((Z * string * string) * option Q) =>
         let '(dt, item, region) := fst g in
         mk_region_row dt item region (nanmean (map snd (snd g))))
      (Pandas.groupby Ge.cmp_dt_item_region fst (keyed df)).

(** [Series.unique()]: the distinct values in order of first appearance. *)
Fixpoint unique_from (seen l : list string) : list string :=
  match l with
  | [] => []
  | x :: rest =>
      if bool_decide (x ∈ seen) then unique_from seen rest
      else x :: unique_from (x :: seen) rest
  end.

Definition unique (l : list string) : list string := unique_from [] l.

(** [has_data] after the loop over [region_order]: some region is a
    column of the pivot of [data_item] and its series has a value. *)
Definition has_data (data_item : list region_row) : bool :=
  existsb (fun reg =>
             existsb (fun rr => bool_decide (rr_region rr = reg)) data_item
             && existsb (fun rr => bool_decide (rr_region rr = reg)
                                   && bool_decide (is_Some (rr_anomaly_stl rr)))
                        data_item)
          region_order.

(** The items for which [plot_file] saves a figure, in order. *)
Definition plotted_items (df : list Stl.row) : list string :=
  filter (fun item =>
            has_data (filter (fun rr => rr_item rr = item) (region_avg df)))
         (unique (map rr_item (region_avg df))).

End StlPlot.
(** * Properties of the seasonal decomposer *)

Section StlFacts.
Import Stl.

Lemma isna_at_cons x (s : series) i : isna_at (x :: s) (S i) = isna_at s i.
Proof. reflexivity. Qed.

Lemma isna_at_head x (s : series) : isna_at (x :: s) 0 = Some (isna (snd x)).
Proof. reflexivity. Qed.

Lemma interpolate_from_length limit s :
  forall prev k, length (interpolate_from limit prev k s) = length s.
Proof.
  induction s as [|[t [v|]] rest IH]; intros prev k; simpl; auto.
Qed.

Lemma interpolate_from_index limit s :
  forall prev k, map fst (interpolate_from limit prev k s) = map fst s.
Proof.
  induction s as [|[t [v|]] rest IH]; intros prev k; simpl; f_equal; auto.
Qed.

Lemma interpolate_from_valid limit s :
  forall prev k i t v,
    s !! i = Some (t, Some v) ->
    interpolate_from limit prev k s !! i = Some (t, Some v).
Proof.
  induction s as [|[t0 [v0|]] rest IH]; intros prev k [|i] t v H;
    simpl in *; try discriminate; auto.
Qed.

Lemma interpolate_from_all_nan limit s :
  forall k, Forall (fun p => snd p = None) s ->
            interpolate_from limit None k s = s.
Proof.
  induction s as [|[t v] rest IH]; intros k H; [reflexivity|].
  inversion H as [|? ? Hv Hrest]; subst. simpl in Hv. subst v.
  simpl. f_equal. apply IH. assumption.
Qed.

(** Inside a leading run of the scanned suffix, a position is filled
    exactly when a valid value was seen at most [limit] positions ago. *)
Lemma interpolate_from_leading limit s :
  forall prev k i,
    (forall j, (j <= i)%nat -> exists t, s !! j = Some (t, None)) ->
    isna_at (interpolate_from limit prev k s) i =
      Some (negb (bool_decide (is_Some prev) && (k + i + 1 <=? limit)%nat)).
Proof.
  induction s as [|[t0 v0] rest IH]; intros prev k i H.
  - destruct (H 0%nat) as [t Ht]; [lia|]. discriminate.
  - destruct (H 0%nat) as [t Ht]; [lia|]. simpl in Ht.
    injection Ht as -> ->.
    destruct i as [|i].
    + cbn [interpolate_from]. rewrite isna_at_head. cbn [snd].
      destruct prev as [a|]; [|reflexivity].
      replace (k + 0 + 1)%nat with (S k) by lia.
      rewrite bool_decide_true by eauto.
      destruct (S k <=? limit)%nat; [|reflexivity].
      destruct (next_valid rest) as [[d b]|]; reflexivity.
    + cbn [interpolate_from]. rewrite isna_at_cons.
      rewrite (IH prev (S k) i).
      * do 3 f_equal. f_equal. lia.
      * intros j Hj. destruct (H (S j)) as [t' Ht']; [lia|]. eauto.
Qed.

(** After a valid value at [j], a missing position [i] of the same run is
    filled exactly when it is at most [limit] positions behind [j]. *)
Lemma interpolate_from_after_valid limit s :
  forall prev k j i tj vj,
    (j < i)%nat ->
    s !! j = Some (tj, Some vj) ->
    (forall m, (j < m <= i)%nat -> exists t, s !! m = Some (t, None)) ->
    isna_at (interpolate_from limit prev k s) i =
      Some (negb (i - j <=? limit)%nat).
Proof.
  induction s as [|[t0 v0] rest IH]; intros prev k j i tj vj Hji Hj Hrun.
  - discriminate.
  - destruct i as [|i]; [lia|].
    destruct j as [|j].
    + simpl in Hj. injection Hj as -> ->.
      cbn [interpolate_from]. rewrite isna_at_cons.
      rewrite interpolate_from_leading.
      * rewrite bool_decide_true by eauto.
        replace (0 + i + 1)%nat with (S i - 0)%nat by lia. reflexivity.
      * intros m Hm. destruct (Hrun (S m)) as [t Ht]; [lia|]. eauto.
    + simpl in Hj.
      assert (Hrec : forall prev' k',
                 isna_at (interpolate_from limit prev' k' rest) i =
                 Some (negb (S i - S j <=? limit)%nat)).
      { intros prev' k'. replace (S i - S j)%nat with (i - j)%nat by lia.
        apply (IH prev' k' j i tj vj); [lia|assumption|].
        intros m Hm. destruct (Hrun (S m)) as [t Ht]; [lia|]. eauto. }
      destruct v0 as [v0|]; cbn [interpolate_from]; rewrite isna_at_cons;
        apply Hrec.
Qed.

Lemma all_nan_forallb s :
  forallb id (map (fun p => isna (snd p)) s) = true <-> all_nan s.
Proof.
  unfold all_nan. induction s as [|[t [v|]] rest IH]; simpl.
  - split; auto.
  - split; [discriminate|]. intros H. inversion H; subst. discriminate.
  - rewrite IH. split; [intros H; constructor; auto|].
    intros H. inversion H; subst. assumption.
Qed.

Lemma nan_blocks_nan_cons t rest :
  nan_blocks ((t, None) :: rest) =
  if starts_with_nan rest
  then match nan_blocks rest with
       | b :: bs' => (t :: b) :: bs'
       | [] => [[t]]
       end
  else [t] :: nan_blocks rest.
Proof. reflexivity. Qed.

Lemma nan_blocks_all_nan_cons s :
  forall t, all_nan s -> nan_blocks ((t, None) :: s) = [t :: map fst s].
Proof.
  unfold all_nan. induction s as [|[t' v'] rest IH]; intros t H.
  - reflexivity.
  - inversion H as [|? ? Hv Hrest]; subst. simpl in Hv. subst v'.
    rewrite nan_blocks_nan_cons. rewrite (IH t' Hrest). reflexivity.
Qed.

Section WithDecomposition.

Variable STL_fit_seasonal :
  list (timestamp * Q) -> nat -> nat -> option (list Q).

Lemma mask_deseasonalized_isna (si : series) seas i :
  length seas = length si ->
  isna_at (mask (sub_series (fillna0 si) seas) (map (fun p => isna (snd p)) si)) i
  = isna_at si i.
Proof.
  intros Hlen. unfold isna_at, mask, sub_series, fillna0.
  rewrite !lookup_zip_with, !list_lookup_fmap.
  destruct (si !! i) as [[t v]|] eqn:E; simpl.
  - destruct (lookup_lt_is_Some_2 seas i) as [y Hy].
    { rewrite Hlen. eapply lookup_lt_Some; eauto. }
    rewrite Hy. simpl. destruct v; reflexivity.
  - reflexivity.
Qed.

Lemma process_series_stl_isna s site item file i :
  seasonal_aligned STL_fit_seasonal ->
  isna_at (fst (process_series_stl STL_fit_seasonal s site item file)) i =
  isna_at (interpolate TOLERANCE_HOURS s) i.
Proof.
  intros Hal. unfold process_series_stl.
  destruct (forallb id (map (fun p => isna (snd p)) s)) eqn:Eall.
  - apply all_nan_forallb in Eall. unfold interpolate.
    rewrite interpolate_from_all_nan by assumption. reflexivity.
  - cbn [fst].
    destruct (STL_PERIOD * 2 <? length (fillna0 (interpolate TOLERANCE_HOURS s)))%nat;
      [|reflexivity].
    destruct (STL_fit_seasonal _ _ _) as [seas|] eqn:Efit; [|reflexivity].
    apply mask_deseasonalized_isna.
    apply Hal in Efit. rewrite Efit. unfold fillna0. apply length_map.
Qed.

Lemma process_series_stl_fallback s site item file :
  (length s <= STL_PERIOD * 2)%nat \/
  STL_fit_seasonal (fillna0 (interpolate TOLERANCE_HOURS s))
    STL_PERIOD STL_SEASONAL = None ->
  fst (process_series_stl STL_fit_seasonal s site item file) =
  interpolate TOLERANCE_HOURS s.
Proof.
  intros H. unfold process_series_stl.
  destruct (forallb id (map (fun p => isna (snd p)) s)) eqn:Eall.
  - apply all_nan_forallb in Eall. unfold interpolate.
    rewrite interpolate_from_all_nan by assumption. reflexivity.
  - cbn [fst].
    destruct (STL_PERIOD * 2 <? length (fillna0 (interpolate TOLERANCE_HOURS s)))%nat
      eqn:Elen; [|reflexivity].
    destruct H as [H|H].
    + apply Nat.ltb_lt in Elen. unfold fillna0, interpolate in Elen.
      rewrite length_map, interpolate_from_length in Elen. lia.
    + rewrite H. reflexivity.
Qed.

End WithDecomposition.

End StlFacts.

(** ** Claims on [process_series_stl] *)

Section StlClaims.
Import Stl.

Lemma missing_run_gap5 : missing_run gap5 1 5.
Proof.
  repeat split; [lia| |right; eauto|right; simpl; eauto].
  intros i Hi.
  destruct i as [|[|[|[|[|[|i]]]]]]; try lia; simpl; eauto.
Qed.


(** C1 (defect): the gap [3600 .. 18000] of [gap5] has 5 missing hours, more
    than [TOLERANCE_HOURS], and is reported as a long gap; yet the returned
    series carries values at its first two positions (2 and 3, on the line
    from 1 to 7) and is missing only at the last three. *)
Theorem C1_break_gap_partly_filled :
  forall fit site item file,
    missing_run gap5 1 5 /\
    (TOLERANCE_HOURS < 5)%nat /\
    map (fun p => (fst p, Qred <$> snd p))
        (fst (process_series_stl fit gap5 site item file)) =
      [(0, Some 1%Q); (3600, Some 2%Q); (7200, Some 3%Q); (10800, None);
       (14400, None); (18000, None); (21600, Some 7%Q)] /\
    snd (process_series_stl fit gap5 site item file) =
      [mk_gap_report file site item "長時間缺測 (STL中斷)" 5 3600 18000].
Proof.
  intros fit site item file.
  split; [exact missing_run_gap5|].
  split; [unfold TOLERANCE_HOURS; lia|].
  split; reflexivity.
Qed.







(** C8: when the series has at most [2 * STL_PERIOD] = 48 positions, or the
    decomposition raises, the returned series is the interpolated series
    itself; the function returns normally in either case. *)
Theorem C8_fallback_returns_interpolated :
  forall fit s site item file,
    (length s <= 2 * STL_PERIOD)%nat \/
    fit (fillna0 (interpolate TOLERANCE_HOURS s)) STL_PERIOD STL_SEASONAL = None ->
    fst (process_series_stl fit s site item file) =
    interpolate TOLERANCE_HOURS s.
Proof.
  intros fit s site item file H.
  apply process_series_stl_fallback.
  destruct H as [H|H]; [left; lia|right; assumption].
Qed.

Lemma C8_fallback_returns_interpolated_witness :
  fst (process_series_stl (fun _ _ _ => None) hours50 "s" "i" "f") =
  interpolate TOLERANCE_HOURS hours50.
Proof.
  apply (C8_fallback_returns_interpolated (fun _ _ _ => None) hours50).
  right. reflexivity.
Defined.

(** C9: a series whose values are all missing is returned as it is, with no
    gap report -- although, when it is longer than [TOLERANCE_HOURS], it is
    one missing run that the report loop would have reported. *)
Theorem C9_all_missing_returned_unreported :
  forall fit s site item file,
    all_nan s ->
    process_series_stl fit s site item file = (s, []) /\
    ((TOLERANCE_HOURS < length s)%nat ->
     missing_run s 0 (length s) /\
     gap_reports_of file site item (nan_blocks s) =
       [mk_gap_report file site item "長時間缺測 (STL中斷)" (length s)
          (List.hd 0 (map fst s)) (List.last (map fst s) 0)]).
Proof.
  intros fit s site item file Hall. split.
  - unfold process_series_stl.
    apply all_nan_forallb in Hall. rewrite Hall. reflexivity.
  - intros Hlen. split.
    + repeat split; [unfold TOLERANCE_HOURS in Hlen; lia| |left; reflexivity|].
      * intros i Hi.
        destruct (lookup_lt_is_Some_2 s i) as [[t v] Hv]; [lia|].
        unfold all_nan in Hall. rewrite Forall_lookup in Hall.
        pose proof (Hall i _ Hv) as Hn. simpl in Hn. subst v. eauto.
      * left. apply lookup_ge_None. lia.
    + destruct s as [|[t v] rest]; [simpl in Hlen; lia|].
      assert (v = None) as ->
          by (unfold all_nan in Hall; inversion Hall; subst; assumption).
      rewrite nan_blocks_all_nan_cons
        by (unfold all_nan in *; inversion Hall; subst; assumption).
      unfold gap_reports_of. cbn [omap list_omap].
      replace (length (t :: map fst rest)) with (length ((t, @None Q) :: rest))
        by (simpl; rewrite length_map; reflexivity).
      apply Nat.ltb_lt in Hlen. rewrite Hlen. reflexivity.
Qed.

Lemma C9_all_missing_returned_unreported_witness :
  process_series_stl flat_fit [(0, None); (3600, None); (7200, None)]
    "s" "i" "f" = ([(0, None); (3600, None); (7200, None)], []) /\
  ((TOLERANCE_HOURS < 3)%nat ->
   missing_run [(0, None); (3600, None); (7200, None)] 0 3 /\
   gap_reports_of "f" "s" "i"
     (nan_blocks [(0, None); (3600, None); (7200, None)]) =
     [mk_gap_report "f" "s" "i" "長時間缺測 (STL中斷)" 3 0 7200]).
Proof.
  apply (C9_all_missing_returned_unreported flat_fit
           [(0, None); (3600, None); (7200, None)] "s" "i" "f").
  repeat constructor.
Defined.

End StlClaims.

(** ** The per-file driver of the decomposer *)

Section StlDriver.
Import Stl.




Variable fit : list (timestamp * Q) -> nat -> nat -> option (list Q).


Lemma list_find_drop_duplicated t g :
  forall seen, t ∉ seen ->
    snd <$> list_find (fun p : timestamp * option Q => fst p = t)
              (drop_duplicated seen g) =
    snd <$> list_find (fun p : timestamp * option Q => fst p = t) g.
Proof.
  induction g as [|[t0 v0] g IH]; intros seen Hn; [reflexivity|].
  cbn [drop_duplicated list_find].
  destruct (bool_decide (t0 ∈ seen)) eqn:E.
  - apply bool_decide_eq_true in E.
    destruct (decide (fst (t0, v0) = t)) as [Heq|Hne].
    + simpl in Heq. subst t0. contradiction.
    + rewrite (IH seen Hn).
      destruct (list_find _ g) as [[i x]|]; reflexivity.
  - apply bool_decide_eq_false in E. cbn [list_find].
    destruct (decide (fst (t0, v0) = t)) as [Heq|Hne]; [reflexivity|].
    simpl in Hne.
    assert (Hn' : t ∉ t0 :: seen).
    { intros Hin. apply elem_of_cons in Hin as [->|Hin]; [congruence|auto]. }
    pose proof (IH (t0 :: seen) Hn') as IH'.
    destruct (list_find _ (drop_duplicated (t0 :: seen) g)) as [[i x]|];
      destruct (list_find _ g) as [[j y]|]; simpl in *; congruence.
Qed.

(** Reindexing the de-duplicated group reads, at every label, the first row
    of the group that carries it. *)
Lemma reindex_drop_duplicated g full_range :
  reindex (drop_duplicated [] g) full_range = reindex g full_range.
Proof.
  unfold reindex. apply map_ext. intros t.
  pose proof (list_find_drop_duplicated t g [] (not_elem_of_nil t)) as H.
  destruct (list_find _ (drop_duplicated [] g)) as [[i [t1 v1]]|];
    destruct (list_find _ g) as [[j [t2 v2]]|]; simpl in H; congruence.
Qed.


End StlDriver.



(** * Properties of the anomaly stage *)

Section PandasFacts.

Context {K A : Type} `{EqDecision K}.
Variable cmp : K -> K -> comparison.
Variable key : A -> K.

Lemma groupby_keys_perm (rows : list A) :
  map fst (Pandas.groupby cmp key rows) ≡ₚ remove_dups (map key rows).
Proof.
  unfold Pandas.groupby. rewrite map_map. cbn [fst].
  rewrite map_id. apply merge_sort_Permutation.
Qed.

Lemma groupby_keys_NoDup (rows : list A) :
  NoDup (map fst (Pandas.groupby cmp key rows)).
Proof. rewrite groupby_keys_perm. apply NoDup_remove_dups. Qed.

Lemma elem_of_groupby (rows : list A) k g :
  (k, g) ∈ Pandas.groupby cmp key rows <->
  k ∈ map key rows /\ g = filter (fun r => key r = k) rows.
Proof.
  unfold Pandas.groupby. rewrite list_elem_of_fmap. split.
  - intros (k' & Heq & Hin). injection Heq as -> ->.
    rewrite merge_sort_Permutation, elem_of_remove_dups in Hin. auto.
  - intros [Hin ->]. exists k. split; [reflexivity|].
    rewrite merge_sort_Permutation, elem_of_remove_dups. assumption.
Qed.

Lemma groupby_nil (rows : list A) :
  Pandas.groupby cmp key rows = [] <-> rows = [].
Proof.
  split.
  - intros H. destruct rows as [|r rows]; [reflexivity|].
    assert (Hin : (key r, filter (fun x => key x = key r) (r :: rows))
                  ∈ Pandas.groupby cmp key (r :: rows)).
    { apply elem_of_groupby. split; [|reflexivity]. simpl. left. }
    rewrite H in Hin. inversion Hin.
  - intros ->. reflexivity.
Qed.

End PandasFacts.

Lemma filter_none {A} (P : A -> Prop) `{forall x, Decision (P x)} (l : list A) :
  (forall x, x ∈ l -> ~ P x) -> filter P l = [].
Proof.
  induction l as [|y l IH]; intros Hn; [reflexivity|].
  rewrite filter_cons_False.
  - apply IH. intros x Hx. apply Hn. apply elem_of_cons. right. assumption.
  - apply Hn. apply elem_of_cons. left. reflexivity.
Qed.

(** In a list without two elements of the same key, the elements of a key
    are at most one. *)
Lemma filter_key_unique {A K} `{EqDecision K} (h : A -> K) (l : list A) x :
  NoDup (map h l) -> x ∈ l ->
  filter (fun y => h y = h x) l = [x].
Proof.
  induction l as [|y l IH]; intros Hnd Hin; [inversion Hin|].
  simpl in Hnd. apply NoDup_cons in Hnd as [Hy Hnd].
  apply elem_of_cons in Hin as [->|Hin].
  - rewrite filter_cons_True by reflexivity. f_equal.
    apply filter_none. intros z Hz Heq. apply Hy. rewrite <- Heq.
    apply list_elem_of_fmap. exists z. auto.
  - rewrite filter_cons_False; [apply IH; assumption|].
    intros Heq. apply Hy. rewrite Heq.
    apply list_elem_of_fmap. exists x. auto.
Qed.

Lemma filter_key_absent {A K} `{EqDecision K} (h : A -> K) (l : list A) k :
  k ∉ map h l -> filter (fun y => h y = k) l = [].
Proof.
  intros Hn. apply filter_none. intros x Hx Heq. apply Hn. rewrite <- Heq.
  apply list_elem_of_fmap. exists x. auto.
Qed.

Lemma elem_of_concat {A} (x : A) (ls : list (list A)) :
  x ∈ concat ls <-> exists l, x ∈ l /\ l ∈ ls.
Proof.
  induction ls as [|l0 ls IH]; simpl.
  - split; [intros H; inversion H|intros (l & _ & H); inversion H].
  - rewrite elem_of_app, IH. split.
    + intros [H|(l & H1 & H2)].
      * exists l0. split; [assumption|]. apply elem_of_cons. left. reflexivity.
      * exists l. split; [assumption|]. apply elem_of_cons. right. assumption.
    + intros (l & H1 & H2). apply elem_of_cons in H2 as [->|H2]; eauto.
Qed.

Section GeFacts.
Import Ge.

Lemma elem_of_join_inner df lk o avg :
  (o, avg) ∈ join_inner df lk <-> o ∈ df /\ (obs_key o, avg) ∈ lk.
Proof.
  unfold join_inner. rewrite list_elem_of_bind. split.
  - intros (o' & Hin & Ho'). apply list_elem_of_bind in Hin as (e & He & Hf).
    apply list_elem_of_singleton in He. injection He as -> ->.
    apply list_elem_of_filter in Hf as [Hk Hf].
    split; [assumption|]. destruct e as [k v]. simpl in *. subst k. assumption.
  - intros [Ho He]. exists o. split; [|assumption].
    apply list_elem_of_bind. exists (obs_key o, avg). split.
    + apply list_elem_of_singleton. reflexivity.
    + apply list_elem_of_filter. split; [reflexivity|assumption].
Qed.

Lemma elem_of_merge_anomaly df lk m :
  m ∈ merge_anomaly df lk <->
  exists o avg, o ∈ df /\ (obs_key o, avg) ∈ lk /\
    m = mk_merged_row (obs_item o) (obs_site o) (dayofyear (obs_datetime o))
          (hour_of (obs_datetime o)) (obs_datetime o) (obs_value o) avg
          (obs_value o - avg)%Q.
Proof.
  unfold merge_anomaly. rewrite list_elem_of_fmap. split.
  - intros ([o avg] & -> & Hin). apply elem_of_join_inner in Hin as [? ?].
    exists o, avg. auto.
  - intros (o & avg & Ho & He & ->). exists (o, avg). split; [reflexivity|].
    apply elem_of_join_inner. auto.
Qed.

Lemma elem_of_dropna_rows df o :
  o ∈ dropna_rows df <->
  exists r, r ∈ df /\ raw_datetime r = Some (obs_datetime o) /\
            raw_value r = CNum (obs_value o) /\
            raw_site r = obs_site o /\ raw_item r = obs_item o.
Proof.
  unfold dropna_rows. rewrite list_elem_of_omap. split.
  - intros (r & Hr & Hm). exists r. split; [assumption|].
    destruct (raw_datetime r) as [t|]; [|discriminate].
    destruct (raw_value r) as [| |x]; try discriminate.
    simpl in Hm. injection Hm as <-. simpl. auto.
  - intros (r & Hr & Hd & Hv & Hs & Hi). exists r. split; [assumption|].
    rewrite Hd, Hv. simpl. rewrite Hs, Hi. destruct o; reflexivity.
Qed.

(** A clean row is a numeric row that is within the bounds of its item,
    when the item has bounds. *)
Lemma elem_of_clean_rows file df o :
  o ∈ clean_rows file df <->
  o ∈ dropna_rows df /\
  match items_info_get (obs_item o) with
  | Some info => out_of_bound info o = false
  | None => True
  end.
Proof.
  unfold clean_rows, range_check. rewrite map_map.
  rewrite elem_of_concat. split.
  - intros (g & Hin & Hg). apply list_elem_of_fmap in Hg as ([item rows] & -> & Hgr).
    apply elem_of_groupby in Hgr as [Hk ->]. cbn [fst snd] in Hin.
    unfold check_group in Hin.
    destruct (items_info_get item) as [info|] eqn:Einfo; cbn [snd] in Hin.
    + apply list_elem_of_filter in Hin as [Hb Hin].
      apply list_elem_of_filter in Hin as [Hitem Hin].
      split; [assumption|]. rewrite Hitem, Einfo.
      destruct (out_of_bound info o); [contradiction|reflexivity].
    + apply list_elem_of_filter in Hin as [Hitem Hin].
      split; [assumption|]. rewrite Hitem, Einfo. exact I.
  - intros [Hin Hb].
    exists (snd (check_group file (obs_item o)
                   (filter (fun r => obs_item r = obs_item o) (dropna_rows df)))).
    split.
    + unfold check_group.
      destruct (items_info_get (obs_item o)) as [info|]; cbn [snd].
      * apply list_elem_of_filter. split; [rewrite Hb; exact I|].
        apply list_elem_of_filter. auto.
      * apply list_elem_of_filter. auto.
    + apply list_elem_of_fmap.
      exists (obs_item o, filter (fun r => obs_item r = obs_item o) (dropna_rows df)).
      split; [reflexivity|]. apply elem_of_groupby. split; [|reflexivity].
      apply list_elem_of_fmap. exists o. auto.
Qed.

Lemma col_min_is_Some l : l <> [] -> is_Some (Pandas.col_min l).
Proof. destruct l; [congruence|]. eauto. Qed.

Lemma col_max_is_Some l : l <> [] -> is_Some (Pandas.col_max l).
Proof. destruct l; [congruence|]. eauto. Qed.

Lemma full_range_of_clean file df o :
  o ∈ clean_rows file df -> is_Some (full_range_of df).
Proof.
  intros Ho. apply elem_of_clean_rows in Ho as [Ho _].
  apply elem_of_dropna_rows in Ho as (r & Hr & Hd & _).
  assert (Hne : omap raw_datetime df <> []).
  { intros Hnil.
    assert (Hin : obs_datetime o ∈ omap raw_datetime df)
      by (apply list_elem_of_omap; eauto).
    rewrite Hnil in Hin. inversion Hin. }
  unfold full_range_of.
  destruct (col_min_is_Some _ Hne) as [a ->].
  destruct (col_max_is_Some _ Hne) as [b ->]. eauto.
Qed.

(** What [process_and_plot] returns, in terms of its steps. *)
Lemma process_and_plot_by_Some mean lk file df out :
  process_and_plot_by mean lk file df = Some out ->
  exists full_range,
    full_range_of df = Some full_range /\
    out_anomaly out = anomaly_csv (merge_anomaly (clean_rows file df) lk) /\
    out_region_avg out =
      region_average_by mean (merge_anomaly (clean_rows file df) lk) /\
    out_report out =
      null_findings file df ++ invalid_text_findings file df ++
      concat (map fst (range_check file (dropna_rows df))) ++
      missing_findings file (length full_range) (clean_rows file df) /\
    out_major_events out = major_events_of file full_range (clean_rows file df).
Proof.
  unfold process_and_plot_by. intros H.
  destruct (full_range_of df) as [fr|]; [|discriminate].
  destruct (map snd (range_check file (dropna_rows df))); [discriminate|].
  destruct (merge_anomaly (clean_rows file df) lk) eqn:E; [discriminate|].
  injection H as <-. exists fr. cbn. auto.
Qed.

Lemma process_and_plot_Some lk file df out :
  process_and_plot lk file df = Some out ->
  exists full_range,
    full_range_of df = Some full_range /\
    out_anomaly out = anomaly_csv (merge_anomaly (clean_rows file df) lk) /\
    out_region_avg out = region_average (merge_anomaly (clean_rows file df) lk) /\
    out_report out =
      null_findings file df ++ invalid_text_findings file df ++
      concat (map fst (range_check file (dropna_rows df))) ++
      missing_findings file (length full_range) (clean_rows file df) /\
    out_major_events out = major_events_of file full_range (clean_rows file df).
Proof. apply process_and_plot_by_Some. Qed.

Lemma process_and_plot_returns lk file df o avg :
  o ∈ clean_rows file df -> (obs_key o, avg) ∈ lk ->
  is_Some (process_and_plot lk file df).
Proof.
  intros Ho He. unfold process_and_plot, process_and_plot_by.
  destruct (full_range_of_clean _ _ _ Ho) as [fr ->].
  destruct (map snd (range_check file (dropna_rows df))) eqn:Echk.
  - unfold clean_rows in Ho. rewrite Echk in Ho. inversion Ho.
  - assert (Hm : mk_merged_row (obs_item o) (obs_site o)
                   (dayofyear (obs_datetime o)) (hour_of (obs_datetime o))
                   (obs_datetime o) (obs_value o) avg (obs_value o - avg)%Q
                 ∈ merge_anomaly (clean_rows file df) lk).
    { apply elem_of_merge_anomaly. exists o, avg. auto. }
    destruct (merge_anomaly (clean_rows file df) lk); [inversion Hm|]. eauto.
Qed.

End GeFacts.

(** ** Claims on the anomaly join *)

Section AnomalyClaims.
Import Ge.

(** C6: every row of the anomaly table is an accepted observation paired
    with a baseline entry of its key, and its anomaly is the observed value
    minus the expected one, nothing else; every such pair yields its row.
    In the spec's scenario (35.5 observed, 30.0 expected) the anomaly is
    5.5, and the subtraction is exact in binary32 as well. *)
Theorem C6_anomaly_is_observed_minus_expected :
  forall lk file df,
    (forall out a,
        process_and_plot lk file df = Some out ->
        a ∈ out_anomaly out ->
        exists o avg,
          o ∈ clean_rows file df /\ (obs_key o, avg) ∈ lk /\
          a = mk_anomaly_record (obs_datetime o) (obs_site o) (obs_item o)
                (obs_value o - avg)%Q) /\
    (forall o avg,
        o ∈ clean_rows file df -> (obs_key o, avg) ∈ lk ->
        exists out,
          process_and_plot lk file df = Some out /\
          mk_anomaly_record (obs_datetime o) (obs_site o) (obs_item o)
            (obs_value o - avg)%Q ∈ out_anomaly out) /\
    (load_and_transform_averages scenario_files = Some scenario_lookup /\
     dayofyear scenario_time = 45 /\ hour_of scenario_time = 10 /\
     out_anomaly <$> process_and_plot scenario_lookup "f" scenario_raw =
       Some [mk_anomaly_record scenario_time "臺南" "O3" (11 # 2)] /\
     float32_sub (float32_of 71 (-1)) (float32_of 30 0) = float32_of 11 (-1)).
Proof.
  intros lk file df. split; [|split].
  - intros out a Hout Ha.
    apply process_and_plot_Some in Hout as (fr & _ & Han & _).
    rewrite Han in Ha. unfold anomaly_csv in Ha.
    apply list_elem_of_fmap in Ha as (m & -> & Hm).
    apply elem_of_merge_anomaly in Hm as (o & avg & Ho & He & ->).
    exists o, avg. auto.
  - intros o avg Ho He.
    destruct (process_and_plot_returns lk file df o avg Ho He) as [out Hout].
    exists out. split; [assumption|].
    apply process_and_plot_Some in Hout as (fr & _ & Han & _).
    rewrite Han. unfold anomaly_csv.
    apply list_elem_of_fmap.
    exists (mk_merged_row (obs_item o) (obs_site o)
              (dayofyear (obs_datetime o)) (hour_of (obs_datetime o))
              (obs_datetime o) (obs_value o) avg (obs_value o - avg)%Q).
    split; [reflexivity|]. apply elem_of_merge_anomaly. exists o, avg. auto.
  - repeat split; vm_compute; reflexivity.
Qed.

Lemma C6_anomaly_is_observed_minus_expected_witness :
  exists out,
    process_and_plot scenario_lookup "f" scenario_raw = Some out /\
    mk_anomaly_record scenario_time "臺南" "O3" ((71 # 2) - 30)%Q
      ∈ out_anomaly out.
Proof.
  refine (proj1 (proj2 (C6_anomaly_is_observed_minus_expected
                          scenario_lookup "f" scenario_raw))
            (mk_obs scenario_time "臺南" "O3" (71 # 2)) 30%Q _ _).
  - vm_compute. left.
  - vm_compute. left.
Defined.

End AnomalyClaims.

(** ** Claims on the regional mean *)

Section MeanFacts.








Lemma filter_map_comm {A B} (f : A -> B) (P : B -> Prop) (Q : A -> Prop)
    `{forall y, Decision (P y)} `{forall x, Decision (Q x)} (l : list A) :
  (forall x, P (f x) <-> Q x) ->
  filter P (map f l) = map f (filter Q l).
Proof.
  intros HPQ. induction l as [|x l IH]; [reflexivity|].
  cbn [map]. rewrite !filter_cons.
  destruct (decide (P (f x))) as [Hp|Hp]; destruct (decide (Q x)) as [Hq|Hq].
  - cbn [map]. f_equal. assumption.
  - apply HPQ in Hp. contradiction.
  - apply HPQ in Hq. contradiction.
  - assumption.
Qed.

End MeanFacts.

Section RegionClaims.
Import Ge.


Lemma filter_nonempty_elem {A K} `{EqDecision K} (h : A -> K) (l : list A) k :
  filter (fun x => h x = k) l <> [] <-> k ∈ map h l.
Proof.
  split.
  - intros Hne. destruct (decide (k ∈ map h l)) as [Hin|Hnin]; [assumption|].
    exfalso. apply Hne. apply filter_key_absent. assumption.
  - intros Hin Hnil. apply list_elem_of_fmap in Hin as (x & -> & Hx).
    assert (Hx' : x ∈ filter (fun y => h y = h x) l)
      by (apply list_elem_of_filter; auto).
    rewrite Hnil in Hx'. inversion Hx'.
Qed.



End RegionClaims.


(** ** Claims on coverage findings *)

Section CoverageClaims.
Import Ge.

(** C3 (defect): the clean observation of 花蓮 has no baseline entry; it
    yields no anomaly row, and the report of the file is empty: nothing
    records the missing baseline. *)
Theorem C3_unmatched_observation_not_reported :
  mk_obs scenario_time "花蓮" "O3" 20%Q ∈ clean_rows "f" unmatched_raw /\
  (forall avg,
      (obs_key (mk_obs scenario_time "花蓮" "O3" 20%Q), avg) ∉ scenario_lookup) /\
  process_and_plot scenario_lookup "f" unmatched_raw =
    Some (mk_output
            [mk_anomaly_record scenario_time "臺南" "O3" (11 # 2)]
            [mk_regional_average scenario_time "O3" "南" (11 # 2) "AVG_南"]
            [] []).
Proof.
  split; [|split].
  - vm_compute. right. left.
  - intros avg H. vm_compute in H.
    apply list_elem_of_singleton in H. discriminate.
  - vm_compute. reflexivity.
Qed.

(** The report of a file does not depend on the baseline index. *)
Lemma report_ignores_baseline lk1 lk2 file df out1 out2 :
  process_and_plot lk1 file df = Some out1 ->
  process_and_plot lk2 file df = Some out2 ->
  out_report out1 = out_report out2 /\
  out_major_events out1 = out_major_events out2.
Proof.
  intros H1 H2.
  apply process_and_plot_Some in H1 as (fr1 & Hfr1 & _ & _ & Hr1 & Hm1).
  apply process_and_plot_Some in H2 as (fr2 & Hfr2 & _ & _ & Hr2 & Hm2).
  rewrite Hfr1 in Hfr2. injection Hfr2 as <-.
  rewrite Hr1, Hr2, Hm1, Hm2. auto.
Qed.

Lemma date_range_NoDup a b : NoDup (Pandas.date_range a b).
Proof.
  unfold Pandas.date_range.
  apply NoDup_fmap_2_strong; [|apply NoDup_seq].
  intros x y _ _ H. unfold HOUR in H. lia.
Qed.

Lemma date_range_NoDup_of df fr : full_range_of df = Some fr -> NoDup fr.
Proof.
  unfold full_range_of. intros H.
  destruct (Pandas.col_min _); [|discriminate].
  destruct (Pandas.col_max _); [|discriminate].
  injection H as <-. apply date_range_NoDup.
Qed.

Lemma filter_eq_NoDup {A} `{EqDecision A} (l : list A) x :
  NoDup l -> x ∈ l -> filter (fun y => y = x) l = [x].
Proof.
  intros Hnd Hin.
  apply (filter_key_unique (fun y => y) l x); [|assumption].
  rewrite map_id. assumption.
Qed.

Lemma elem_of_major_events file full_range rows e :
  e ∈ major_events_of file full_range rows <->
  e = mk_major_event file (me_datetime e) "重大事件：全網斷訊" /\
  me_datetime e ∈ full_range /\ me_datetime e ∉ network_times rows.
Proof.
  unfold major_events_of, network_times. rewrite list_elem_of_fmap. split.
  - intros (t & -> & Ht). cbn [me_datetime].
    apply elem_of_elements, elem_of_difference in Ht as [Hin Hnin].
    rewrite elem_of_list_to_set in Hin. auto.
  - intros (He & Hin & Hnin). exists (me_datetime e). split; [assumption|].
    apply elem_of_elements, elem_of_difference.
    rewrite elem_of_list_to_set. auto.
Qed.

Lemma major_events_exactly_one file full_range rows t :
  t ∈ full_range -> t ∉ network_times rows ->
  filter (fun e => me_datetime e = t) (major_events_of file full_range rows) =
  [mk_major_event file t "重大事件：全網斷訊"].
Proof.
  intros Hin Hnin. unfold major_events_of.
  rewrite (filter_map_comm _ _ (fun x => x = t)) by (intros x; reflexivity).
  rewrite filter_eq_NoDup; [reflexivity|apply NoDup_elements|].
  apply elem_of_elements, elem_of_difference.
  rewrite elem_of_list_to_set. auto.
Qed.

Lemma elem_of_missing_findings file n rows f :
  f ∈ missing_findings file n rows <->
  exists site item,
    (site, item) ∈ map (fun o => (obs_site o, obs_item o)) rows /\
    (length (filter (fun o => (obs_site o, obs_item o) = (site, item)) rows)
     < n)%nat /\
    f = mk_finding file site item "時段資料遺失"
          (MissingHours (Z.of_nat n - Z.of_nat (size (group_times rows site item)))).
Proof.
  unfold missing_findings. rewrite list_elem_of_omap. split.
  - intros ([[site item] g] & Hin & Hf).
    apply elem_of_groupby in Hin as [Hk ->]. cbn [fst snd] in Hf.
    destruct (length _ <? n)%nat eqn:E; [|discriminate].
    injection Hf as <-. apply Nat.ltb_lt in E. exists site, item. auto.
  - intros (site & item & Hk & Hlt & ->).
    exists ((site, item),
            filter (fun o => (obs_site o, obs_item o) = (site, item)) rows).
    split; [apply elem_of_groupby; auto|]. cbn [fst snd].
    apply Nat.ltb_lt in Hlt. rewrite Hlt. reflexivity.
Qed.

(** Each step of the report writes its own [type]. *)
Lemma null_findings_type file df f :
  f ∈ null_findings file df -> f_type f = "原始資料空值".
Proof.
  unfold null_findings. intros H.
  apply list_elem_of_fmap in H as (g & -> & _). reflexivity.
Qed.

Lemma invalid_text_findings_type file df f :
  f ∈ invalid_text_findings file df -> f_type f = "非預期文字".
Proof.
  unfold invalid_text_findings. intros H.
  apply list_elem_of_omap in H as (r & _ & Hr).
  destruct (raw_value r); try discriminate. injection Hr as <-. reflexivity.
Qed.

Lemma range_check_findings_type file df f :
  f ∈ concat (map fst (range_check file df)) -> f_type f = "數值越界".
Proof.
  intros H. apply elem_of_concat in H as (l & Hf & Hl).
  unfold range_check in Hl. rewrite map_map in Hl.
  apply list_elem_of_fmap in Hl as (g & -> & _).
  unfold check_group in Hf.
  destruct (items_info_get (fst g)); cbn [fst] in Hf; [|inversion Hf].
  apply list_elem_of_fmap in Hf as (o & -> & _). reflexivity.
Qed.

Lemma missing_findings_type file n rows f :
  f ∈ missing_findings file n rows -> f_type f = "時段資料遺失".
Proof.
  intros H. apply elem_of_missing_findings in H as (s & i & _ & _ & ->).
  reflexivity.
Qed.

(** The kinds of finding a report can hold. *)
Lemma report_types lk file df out f :
  process_and_plot lk file df = Some out ->
  f ∈ out_report out ->
  f_type f = "原始資料空值" \/ f_type f = "非預期文字" \/
  f_type f = "數值越界" \/ f_type f = "時段資料遺失".
Proof.
  intros Hout Hf.
  apply process_and_plot_Some in Hout as (fr & _ & _ & _ & Hr & _).
  rewrite Hr in Hf. rewrite !elem_of_app in Hf.
  destruct Hf as [H|[H|[H|H]]].
  - left. eapply null_findings_type; eassumption.
  - right; left. eapply invalid_text_findings_type; eassumption.
  - right; right; left. eapply range_check_findings_type; eassumption.
  - right; right; right. eapply missing_findings_type; eassumption.
Qed.

(** C4 as stated fails: at 11:00 no station has a clean observation; the
    hour is one MajorEvent, and it is also the one hour that the
    missing_timestamps finding of (臺南, O3) counts. *)
Lemma C4_counterexample :
  full_range_of silent_hour_raw =
    Some [scenario_time; scenario_time + HOUR; scenario_time + 2 * HOUR] /\
  map obs_datetime (clean_rows "f" silent_hour_raw) =
    [scenario_time; scenario_time + 2 * HOUR] /\
  exists out,
    process_and_plot scenario_lookup "f" silent_hour_raw = Some out /\
    out_major_events out =
      [mk_major_event "f" (scenario_time + HOUR) "重大事件：全網斷訊"] /\
    out_report out =
      [mk_finding "f" "臺南" "O3" "時段資料遺失" (MissingHours 1)].
Proof.
  split; [vm_compute; reflexivity|].
  split; [vm_compute; reflexivity|].
  eexists. split; [vm_compute; reflexivity|].
  split; reflexivity.
Qed.

(** C4 (amended): in a run that reaches the report step, every timestamp
    of the full hourly range at which no station has a clean observation
    is exactly one MajorEvent, there is no other MajorEvent, and the events
    are computed from the clean observations alone; the missing_timestamps
    count of a (station, item) group is the size of the range minus the
    number of distinct timestamps of the group, so, when the timestamps of
    the group lie on the range, it counts every hour of the range that the
    group lacks, the MajorEvent hours among them. *)
Theorem C4_major_events_and_missing_counts :
  forall lk file df out,
    process_and_plot lk file df = Some out ->
    exists full_range,
      full_range_of df = Some full_range /\
      (forall t,
          t ∈ full_range -> t ∉ network_times (clean_rows file df) ->
          filter (fun e => me_datetime e = t) (out_major_events out) =
          [mk_major_event file t "重大事件：全網斷訊"]) /\
      (forall e,
          e ∈ out_major_events out ->
          me_datetime e ∈ full_range /\
          me_datetime e ∉ network_times (clean_rows file df)) /\
      (forall site item n,
          mk_finding file site item "時段資料遺失" (MissingHours n)
            ∈ out_report out ->
          let times := group_times (clean_rows file df) site item in
          n = Z.of_nat (length full_range) - Z.of_nat (size times) /\
          (times ⊆ list_to_set full_range ->
           n = Z.of_nat (size (list_to_set full_range ∖ times : gset Z)) /\
           forall e, e ∈ out_major_events out ->
                     me_datetime e ∈ (list_to_set full_range ∖ times : gset Z))).
Proof.
  intros lk file df out Hout.
  apply process_and_plot_Some in Hout as (fr & Hfr & _ & _ & Hr & Hm).
  exists fr. split; [assumption|]. rewrite Hm, Hr. clear Hm Hr.
  split; [|split].
  - intros t Hin Hnin. apply major_events_exactly_one; assumption.
  - intros e He. apply elem_of_major_events in He as (_ & H1 & H2). auto.
  - intros site item n Hf times.
    assert (Hf5 : mk_finding file site item "時段資料遺失" (MissingHours n)
                  ∈ missing_findings file (length fr) (clean_rows file df)).
    { rewrite !elem_of_app in Hf. destruct Hf as [H|[H|[H|H]]].
      - apply null_findings_type in H. discriminate.
      - apply invalid_text_findings_type in H. discriminate.
      - apply range_check_findings_type in H. discriminate.
      - assumption. }
    apply elem_of_missing_findings in Hf5 as (s & i & _ & _ & Heq).
    injection Heq as -> -> ->.
    split; [reflexivity|].
    intros Hsub.
    pose proof (date_range_NoDup_of df fr Hfr) as Hnd. split.
    + rewrite size_difference by assumption.
      rewrite size_list_to_set by assumption.
      assert (size times <= length fr)%nat.
      { rewrite <- (size_list_to_set (C:=gset Z) fr) by assumption.
        apply subseteq_size. assumption. }
      fold times. lia.
    + intros e He. apply elem_of_major_events in He as (_ & H1 & H2).
      apply elem_of_difference. split; [apply elem_of_list_to_set; assumption|].
      intros Hin. apply H2. unfold network_times.
      unfold times, group_times in Hin.
      apply elem_of_list_to_set in Hin. apply elem_of_list_to_set.
      apply list_elem_of_fmap in Hin as (o & -> & Ho).
      apply list_elem_of_filter in Ho as [_ Ho].
      apply list_elem_of_fmap. eauto.
Qed.

End CoverageClaims.

Lemma C4_major_events_and_missing_counts_witness :
  exists full_range,
    Ge.full_range_of silent_hour_raw = Some full_range /\
    (forall t,
        t ∈ full_range ->
        t ∉ network_times (Ge.clean_rows "f" silent_hour_raw) ->
        filter (fun e => Ge.me_datetime e = t)
               (Ge.out_major_events silent_hour_output) =
        [Ge.mk_major_event "f" t "重大事件：全網斷訊"]) /\
    (forall e,
        e ∈ Ge.out_major_events silent_hour_output ->
        Ge.me_datetime e ∈ full_range /\
        Ge.me_datetime e ∉ network_times (Ge.clean_rows "f" silent_hour_raw)) /\
    (forall site item n,
        Ge.mk_finding "f" site item "時段資料遺失" (Ge.MissingHours n)
          ∈ Ge.out_report silent_hour_output ->
        let times := group_times (Ge.clean_rows "f" silent_hour_raw) site item in
        n = Z.of_nat (length full_range) - Z.of_nat (size times) /\
        (times ⊆ list_to_set full_range ->
         n = Z.of_nat (size (list_to_set full_range ∖ times : gset Z)) /\
         forall e, e ∈ Ge.out_major_events silent_hour_output ->
                   Ge.me_datetime e ∈ (list_to_set full_range ∖ times : gset Z))).
Proof.
  apply (C4_major_events_and_missing_counts scenario_lookup "f"
           silent_hour_raw silent_hour_output).
  vm_compute. reflexivity.
Defined.

(** ** Claims on the baseline index *)

Section BaselineClaims.
Import Ge.




Lemma load_item_keyed item tbl es :
  load_item item tbl = Some es ->
  exists keyed,
    Forall2 (fun x y => keyed_row item x = Some y) (melt tbl) keyed /\
    es = omap numeric_entry keyed.
Proof.
  unfold load_item. intros H.
  destruct (melt tbl) as [|x df] eqn:Em; [discriminate|].
  destruct (mapM (keyed_row item) (x :: df)) as [keyed|] eqn:Ek; [|discriminate].
  injection H as <-. exists keyed. split; [|reflexivity].
  apply mapM_Some. assumption.
Qed.



Section Index.

Variable avg_file : string -> option wide_table.



Lemma load_and_transform_averages_perm idx :
  load_and_transform_averages avg_file = Some idx ->
  idx ≡ₚ concat (omap (item_rows avg_file) items_info).
Proof.
  unfold load_and_transform_averages. 
  destruct (omap (item_rows avg_file) items_info) eqn:E; [discriminate|].
  intros H. injection H as <-. apply merge_sort_Permutation.
Qed.

End Index.



End BaselineClaims.


(** * Further properties *)

(** ** The seasonal decomposer, position by position *)

Section StlPositions.
Import Stl.

Variable fit : list (timestamp * Q) -> nat -> nat -> option (list Q).

(** Before a position inside the series, either every value is missing or
    there is a last valid one. *)
Lemma last_valid_before (s : series) i :
  (i <= length s)%nat ->
  (forall j, (j < i)%nat -> exists t, s !! j = Some (t, None)) \/
  exists j tj vj,
    (j < i)%nat /\ s !! j = Some (tj, Some vj) /\
    forall m, (j < m < i)%nat -> exists t, s !! m = Some (t, None).
Proof.
  induction i as [|i IH]; intros Hi.
  - left. intros j Hj. lia.
  - destruct (lookup_lt_is_Some_2 s i) as [[t [v|]] Hv]; [lia| |].
    + right. exists i, t, v. split; [lia|]. split; [assumption|].
      intros m Hm. lia.
    + destruct IH as [Hall|(j & tj & vj & Hj & Hjv & Hbetween)]; [lia| |].
      * left. intros j Hj. destruct (decide (j = i)) as [->|Hne]; [eauto|].
        apply Hall. lia.
      * right. exists j, tj, vj. split; [lia|]. split; [assumption|].
        intros m Hm. destruct (decide (m = i)) as [->|Hne]; [eauto|].
        apply Hbetween. lia.
Qed.

(** Positions that [interpolate] leaves missing: the missing ones whose
    [limit] predecessors, as far as they exist, are missing too. *)
Lemma interpolate_isna_iff limit (s : series) i :
  isna_at (interpolate limit s) i = Some true <->
  (exists t, s !! i = Some (t, None)) /\
  (forall j, (j < i)%nat -> (i <= j + limit)%nat ->
             exists t, s !! j = Some (t, None)).
Proof.
  unfold interpolate.
  destruct (s !! i) as [[t [v|]]|] eqn:Ei.
  - split.
    + intros H. unfold isna_at in H.
      rewrite (interpolate_from_valid _ _ _ _ _ _ _ Ei) in H. discriminate.
    + intros [[t' Ht'] _]. discriminate.
  - assert (Hlen : (i < length s)%nat) by (eapply lookup_lt_Some; eauto).
    destruct (last_valid_before s i) as [Hall|(j & tj & vj & Hj & Hjv & Hb)];
      [lia| |].
    + rewrite interpolate_from_leading.
      * rewrite bool_decide_false by (intros [x Hx]; discriminate).
        split; [|reflexivity]. intros _. split; [eauto|].
        intros j Hj _. apply Hall. assumption.
      * intros j Hj. destruct (decide (j = i)) as [->|Hne]; [eauto|].
        apply Hall. lia.
    + rewrite (interpolate_from_after_valid _ s None 0 j i tj vj Hj Hjv).
      * destruct (i - j <=? limit)%nat eqn:E.
        -- apply Nat.leb_le in E. split; [discriminate|].
           intros [_ H]. destruct (H j) as [t' Ht']; [lia|lia|]. congruence.
        -- apply Nat.leb_gt in E. split; [|reflexivity]. intros _.
           split; [eauto|]. intros m Hm Hle. apply Hb. lia.
      * intros m Hm. destruct (decide (m = i)) as [->|Hne]; [eauto|].
        apply Hb. lia.
  - split.
    + unfold isna_at. rewrite lookup_ge_None_2; [discriminate|].
      rewrite interpolate_from_length. apply lookup_ge_None. assumption.
    + intros [[t' Ht'] _]. discriminate.
Qed.

(** The positions at which [process_series_stl] returns a missing
    value are the missing positions of the input whose [TOLERANCE_HOURS]
    predecessors, as far as they exist, are all missing. *)
Theorem returned_missing_positions s site item file i :
  seasonal_aligned fit ->
  (isna_at (fst (process_series_stl fit s site item file)) i = Some true <->
   (exists t, s !! i = Some (t, None)) /\
   (forall j, (j < i)%nat -> (i <= j + TOLERANCE_HOURS)%nat ->
              exists t, s !! j = Some (t, None))).
Proof.
  intros Hal. rewrite process_series_stl_isna by assumption.
  apply interpolate_isna_iff.
Qed.

End StlPositions.

Section StlValues.
Import Stl.

Variable fit : list (timestamp * Q) -> nat -> nat -> option (list Q).

Lemma fst_zip_with_same_length {A B C} (f : A -> B -> C) (g : C -> timestamp)
    (h : A -> timestamp) (l : list A) (k : list B) :
  (forall x y, g (f x y) = h x) ->
  length k = length l ->
  map g (zip_with f l k) = map h l.
Proof.
  intros Hf. revert k. induction l as [|x l IH]; intros [|y k] Hlen;
    simpl in *; try discriminate; [reflexivity|].
  rewrite Hf. f_equal. apply IH. lia.
Qed.

(** The returned series keeps the index of the input. *)
Lemma process_series_stl_index s site item file :
  seasonal_aligned fit ->
  map fst (fst (process_series_stl fit s site item file)) = map fst s.
Proof.
  intros Hal. unfold process_series_stl.
  destruct (forallb id (map (fun p => isna (snd p)) s)); [reflexivity|].
  cbn [fst].
  assert (Hidx : map fst (interpolate TOLERANCE_HOURS s) = map fst s)
    by apply interpolate_from_index.
  destruct (STL_PERIOD * 2 <? length (fillna0 (interpolate TOLERANCE_HOURS s)))%nat;
    [|assumption].
  destruct (fit _ _ _) as [seas|] eqn:Efit; [|assumption].
  apply Hal in Efit.
  set (si := interpolate TOLERANCE_HOURS s) in *.
  assert (Hlsi : length (fillna0 si) = length si)
    by (unfold fillna0; apply length_map).
  rewrite Hlsi in Efit.
  assert (Hsub : map fst (sub_series (fillna0 si) seas) = map fst si).
  { unfold sub_series.
    rewrite (fst_zip_with_same_length _ fst fst) by (try reflexivity; lia).
    unfold fillna0. rewrite map_map. reflexivity. }
  unfold mask.
  rewrite (fst_zip_with_same_length _ fst fst).
  - rewrite Hsub. assumption.
  - reflexivity.
  - rewrite length_map.
    rewrite <- (length_map fst (sub_series _ _)), Hsub, length_map. reflexivity.
Qed.

(** The returned series lies over the index of the input: the same
    timestamps in the same order. *)
Theorem returned_index_is_input_index s site item file :
  seasonal_aligned fit ->
  map fst (fst (process_series_stl fit s site item file)) = map fst s.
Proof. apply process_series_stl_index. Qed.

(** When the decomposition runs and returns the seasonal component
    [seas], the value returned at a position is the interpolated value
    minus the seasonal value of the position, and is missing where the
    interpolated series is missing: the zero that stands in for a missing
    value during the decomposition is never returned. *)
Theorem deseasonalized_values s site item file seas :
  seasonal_aligned fit ->
  (STL_PERIOD * 2 < length s)%nat ->
  fit (fillna0 (interpolate TOLERANCE_HOURS s)) STL_PERIOD STL_SEASONAL
    = Some seas ->
  forall i t x,
    interpolate TOLERANCE_HOURS s !! i = Some (t, x) ->
    exists y,
      seas !! i = Some y /\
      fst (process_series_stl fit s site item file) !! i =
        Some (t, (fun v => v - y)%Q <$> x).
Proof.
  intros Hal Hlen Hfit i t x Hi.
  pose proof (Hal _ _ _ _ Hfit) as Hseas.
  unfold fillna0 in Hseas. rewrite length_map in Hseas.
  destruct (lookup_lt_is_Some_2 seas i) as [y Hy].
  { rewrite Hseas. eapply lookup_lt_Some; eauto. }
  exists y. split; [assumption|].
  unfold process_series_stl.
  destruct (forallb id (map (fun p => isna (snd p)) s)) eqn:Eall.
  - apply all_nan_forallb in Eall. cbn [fst].
    unfold interpolate in Hi.
    rewrite interpolate_from_all_nan in Hi by assumption.
    rewrite Hi. unfold all_nan in Eall. rewrite Forall_lookup in Eall.
    pose proof (Eall _ _ Hi) as Hx. simpl in Hx. subst x. reflexivity.
  - cbn [fst].
    replace (STL_PERIOD * 2 <? length (fillna0 (interpolate TOLERANCE_HOURS s)))%nat
      with true.
    2:{ symmetry. apply Nat.ltb_lt. unfold fillna0, interpolate.
        rewrite length_map, interpolate_from_length. assumption. }
    rewrite Hfit. unfold mask, sub_series, fillna0.
    rewrite !lookup_zip_with, !list_lookup_fmap, Hi, Hy. cbn.
    destruct x; reflexivity.
Qed.

End StlValues.

Lemma flat_fit_aligned : seasonal_aligned flat_fit.
Proof. intros xs p q seas H. injection H as <-. apply length_map. Qed.

Lemma returned_missing_positions_witness :
  isna_at (fst (Stl.process_series_stl flat_fit gap5 "s" "i" "f")) 3 = Some true <->
  (exists t, gap5 !! 3%nat = Some (t, None)) /\
  (forall j, (j < 3)%nat -> (3 <= j + Stl.TOLERANCE_HOURS)%nat ->
             exists t, gap5 !! j = Some (t, None)).
Proof.
  apply (returned_missing_positions flat_fit gap5 "s" "i" "f" 3).
  exact flat_fit_aligned.
Defined.

Lemma returned_index_is_input_index_witness :
  map fst (fst (Stl.process_series_stl flat_fit hours50 "s" "i" "f")) =
  map fst hours50.
Proof.
  apply (returned_index_is_input_index flat_fit hours50 "s" "i" "f").
  exact flat_fit_aligned.
Defined.

Lemma deseasonalized_values_witness :
  exists y,
    map (fun _ => 0%Q) (Stl.fillna0 (Stl.interpolate Stl.TOLERANCE_HOURS hours50))
      !! 1%nat = Some y /\
    fst (Stl.process_series_stl flat_fit hours50 "s" "i" "f") !! 1%nat =
      Some (3600, (fun v => v - y)%Q <$>
                    Some (Stl.interp_point 1 4 1 3)).
Proof.
  apply (deseasonalized_values flat_fit hours50 "s" "i" "f"
           (map (fun _ => 0%Q)
                (Stl.fillna0 (Stl.interpolate Stl.TOLERANCE_HOURS hours50)))).
  - exact flat_fit_aligned.
  - vm_compute. lia.
  - reflexivity.
  - reflexivity.
Defined.

(** ** Gap reports *)

Section GapReports.
Import Stl.

Lemma starts_with_nan_lookup (s : series) :
  starts_with_nan s = true <-> exists t, s !! 0%nat = Some (t, None).
Proof.
  destruct s as [|[t [v|]] rest]; simpl; split;
    try discriminate; try (intros [? H]; discriminate); eauto.
Qed.

(** The first run of a series that starts with a missing value starts at
    position 0; no run of another series does. *)
Lemma nan_runs_head (s : series) :
  starts_with_nan s = true ->
  exists n rs, nan_runs s = (0%nat, n) :: rs /\ (0 < n)%nat /\
               forall r, r ∈ rs -> (0 < fst r)%nat.
Proof.
  destruct s as [|[t [v|]] rest]; try discriminate. intros _.
  cbn [nan_runs].
  assert (Hshift : forall rs : list (nat * nat),
             forall r, r ∈ map (fun r => (S (fst r), snd r)) rs -> (0 < fst r)%nat).
  { intros rs r Hr. apply list_elem_of_fmap in Hr as (r' & -> & _). simpl. lia. }
  destruct (starts_with_nan rest).
  - destruct (nan_runs rest) as [|[p n] rs].
    + exists 1%nat, []. split; [reflexivity|]. split; [lia|].
      intros r Hr. inversion Hr.
    + exists (S n), (map (fun r => (S (fst r), snd r)) rs).
      split; [reflexivity|]. split; [lia|]. apply Hshift.
  - exists 1%nat, (map (fun r => (S (fst r), snd r)) (nan_runs rest)).
    split; [reflexivity|]. split; [lia|]. apply Hshift.
Qed.

Lemma missing_run_shift x (rest : series) p n :
  missing_run rest p n ->
  (p = 0%nat -> exists t v, x = (t, Some v)) ->
  missing_run (x :: rest) (S p) n.
Proof.
  intros (Hn & Hrun & Hleft & Hright) Hx. repeat split.
  - assumption.
  - intros i Hi. destruct i as [|i]; [lia|]. simpl. apply Hrun. lia.
  - right. simpl. rewrite Nat.sub_0_r.
    destruct Hleft as [->|(t & v & Hl)].
    + destruct (Hx eq_refl) as (t & v & ->). simpl. eauto.
    + destruct p as [|p]; [simpl in Hl|].
      * destruct (Hrun 0%nat) as [t' Ht']; [lia|]. simpl in Hl. congruence.
      * simpl in Hl. rewrite Nat.sub_0_r in Hl. simpl. eauto.
  - simpl. assumption.
Qed.

Lemma missing_run_unshift x (rest : series) p n :
  missing_run (x :: rest) (S p) n ->
  missing_run rest p n /\ (p = 0%nat -> exists t v, x = (t, Some v)).
Proof.
  intros (Hn & Hrun & Hleft & Hright). split; [repeat split|].
  - assumption.
  - intros i Hi. destruct (Hrun (S i)) as [t Ht]; [lia|]. simpl in Ht. eauto.
  - destruct p as [|p]; [left; reflexivity|]. right.
    destruct Hleft as [Hl|(t & v & Hl)]; [discriminate|].
    simpl in Hl. simpl. rewrite Nat.sub_0_r. eauto.
  - simpl in Hright. assumption.
  - intros ->. destruct Hleft as [Hl|(t & v & Hl)]; [discriminate|].
    simpl in Hl. injection Hl as ->. eauto.
Qed.

Lemma missing_run_in_range (s : series) p n :
  missing_run s p n -> (p + n <= length s)%nat.
Proof.
  intros (Hn & Hrun & _). destruct (Hrun (p + n - 1)%nat) as [t Ht]; [lia|].
  apply lookup_lt_Some in Ht. lia.
Qed.

Lemma missing_run_cons_nan t (rest : series) n :
  missing_run rest 0 n -> missing_run ((t, None) :: rest) 0 (S n).
Proof.
  intros (Hn & Hrun & _ & Hright). repeat split.
  - lia.
  - intros i Hi. destruct i as [|i]; [simpl; eauto|]. simpl. apply Hrun. lia.
  - left. reflexivity.
  - simpl. assumption.
Qed.

Lemma missing_run_uncons_nan t (rest : series) n :
  starts_with_nan rest = true ->
  missing_run ((t, None) :: rest) 0 n ->
  exists n', n = S n' /\ missing_run rest 0 n'.
Proof.
  intros Hst (Hn & Hrun & _ & Hright).
  apply starts_with_nan_lookup in Hst as [t0 Ht0].
  destruct n as [|[|n']]; [lia| |].
  - simpl in Hright. destruct Hright as [H|(t' & v & H)]; congruence.
  - exists (S n'). split; [reflexivity|]. repeat split.
    + lia.
    + intros i Hi. destruct (Hrun (S i)) as [t' Ht']; [lia|]. simpl in Ht'. eauto.
    + left. reflexivity.
    + simpl in Hright. assumption.
Qed.

Lemma missing_run_single t (rest : series) n :
  starts_with_nan rest = false ->
  (missing_run ((t, None) :: rest) 0 n <-> n = 1%nat).
Proof.
  intros Hst. split.
  - intros (Hn & Hrun & _). destruct n as [|[|n']]; [lia|reflexivity|].
    destruct (Hrun 1%nat) as [t' Ht']; [lia|]. simpl in Ht'.
    assert (starts_with_nan rest = true) by (apply starts_with_nan_lookup; eauto).
    congruence.
  - intros ->. repeat split; [lia| |left; reflexivity|].
    + intros i Hi. assert (i = 0%nat) as -> by lia. simpl. eauto.
    + simpl. destruct rest as [|[t' [v|]] rest']; [left; reflexivity| |discriminate].
      right. simpl. eauto.
Qed.

Lemma missing_run_start_missing (s : series) p n :
  missing_run s p n -> exists t, s !! p = Some (t, None).
Proof. intros (Hn & Hrun & _). apply Hrun. lia. Qed.

(** [nan_runs] lists the maximal missing runs. *)
Lemma nan_runs_spec (s : series) :
  forall p n, (p, n) ∈ nan_runs s <-> missing_run s p n.
Proof.
  induction s as [|[t [v|]] rest IH]; intros p n.
  - split; [intros H; inversion H|].
    intros H. apply missing_run_start_missing in H as [t Ht]. discriminate.
  - cbn [nan_runs]. rewrite list_elem_of_fmap. split.
    + intros ([p' n'] & Heq & Hin). injection Heq as -> ->.
      apply missing_run_shift; [apply IH; assumption|]. eauto.
    + intros H. destruct p as [|p'].
      * apply missing_run_start_missing in H as [t' Ht']. discriminate.
      * apply missing_run_unshift in H as [H _].
        exists (p', n). split; [reflexivity|]. apply IH. assumption.
  - cbn [nan_runs].
    assert (Hshift : forall rs : list (nat * nat),
               (forall r, r ∈ rs -> (r ∈ nan_runs rest) /\ (0 < fst r)%nat) ->
               forall r, r ∈ map (fun r => (S (fst r), snd r)) rs ->
                         missing_run ((t, None) :: rest) (fst r) (snd r)).
    { intros rs Hrs r Hr. apply list_elem_of_fmap in Hr as ([p' n'] & -> & Hin).
      destruct (Hrs _ Hin) as [Hin' Hpos]. cbn [fst snd] in *.
      apply missing_run_shift; [apply IH; assumption|]. intros ->. lia. }
    assert (Hback : forall p', missing_run ((t, None) :: rest) (S p') n ->
                               (p', n) ∈ nan_runs rest /\ (0 < p')%nat).
    { intros p' H. pose proof H as H'.
      apply missing_run_unshift in H as [H Hx]. split; [apply IH; assumption|].
      destruct p' as [|p'']; [|lia]. destruct (Hx eq_refl) as (? & ? & ?).
      discriminate. }
    destruct (starts_with_nan rest) eqn:Est.
    + destruct (nan_runs_head rest Est) as (n0 & rs & Hruns & Hn0 & Hrs).
      rewrite Hruns. rewrite Hruns in IH. split.
      * intros H. apply elem_of_cons in H as [Heq|H].
        -- injection Heq as -> ->. apply missing_run_cons_nan.
           apply IH. left.
        -- apply (Hshift rs) in H; [assumption|]. intros r Hr.
           split; [rewrite Hruns; right; assumption|auto].
      * intros H. destruct p as [|p'].
        -- apply missing_run_uncons_nan in H as (n' & -> & H); [|assumption].
           apply IH in H. apply elem_of_cons in H as [Heq|H].
           ++ injection Heq as ->. left.
           ++ apply Hrs in H. simpl in H. lia.
        -- apply Hback in H as [H Hpos]. rewrite Hruns in H.
           apply elem_of_cons in H as [Heq|H]; [injection Heq as -> _; lia|].
           right. apply list_elem_of_fmap. exists (p', n). auto.
    + split.
      * intros H. apply elem_of_cons in H as [Heq|H].
        -- injection Heq as -> ->. apply missing_run_single; auto.
        -- apply (Hshift (nan_runs rest)) in H; [assumption|]. intros r Hr.
           split; [assumption|]. destruct r as [p' n']. simpl.
           destruct p' as [|p'']; [|lia]. apply IH in Hr.
           apply missing_run_start_missing in Hr as [t' Ht'].
           assert (starts_with_nan rest = true)
             by (apply starts_with_nan_lookup; eauto).
           congruence.
      * intros H. destruct p as [|p'].
        -- apply missing_run_single in H; [|assumption]. subst n. left.
        -- apply Hback in H as [H _]. right.
           apply list_elem_of_fmap. exists (p', n). auto.
Qed.

Lemma run_labels_cons x (rest : series) p n :
  run_labels (x :: rest) (S p) n = run_labels rest p n.
Proof. reflexivity. Qed.

(** The blocks the script groups are the labels of these runs. *)
Lemma nan_blocks_runs (s : series) :
  nan_blocks s = map (fun r => run_labels s (fst r) (snd r)) (nan_runs s).
Proof.
  induction s as [|[t [v|]] rest IH].
  - reflexivity.
  - cbn [nan_blocks nan_runs]. rewrite map_map. cbn [fst snd]. exact IH.
  - cbn [nan_blocks nan_runs]. destruct (starts_with_nan rest) eqn:Est.
    + destruct (nan_runs_head rest Est) as (n0 & rs & Hruns & _ & _).
      rewrite IH, Hruns. cbn [map fst snd]. rewrite map_map. cbn [fst snd].
      reflexivity.
    + cbn [map fst snd]. rewrite map_map, IH. reflexivity.
Qed.

Lemma run_labels_lookup (s : series) p n k :
  (k < n)%nat -> run_labels s p n !! k = fst <$> s !! (p + k)%nat.
Proof.
  intros Hk. unfold run_labels.
  rewrite list_lookup_fmap, lookup_take_lt by assumption.
  rewrite lookup_drop. reflexivity.
Qed.

Lemma run_labels_length (s : series) p n :
  (p + n <= length s)%nat -> length (run_labels s p n) = n.
Proof.
  intros H. unfold run_labels. rewrite length_map, length_take, length_drop. lia.
Qed.

Lemma hd_lookup {A} (l : list A) d x : l !! 0%nat = Some x -> List.hd d l = x.
Proof. destruct l; simpl; congruence. Qed.

Lemma last_lookup_default {A} (l : list A) d x :
  l !! (length l - 1)%nat = Some x -> List.last l d = x.
Proof.
  induction l as [|y l IH]; [discriminate|].
  destruct l as [|z l'].
  - simpl. congruence.
  - intros H. change (List.last (y :: z :: l') d) with (List.last (z :: l') d).
    apply IH. simpl in *. rewrite Nat.sub_0_r. assumption.
Qed.

Variable fit : list (timestamp * Q) -> nat -> nat -> option (list Q).

(** The reports of a series, by the runs they stand for. *)
Lemma elem_of_gap_reports s site item file r :
  ~ all_nan s ->
  (r ∈ snd (process_series_stl fit s site item file) <->
   exists p n t0 t1,
     missing_run s p n /\ (TOLERANCE_HOURS < n)%nat /\
     s !! p = Some (t0, None) /\ s !! (p + n - 1)%nat = Some (t1, None) /\
     r = mk_gap_report file site item "長時間缺測 (STL中斷)" n t0 t1).
Proof.
  intros Hnot. unfold process_series_stl.
  destruct (forallb id (map (fun p => isna (snd p)) s)) eqn:Eall.
  { exfalso. apply Hnot. apply all_nan_forallb. assumption. }
  cbn [snd]. unfold gap_reports_of.
  rewrite list_elem_of_omap, nan_blocks_runs.
  assert (Hlab : forall p n,
             missing_run s p n ->
             exists t0 t1,
               s !! p = Some (t0, None) /\ s !! (p + n - 1)%nat = Some (t1, None) /\
               length (run_labels s p n) = n /\
               List.hd 0 (run_labels s p n) = t0 /\
               List.last (run_labels s p n) 0 = t1).
  { intros p n Hrun. pose proof (missing_run_in_range _ _ _ Hrun) as Hrange.
    destruct Hrun as (Hn & Hpos & _).
    destruct (Hpos p) as [t0 Ht0]; [lia|].
    destruct (Hpos (p + n - 1)%nat) as [t1 Ht1]; [lia|].
    exists t0, t1. split; [assumption|]. split; [assumption|].
    pose proof (run_labels_length s p n Hrange) as Hlen.
    split; [assumption|]. split.
    - apply hd_lookup. rewrite run_labels_lookup by lia.
      rewrite Nat.add_0_r, Ht0. reflexivity.
    - apply last_lookup_default. rewrite Hlen, run_labels_lookup by lia.
      replace (p + (n - 1))%nat with (p + n - 1)%nat by lia.
      rewrite Ht1. reflexivity. }
  split.
  - intros (b & Hb & Hr). apply list_elem_of_fmap in Hb as ([p n] & -> & Hin).
    cbn [fst snd] in Hr. apply nan_runs_spec in Hin.
    destruct (Hlab p n Hin) as (t0 & t1 & H0 & H1 & Hlen & Hhd & Hlast).
    rewrite Hlen, Hhd, Hlast in Hr.
    destruct (TOLERANCE_HOURS <? n)%nat eqn:E; [|discriminate].
    injection Hr as <-. apply Nat.ltb_lt in E.
    exists p, n, t0, t1. auto.
  - intros (p & n & t0 & t1 & Hrun & Hlong & H0 & H1 & ->).
    exists (run_labels s p n). split.
    + apply list_elem_of_fmap. exists (p, n). split; [reflexivity|].
      apply nan_runs_spec. assumption.
    + destruct (Hlab p n Hrun) as (t0' & t1' & H0' & H1' & Hlen & Hhd & Hlast).
      rewrite Hlen, Hhd, Hlast.
      apply Nat.ltb_lt in Hlong. rewrite Hlong.
      congruence.
Qed.

(** Unless every value is missing, the gap reports are the maximal
    missing runs longer than [TOLERANCE_HOURS]: each report carries the
    length of its run and the timestamps of its first and last position,
    and every such run has its report. *)
Theorem gap_reports_are_the_long_runs s site item file r :
  ~ all_nan s ->
  (r ∈ snd (process_series_stl fit s site item file) <->
   exists p n t0 t1,
     missing_run s p n /\ (TOLERANCE_HOURS < n)%nat /\
     s !! p = Some (t0, None) /\ s !! (p + n - 1)%nat = Some (t1, None) /\
     r = mk_gap_report file site item "長時間缺測 (STL中斷)" n t0 t1).
Proof. apply elem_of_gap_reports. Qed.

End GapReports.

Lemma gap_reports_are_the_long_runs_witness :
  Stl.mk_gap_report "f" "s" "i" "長時間缺測 (STL中斷)" 5 3600 18000
    ∈ snd (Stl.process_series_stl flat_fit gap5 "s" "i" "f") <->
  exists p n t0 t1,
    missing_run gap5 p n /\ (Stl.TOLERANCE_HOURS < n)%nat /\
    gap5 !! p = Some (t0, None) /\ gap5 !! (p + n - 1)%nat = Some (t1, None) /\
    Stl.mk_gap_report "f" "s" "i" "長時間缺測 (STL中斷)" 5 3600 18000 =
    Stl.mk_gap_report "f" "s" "i" "長時間缺測 (STL中斷)" n t0 t1.
Proof.
  apply (gap_reports_are_the_long_runs flat_fit gap5 "s" "i" "f").
  intros H. inversion H as [|? ? Hv _]. discriminate.
Defined.

(** ** Filled values *)

Section FilledValues.
Import Stl.

Lemma lookup_head {A} (x : A) (l : list A) : (x :: l) !! 0%nat = Some x.
Proof. reflexivity. Qed.

Lemma lookup_tail {A} (x : A) (l : list A) i : (x :: l) !! S i = l !! i.
Proof. reflexivity. Qed.

Lemma next_valid_run (rest : series) :
  forall d tm b,
    (forall k, (k < d)%nat -> exists t, rest !! k = Some (t, None)) ->
    rest !! d = Some (tm, Some b) ->
    next_valid rest = Some (d, b).
Proof.
  induction rest as [|[t [v|]] rest IH]; intros d tm b Hrun Hd.
  - discriminate.
  - destruct d as [|d].
    + simpl in Hd. injection Hd as _ ->. reflexivity.
    + destruct (Hrun 0%nat) as [t' Ht']; [lia|]. discriminate.
  - destruct d as [|d]; [discriminate|].
    cbn [next_valid]. rewrite (IH d tm b); [reflexivity| |assumption].
    intros k Hk. destruct (Hrun (S k)) as [t' Ht']; [lia|]. eauto.
Qed.

Lemma next_valid_none (rest : series) :
  (forall k t v, rest !! k = Some (t, v) -> v = None) ->
  next_valid rest = None.
Proof.
  induction rest as [|[t [v|]] rest IH]; intros H.
  - reflexivity.
  - specialize (H 0%nat t (Some v) eq_refl). discriminate.
  - cbn [next_valid]. rewrite IH; [reflexivity|].
    intros k t' v' Hk. apply (H (S k) t' v'). assumption.
Qed.

(** The value filled in at position [i] of the run that the scan is in,
    when the run ends at the valid value [b] of position [m]. *)
Lemma interpolate_from_fill_between limit (s : series) :
  forall a k i m tm b,
    (i < m)%nat ->
    (forall j, (j < m)%nat -> exists t, s !! j = Some (t, None)) ->
    s !! m = Some (tm, Some b) ->
    (k + i + 1 <= limit)%nat ->
    exists t,
      interpolate_from limit (Some a) k s !! i =
      Some (t, Some (interp_point a b (k + i + 1) (k + m + 1))).
Proof.
  induction s as [|[t0 v0] rest IH]; intros a k i m tm b Him Hrun Hm Hlim.
  - discriminate.
  - destruct (Hrun 0%nat) as [t Ht]; [lia|]. simpl in Ht. injection Ht as -> ->.
    destruct m as [|m]; [lia|]. simpl in Hm.
    destruct i as [|i].
    + cbn [interpolate_from]. eexists. rewrite lookup_head.
      replace (S k <=? limit)%nat with true by (symmetry; apply Nat.leb_le; lia).
      rewrite (next_valid_run rest m tm b); [|
        intros j Hj; destruct (Hrun (S j)) as [t' Ht']; [lia|]; eauto
        |assumption].
      do 3 f_equal; f_equal; lia.
    + cbn [interpolate_from].
      destruct (IH a (S k) i m tm b) as [t' Ht]; [lia| |assumption|lia|].
      * intros j Hj. destruct (Hrun (S j)) as [t'' Ht'']; [lia|]. eauto.
      * exists t'. rewrite lookup_tail, Ht. do 3 f_equal; f_equal; lia.
Qed.

(** The value filled in when the run reaches the end of the series. *)
Lemma interpolate_from_fill_tail limit (s : series) :
  forall a k i,
    (i < length s)%nat ->
    (forall j t v, s !! j = Some (t, v) -> v = None) ->
    (k + i + 1 <= limit)%nat ->
    exists t, interpolate_from limit (Some a) k s !! i = Some (t, Some a).
Proof.
  induction s as [|[t0 v0] rest IH]; intros a k i Hi Hall Hlim.
  - simpl in Hi. lia.
  - pose proof (Hall 0%nat t0 v0 eq_refl) as ->.
    assert (Hrest : forall j t v, rest !! j = Some (t, v) -> v = None)
      by (intros j t v Hj; apply (Hall (S j) t v); assumption).
    destruct i as [|i].
    + cbn [interpolate_from]. exists t0. rewrite lookup_head.
      replace (S k <=? limit)%nat with true by (symmetry; apply Nat.leb_le; lia).
      rewrite next_valid_none by assumption. reflexivity.
    + cbn [interpolate_from]. simpl in Hi.
      destruct (IH a (S k) i) as [t Ht]; [lia|assumption|lia|].
      exists t. rewrite lookup_tail. assumption.
Qed.

Lemma interpolate_fill_between limit (s : series) :
  forall prev k j m i tj a tm b,
    s !! j = Some (tj, Some a) ->
    s !! m = Some (tm, Some b) ->
    (j < i < m)%nat ->
    (forall p, (j < p < m)%nat -> exists t, s !! p = Some (t, None)) ->
    (i - j <= limit)%nat ->
    exists t,
      interpolate_from limit prev k s !! i =
      Some (t, Some (interp_point a b (i - j) (m - j))).
Proof.
  induction s as [|[t0 v0] rest IH];
    intros prev k j m i tj a tm b Hj Hm Hjim Hrun Hlim.
  - discriminate.
  - destruct i as [|i]; [lia|]. destruct m as [|m]; [lia|]. simpl in Hm.
    destruct j as [|j].
    + simpl in Hj. injection Hj as -> ->. cbn [interpolate_from].
      destruct (interpolate_from_fill_between limit rest a 0 i m tm b)
        as [t Ht]; [lia| |assumption|lia|].
      * intros p Hp. destruct (Hrun (S p)) as [t' Ht']; [lia|]. eauto.
      * exists t. rewrite lookup_tail, Ht. do 3 f_equal; f_equal; lia.
    + simpl in Hj.
      assert (Hrec : forall prev' k', exists t,
                 interpolate_from limit prev' k' rest !! i =
                 Some (t, Some (interp_point a b (S i - S j) (S m - S j)))).
      { intros prev' k'.
        destruct (IH prev' k' j m i tj a tm b) as [t Ht];
          [assumption|assumption|lia| |lia|].
        - intros p Hp. destruct (Hrun (S p)) as [t' Ht']; [lia|]. eauto.
        - exists t. rewrite Ht. reflexivity. }
      destruct v0 as [v0|]; cbn [interpolate_from]; rewrite lookup_tail;
        apply Hrec.
Qed.

Lemma interpolate_fill_tail limit (s : series) :
  forall prev k j i tj a,
    s !! j = Some (tj, Some a) ->
    (j < i < length s)%nat ->
    (forall p t v, (j < p)%nat -> s !! p = Some (t, v) -> v = None) ->
    (i - j <= limit)%nat ->
    exists t, interpolate_from limit prev k s !! i = Some (t, Some a).
Proof.
  induction s as [|[t0 v0] rest IH]; intros prev k j i tj a Hj Hji Hall Hlim.
  - discriminate.
  - destruct i as [|i]; [lia|]. simpl in Hji.
    destruct j as [|j].
    + simpl in Hj. injection Hj as -> ->. cbn [interpolate_from].
      destruct (interpolate_from_fill_tail limit rest a 0 i) as [t Ht];
        [lia| |lia|].
      * intros p t v Hp. apply (Hall (S p) t v); [lia|assumption].
      * exists t. rewrite lookup_tail. assumption.
    + simpl in Hj.
      assert (Hrec : forall prev' k', exists t,
                 interpolate_from limit prev' k' rest !! i = Some (t, Some a)).
      { intros prev' k'. apply (IH prev' k' j i tj a); [assumption|lia| |lia].
        intros p t v Hp Hv. apply (Hall (S p) t v); [lia|assumption]. }
      destruct v0 as [v0|]; cbn [interpolate_from]; rewrite lookup_tail;
        apply Hrec.
Qed.

(** A point of the line lies between its two ends. *)
Lemma interp_point_between (a b : Q) (k n : nat) :
  (0 < k < n)%nat ->
  (Qmin a b <= interp_point a b k n <= Qmax a b)%Q.
Proof.
  intros Hk. unfold interp_point.
  set (kq := inject_Z (Z.of_nat k)). set (nq := inject_Z (Z.of_nat n)).
  assert (Hkq : (0 < kq)%Q).
  { unfold kq. replace 0%Q with (inject_Z 0) by reflexivity.
    rewrite <- Zlt_Qlt. lia. }
  assert (Hkn : (kq < nq)%Q).
  { unfold kq, nq. rewrite <- Zlt_Qlt. lia. }
  assert (Hnq : (0 < nq)%Q) by (eapply Qlt_trans; eassumption).
  assert (Hr : ((b - a) / nq * kq == (b - a) * (kq / nq))%Q).
  { field. intros E. rewrite E in Hnq. apply (Qlt_irrefl 0). assumption. }
  assert (Hr0 : (0 <= kq / nq)%Q).
  { apply Qle_shift_div_l; [assumption|]. rewrite Qmult_0_l.
    apply Qlt_le_weak. assumption. }
  assert (Hr1 : (kq / nq <= 1)%Q).
  { apply Qle_shift_div_r; [assumption|]. rewrite Qmult_1_l.
    apply Qlt_le_weak. assumption. }
  rewrite Hr. set (r := (kq / nq)%Q) in *.
  destruct (Qlt_le_dec a b) as [Hab|Hba].
  - rewrite (Q.min_l a b) by (apply Qlt_le_weak; assumption).
    rewrite (Q.max_r a b) by (apply Qlt_le_weak; assumption).
    split; nra.
  - rewrite (Q.min_r a b) by assumption.
    rewrite (Q.max_l a b) by assumption.
    split; nra.
Qed.

Variable fit : list (timestamp * Q) -> nat -> nat -> option (list Q).

(** When the decomposition is skipped or fails, a filled position
    between two valid values [a] (at [j]) and [b] (at [m]) carries the
    value of the straight line from [a] to [b], which lies between them; a
    filled position of a run that reaches the end of the series repeats
    the last valid value. *)
Theorem filled_values_are_linear s site item file j i tj a :
  (length s <= STL_PERIOD * 2)%nat \/
  fit (fillna0 (interpolate TOLERANCE_HOURS s)) STL_PERIOD STL_SEASONAL = None ->
  s !! j = Some (tj, Some a) ->
  (j < i)%nat -> (i - j <= TOLERANCE_HOURS)%nat ->
  (forall m tm b,
      s !! m = Some (tm, Some b) -> (i < m)%nat ->
      (forall p, (j < p < m)%nat -> exists t, s !! p = Some (t, None)) ->
      exists t q,
        fst (process_series_stl fit s site item file) !! i = Some (t, Some q) /\
        (q == a + (b - a) * (inject_Z (Z.of_nat (i - j)) /
                             inject_Z (Z.of_nat (m - j))))%Q /\
        (Qmin a b <= q <= Qmax a b)%Q) /\
  ((i < length s)%nat ->
   (forall p t v, (j < p)%nat -> s !! p = Some (t, v) -> v = None) ->
   exists t,
     fst (process_series_stl fit s site item file) !! i = Some (t, Some a)).
Proof.
  intros Hfb Hj Hji Hlim.
  rewrite (process_series_stl_fallback fit s site item file Hfb).
  unfold interpolate. split.
  - intros m tm b Hm Him Hrun.
    destruct (interpolate_fill_between TOLERANCE_HOURS s None 0 j m i tj a tm b)
      as [t Ht]; [assumption|assumption|lia|assumption|assumption|].
    exists t, (interp_point a b (i - j) (m - j)).
    split; [assumption|]. split.
    + unfold interp_point. field.
      intros E. apply (inject_Z_injective (Z.of_nat (m - j)) 0) in E. lia.
    + apply interp_point_between. lia.
  - intros Hi Hall.
    apply (interpolate_fill_tail TOLERANCE_HOURS s None 0 j i tj a);
      [assumption|lia|assumption|assumption].
Qed.

End FilledValues.

Lemma filled_values_are_linear_witness :
  (forall m tm b,
      gap5 !! m = Some (tm, Some b) -> (2 < m)%nat ->
      (forall p, (0 < p < m)%nat -> exists t, gap5 !! p = Some (t, None)) ->
      exists t q,
        fst (Stl.process_series_stl flat_fit gap5 "s" "i" "f") !! 2%nat
          = Some (t, Some q) /\
        (q == 1 + (b - 1) * (inject_Z (Z.of_nat (2 - 0)) /
                             inject_Z (Z.of_nat (m - 0))))%Q /\
        (Qmin 1 b <= q <= Qmax 1 b)%Q) /\
  ((2 < length gap5)%nat ->
   (forall p t v, (0 < p)%nat -> gap5 !! p = Some (t, v) -> v = None) ->
   exists t,
     fst (Stl.process_series_stl flat_fit gap5 "s" "i" "f") !! 2%nat
       = Some (t, Some 1%Q)).
Proof.
  apply (filled_values_are_linear flat_fit gap5 "s" "i" "f" 0 2 0 1%Q).
  - left. vm_compute. lia.
  - reflexivity.
  - lia.
  - unfold Stl.TOLERANCE_HOURS. lia.
Defined.

(** ** The hourly range *)

Section DateRange.

(** The members of [date_range a b]: [a + k] hours, up to [b]. *)
Lemma elem_of_date_range a b t :
  t ∈ Pandas.date_range a b <->
  exists k : nat, t = a + HOUR * Z.of_nat k /\ t <= b.
Proof.
  unfold Pandas.date_range, HOUR. rewrite list_elem_of_fmap. split.
  - intros (k & -> & Hk). apply elem_of_seq in Hk as [_ Hk]. exists k.
    split; [reflexivity|].
    assert (Hlt : Z.of_nat k < (b - a) / 3600 + 1) by lia.
    assert (Hle : Z.of_nat k <= (b - a) / 3600) by lia.
    assert (3600 * Z.of_nat k <= b - a); [|lia].
    etransitivity; [apply Z.mul_le_mono_nonneg_l; [lia|exact Hle]|].
    apply Z.mul_div_le. lia.
  - intros (k & -> & Hk). exists k. split; [reflexivity|].
    apply elem_of_seq. split; [lia|].
    assert (Hle : Z.of_nat k <= (b - a) / 3600).
    { apply Z.div_le_lower_bound; lia. }
    lia.
Qed.

Lemma date_range_bounds a b t :
  t ∈ Pandas.date_range a b -> a <= t <= b.
Proof.
  intros H. apply elem_of_date_range in H as (k & -> & Hk).
  unfold HOUR in *. lia.
Qed.

Lemma fold_left_min_le l :
  forall y, fold_left Z.min l y <= y /\
            forall x, x ∈ l -> fold_left Z.min l y <= x.
Proof.
  induction l as [|z l IH]; intros y; simpl.
  - split; [lia|]. intros x Hx. inversion Hx.
  - destruct (IH (Z.min y z)) as [H1 H2]. split; [lia|].
    intros x Hx. apply elem_of_cons in Hx as [Heq|Hx]; [subst; lia|auto].
Qed.

Lemma fold_left_max_ge l :
  forall y, y <= fold_left Z.max l y /\
            forall x, x ∈ l -> x <= fold_left Z.max l y.
Proof.
  induction l as [|z l IH]; intros y; simpl.
  - split; [lia|]. intros x Hx. inversion Hx.
  - destruct (IH (Z.max y z)) as [H1 H2]. split; [lia|].
    intros x Hx. apply elem_of_cons in Hx as [Heq|Hx]; [subst; lia|auto].
Qed.

Lemma col_min_le l m x : Pandas.col_min l = Some m -> x ∈ l -> m <= x.
Proof.
  destruct l as [|y l]; [discriminate|]. simpl. intros H Hx. injection H as <-.
  destruct (fold_left_min_le l y) as [H1 H2].
  apply elem_of_cons in Hx as [Heq|Hx]; [subst; assumption|auto].
Qed.

Lemma col_max_ge l m x : Pandas.col_max l = Some m -> x ∈ l -> x <= m.
Proof.
  destruct l as [|y l]; [discriminate|]. simpl. intros H Hx. injection H as <-.
  destruct (fold_left_max_ge l y) as [H1 H2].
  apply elem_of_cons in Hx as [Heq|Hx]; [subst; assumption|auto].
Qed.

Lemma col_min_elem l m : Pandas.col_min l = Some m -> m ∈ l.
Proof.
  destruct l as [|y l]; [discriminate|]. simpl. intros H. injection H as <-.
  revert y. induction l as [|z l IH]; intros y; [left|].
  simpl. specialize (IH (Z.min y z)).
  apply elem_of_cons in IH as [Heq|IH].
  - rewrite Heq. destruct (Z.min_spec y z) as [[_ ->]|[_ ->]];
      [left|right; left].
  - right. right. assumption.
Qed.

Lemma col_max_elem l m : Pandas.col_max l = Some m -> m ∈ l.
Proof.
  destruct l as [|y l]; [discriminate|]. simpl. intros H. injection H as <-.
  revert y. induction l as [|z l IH]; intros y; [left|].
  simpl. specialize (IH (Z.max y z)).
  apply elem_of_cons in IH as [Heq|IH].
  - rewrite Heq. destruct (Z.max_spec y z) as [[_ ->]|[_ ->]];
      [right; left|left].
  - right. right. assumption.
Qed.

End DateRange.

(** ** The rows written by [process_file] *)

Section StlRows.
Import Stl.

Variable fit : list (timestamp * Q) -> nat -> nat -> option (list Q).
Hypothesis fit_aligned : seasonal_aligned fit.

Lemma reindex_index g full_range : map fst (reindex g full_range) = full_range.
Proof. unfold reindex. rewrite map_map. cbn [fst]. apply map_id. Qed.

Lemma valued_rows_elem site item (ss : series) o :
  o ∈ omap (fun p : timestamp * option Q =>
              match snd p with
              | Some v => Some (mk_out_row (fst p) site item v)
              | None => None
              end) ss ->
  o_site o = site /\ o_item o = item /\ o_datetime o ∈ map fst ss.
Proof.
  intros H. apply list_elem_of_omap in H as ([t [v|]] & Hin & Heq);
    [|discriminate].
  injection Heq as <-. cbn. split; [reflexivity|]. split; [reflexivity|].
  apply list_elem_of_fmap. exists (t, Some v). auto.
Qed.

Lemma valued_rows_NoDup site item (ss : series) :
  NoDup (map fst ss) ->
  NoDup (map o_datetime
           (omap (fun p : timestamp * option Q =>
                    match snd p with
                    | Some v => Some (mk_out_row (fst p) site item v)
                    | None => None
                    end) ss)).
Proof.
  induction ss as [|[t [v|]] ss IH]; intros Hnd.
  - constructor.
  - cbn [map fst] in Hnd. apply NoDup_cons in Hnd as [Hn Hnd].
    cbn. apply NoDup_cons. split; [|apply IH; assumption].
    intros Hin. apply list_elem_of_fmap in Hin as (o & Ho & Hin).
    apply valued_rows_elem in Hin as (_ & _ & Hin). cbn in Ho. congruence.
  - cbn [map fst] in Hnd. apply NoDup_cons in Hnd as [_ Hnd].
    cbn. apply IH. assumption.
Qed.

Lemma process_group_rows file full_range site item group :
  NoDup full_range ->
  NoDup (map o_datetime
           (fst (process_group fit file full_range site item group))) /\
  forall o, o ∈ fst (process_group fit file full_range site item group) ->
            o_site o = site /\ o_item o = item /\ o_datetime o ∈ full_range.
Proof.
  intros Hnd. unfold process_group.
  set (s := reindex _ full_range).
  pose proof (process_series_stl_index fit s site item file fit_aligned)
    as Hidx.
  destruct (process_series_stl fit s site item file) as [ss rp].
  cbn [fst] in *. unfold s in Hidx. rewrite reindex_index in Hidx. split.
  - apply valued_rows_NoDup. rewrite Hidx. assumption.
  - intros o Ho. apply valued_rows_elem in Ho. rewrite Hidx in Ho. assumption.
Qed.

(** Rows of groups with different keys, each group free of duplicates. *)
Lemma groups_NoDup {K A T} (tag : A -> K) (h : A -> T)
    (groups : list (K * list A)) :
  NoDup (map fst groups) ->
  (forall g, g ∈ groups -> NoDup (map h (snd g)) /\
                           forall x, x ∈ snd g -> tag x = fst g) ->
  NoDup (map (fun x => (h x, tag x)) (concat (map snd groups))).
Proof.
  induction groups as [|[k rows] groups IH]; intros Hnd Hg; [constructor|].
  cbn [map fst] in Hnd. apply NoDup_cons in Hnd as [Hk Hnd].
  cbn [map snd concat]. rewrite map_app. apply NoDup_app. split; [|split].
  - destruct (Hg (k, rows)) as [Hrows Htag]; [left|]. cbn [snd fst] in *.
    clear -Hrows. induction rows as [|x rows IHr]; [constructor|].
    cbn [map] in *. apply NoDup_cons in Hrows as [Hx Hrows].
    apply NoDup_cons. split; [|auto].
    intros Hin. apply Hx. apply list_elem_of_fmap in Hin as (y & Heq & Hy).
    injection Heq as Heq _. rewrite Heq. apply list_elem_of_fmap. eauto.
  - intros p Hp Hp'.
    apply list_elem_of_fmap in Hp as (x & -> & Hx).
    apply list_elem_of_fmap in Hp' as (y & Heq & Hy).
    injection Heq as _ Htag.
    destruct (Hg (k, rows)) as [_ Hk1]; [left|]. cbn [snd fst] in Hk1.
    apply elem_of_concat in Hy as (l & Hyl & Hl).
    apply list_elem_of_fmap in Hl as ([k' rows'] & -> & Hin).
    destruct (Hg (k', rows')) as [_ Hk2]; [right; assumption|].
    cbn [snd fst] in *. apply Hk.
    rewrite <- (Hk1 x Hx), Htag, (Hk2 y Hyl).
    apply list_elem_of_fmap. exists (k', rows'). auto.
  - apply IH; [assumption|]. intros g Hin. apply Hg. right. assumption.
Qed.

Lemma parsed_rows_datetimes (df : list row) :
  map fst (omap (fun r => match r_datetime r with
                          | Some t => Some (t, r)
                          | None => None
                          end) df) = omap r_datetime df.
Proof.
  induction df as [|r df IH]; [reflexivity|].
  cbn [omap list_omap]. destruct (r_datetime r); cbn; [f_equal|]; exact IH.
Qed.

(** The rows of the de-seasonalised table have pairwise different
    (datetime, site, item); each lies on the hourly grid that starts at the
    earliest timestamp of the file, not after the latest one, and belongs
    to the (site, item) of a row of the file whose timestamp parses. *)
Theorem stl_rows_unique_on_the_grid file df rows reports :
  process_file fit file df = Some (Some rows, reports) ->
  NoDup (map (fun o => (o_datetime o, (o_site o, o_item o))) rows) /\
  exists min_dt max_dt,
    Pandas.col_min (omap r_datetime df) = Some min_dt /\
    Pandas.col_max (omap r_datetime df) = Some max_dt /\
    forall o, o ∈ rows ->
      (exists k : nat, o_datetime o = min_dt + HOUR * Z.of_nat k) /\
      o_datetime o <= max_dt /\
      exists r t, r ∈ df /\ r_datetime r = Some t /\
                  r_site r = o_site o /\ r_item r = o_item o.
Proof.
  unfold process_file. cbv zeta. rewrite parsed_rows_datetimes.
  set (parsed := omap (fun r => match r_datetime r with
                                 | Some t => Some (t, r)
                                 | None => None
                                 end) df).
  destruct (Pandas.col_min (omap r_datetime df)) as [min_dt|];
    [|intros H; discriminate H].
  destruct (Pandas.col_max (omap r_datetime df)) as [max_dt|];
    [|intros H; discriminate H].
  set (fr := Pandas.date_range min_dt max_dt).
  set (groups := Pandas.groupby cmp_site_item _ parsed).
  intros H. injection H as Hrows _.
  assert (Hr : rows =
    concat (map fst (map (fun g : string * string * list (timestamp * row) =>
                            process_group fit file fr (fst (fst g))
                              (snd (fst g)) (snd g)) groups))).
  { destruct (map _ groups); [discriminate|]. injection Hrows as <-.
    reflexivity. }
  clear Hrows. subst rows.
  assert (Hfr : NoDup fr) by apply date_range_NoDup.
  set (tagged := map (fun g : string * string * list (timestamp * row) =>
                        (fst g, fst (process_group fit file fr (fst (fst g))
                                       (snd (fst g)) (snd g)))) groups).
  assert (Hconcat :
    concat (map fst (map (fun g : string * string * list (timestamp * row) =>
                            process_group fit file fr (fst (fst g))
                              (snd (fst g)) (snd g)) groups)) =
    concat (map snd tagged)).
  { unfold tagged. rewrite !map_map. reflexivity. }
  rewrite Hconcat.
  assert (Htagged : forall g, g ∈ tagged ->
             fst g ∈ map fst groups /\
             NoDup (map o_datetime (snd g)) /\
             forall o, o ∈ snd g ->
               (o_site o, o_item o) = fst g /\ o_datetime o ∈ fr).
  { intros g Hg. apply list_elem_of_fmap in Hg as ([[site item] grp] & -> & Hin).
    cbn [fst snd].
    destruct (process_group_rows file fr site item grp Hfr) as [Hnd Hel].
    split; [apply list_elem_of_fmap; exists ((site, item), grp); auto|].
    split; [assumption|]. intros o Ho.
    destruct (Hel o Ho) as (-> & -> & Hdt). auto. }
  split.
  - apply (groups_NoDup (fun o => (o_site o, o_item o)) o_datetime tagged).
    + unfold tagged. rewrite map_map. cbn [fst]. apply groupby_keys_NoDup.
    + intros g Hg. destruct (Htagged g Hg) as (_ & Hnd & Hel).
      split; [assumption|]. intros o Ho. apply Hel. assumption.
  - exists min_dt, max_dt. split; [reflexivity|]. split; [reflexivity|].
    intros o Ho. apply elem_of_concat in Ho as (l & Hol & Hl).
    apply list_elem_of_fmap in Hl as (g & -> & Hg).
    destruct (Htagged g Hg) as (Hkey & _ & Hel).
    destruct (Hel o Hol) as [Htag Hdt].
    apply elem_of_date_range in Hdt as (k & Hk & Hle).
    split; [eauto|]. split; [assumption|].
    unfold groups in Hkey.
    rewrite groupby_keys_perm, elem_of_remove_dups in Hkey.
    apply list_elem_of_fmap in Hkey as ([t r] & Hkr & Hin).
    unfold parsed in Hin. apply list_elem_of_omap in Hin as (r' & Hr' & Hm).
    destruct (r_datetime r') as [t'|] eqn:Et'; [|discriminate].
    injection Hm as _ <-.
    exists r', t'. rewrite <- Htag in Hkr. cbn [snd] in Hkr.
    injection Hkr as -> ->. auto.
Qed.

End StlRows.

Lemma stl_rows_unique_on_the_grid_witness :
  NoDup (map (fun o => (Stl.o_datetime o, (Stl.o_site o, Stl.o_item o)))
             [Stl.mk_out_row 0 "A" "O3" 1; Stl.mk_out_row 3600 "A" "O3" 2]) /\
  exists min_dt max_dt,
    Pandas.col_min (omap Stl.r_datetime
                      [Stl.mk_row (Some 0) "A" "O3" (Some 1%Q);
                       Stl.mk_row (Some 3600) "A" "O3" (Some 2%Q);
                       Stl.mk_row (Some 0) "A" "O3" (Some 9%Q)]) = Some min_dt /\
    Pandas.col_max (omap Stl.r_datetime
                      [Stl.mk_row (Some 0) "A" "O3" (Some 1%Q);
                       Stl.mk_row (Some 3600) "A" "O3" (Some 2%Q);
                       Stl.mk_row (Some 0) "A" "O3" (Some 9%Q)]) = Some max_dt /\
    forall o,
      o ∈ [Stl.mk_out_row 0 "A" "O3" 1; Stl.mk_out_row 3600 "A" "O3" 2] ->
      (exists k : nat, Stl.o_datetime o = min_dt + HOUR * Z.of_nat k) /\
      Stl.o_datetime o <= max_dt /\
      exists r t,
        r ∈ [Stl.mk_row (Some 0) "A" "O3" (Some 1%Q);
             Stl.mk_row (Some 3600) "A" "O3" (Some 2%Q);
             Stl.mk_row (Some 0) "A" "O3" (Some 9%Q)] /\
        Stl.r_datetime r = Some t /\
        Stl.r_site r = Stl.o_site o /\ Stl.r_item r = Stl.o_item o.
Proof.
  apply (stl_rows_unique_on_the_grid flat_fit flat_fit_aligned "f"
           [Stl.mk_row (Some 0) "A" "O3" (Some 1%Q);
            Stl.mk_row (Some 3600) "A" "O3" (Some 2%Q);
            Stl.mk_row (Some 0) "A" "O3" (Some 9%Q)]
           [Stl.mk_out_row 0 "A" "O3" 1; Stl.mk_out_row 3600 "A" "O3" 2] []).
  vm_compute. reflexivity.
Defined.

(** ** The gap reports written by [process_file] *)

Section StlFileReports.
Import Stl.

Variable fit : list (timestamp * Q) -> nat -> nat -> option (list Q).

Lemma date_range_lookup a b (k : nat) t :
  Pandas.date_range a b !! k = Some t -> t = a + HOUR * Z.of_nat k.
Proof.
  unfold Pandas.date_range. rewrite list_lookup_fmap. intros H.
  destruct (seq 0 _ !! k) as [k'|] eqn:E; [|discriminate].
  apply lookup_seq in E as [-> _]. cbn in H. congruence.
Qed.

Lemma reindex_lookup g full_range (p : nat) t v :
  reindex g full_range !! p = Some (t, v) -> full_range !! p = Some t.
Proof.
  unfold reindex. rewrite list_lookup_fmap.
  destruct (full_range !! p) as [t'|]; [|discriminate].
  cbn. congruence.
Qed.

Lemma process_group_reports file a b site item group r :
  r ∈ snd (process_group fit file (Pandas.date_range a b) site item group) ->
  gr_file r = file /\ gr_site r = site /\ gr_item r = item /\
  (TOLERANCE_HOURS < gr_duration_hours r)%nat /\
  gr_end_time r =
    gr_start_time r + HOUR * (Z.of_nat (gr_duration_hours r) - 1) /\
  a <= gr_start_time r /\ gr_end_time r <= b.
Proof.
  unfold process_group.
  set (s := reindex _ (Pandas.date_range a b)).
  destruct (process_series_stl fit s site item file) as [ss rp] eqn:E.
  cbn [snd]. intros Hr.
  assert (Hrp : rp = snd (process_series_stl fit s site item file))
    by (rewrite E; reflexivity).
  destruct (forallb id (map (fun p => isna (snd p)) s)) eqn:Eall.
  { unfold process_series_stl in Hrp. rewrite Eall in Hrp. subst rp.
    inversion Hr. }
  assert (Hnot : ~ all_nan s).
  { intros Hall. apply all_nan_forallb in Hall. congruence. }
  subst rp.
  apply (elem_of_gap_reports fit s site item file r Hnot) in Hr
    as (p & n & t0 & t1 & Hrun & Hlong & H0 & H1 & ->).
  cbn. split; [reflexivity|]. split; [reflexivity|]. split; [reflexivity|].
  split; [assumption|].
  pose proof (reindex_lookup _ _ _ _ _ H0) as Hf0.
  pose proof (reindex_lookup _ _ _ _ _ H1) as Hf1.
  pose proof (date_range_lookup _ _ _ _ Hf0) as ->.
  pose proof (date_range_lookup _ _ _ _ Hf1) as Ht1.
  assert (Hin : t1 ∈ Pandas.date_range a b)
    by (eapply list_elem_of_lookup_2; eassumption).
  apply date_range_bounds in Hin. unfold TOLERANCE_HOURS in Hlong.
  unfold HOUR in *. split; [lia|]. split; lia.
Qed.

(** Every gap report of a file names the file and a (site, item) of
    the file, counts more than [TOLERANCE_HOURS] hours, and its
    [Duration_Hours] is the number of hourly steps from [Start_Time] to
    [End_Time], both inclusive; start and end lie between the earliest
    and the latest timestamp of the file. *)
Theorem file_gap_reports_are_consistent file df out reports r :
  process_file fit file df = Some (out, reports) ->
  r ∈ reports ->
  gr_file r = file /\
  (TOLERANCE_HOURS < gr_duration_hours r)%nat /\
  gr_end_time r =
    gr_start_time r + HOUR * (Z.of_nat (gr_duration_hours r) - 1) /\
  (exists min_dt max_dt,
     Pandas.col_min (omap r_datetime df) = Some min_dt /\
     Pandas.col_max (omap r_datetime df) = Some max_dt /\
     min_dt <= gr_start_time r /\ gr_end_time r <= max_dt) /\
  exists x t, x ∈ df /\ r_datetime x = Some t /\
              r_site x = gr_site r /\ r_item x = gr_item r.
Proof.
  unfold process_file. cbv zeta. rewrite parsed_rows_datetimes.
  set (parsed := omap (fun r => match r_datetime r with
                                 | Some t => Some (t, r)
                                 | None => None
                                 end) df).
  destruct (Pandas.col_min (omap r_datetime df)) as [min_dt|];
    [|intros H; discriminate H].
  destruct (Pandas.col_max (omap r_datetime df)) as [max_dt|];
    [|intros H; discriminate H].
  intros H. injection H as _ <-. intros Hr.
  apply elem_of_concat in Hr as (l & Hrl & Hl).
  apply list_elem_of_fmap in Hl as (res & -> & Hres).
  apply list_elem_of_fmap in Hres as ([[site item] grp] & -> & Hg).
  cbn [fst snd] in Hrl.
  apply process_group_reports in Hrl
    as (Hfile & Hsite & Hitem & Hlong & Hend & Hlo & Hhi).
  split; [assumption|]. split; [assumption|]. split; [assumption|].
  split; [exists min_dt, max_dt; auto|].
  apply elem_of_groupby in Hg as [Hkey _].
  apply list_elem_of_fmap in Hkey as ([t x] & Hkx & Hin).
  unfold parsed in Hin. apply list_elem_of_omap in Hin as (x' & Hx' & Hm).
  destruct (r_datetime x') as [t'|] eqn:Et; [|discriminate].
  injection Hm as <- <-. cbn [snd] in Hkx. injection Hkx as -> ->.
  exists x', t'. rewrite Hsite, Hitem. auto.
Qed.

End StlFileReports.

Lemma file_gap_reports_are_consistent_witness :
  (Stl.TOLERANCE_HOURS < 4)%nat /\
  14400 = 3600 + HOUR * (Z.of_nat 4 - 1) /\
  exists x t,
    x ∈ [Stl.mk_row (Some 0) "A" "O3" (Some 1%Q);
     Stl.mk_row (Some 18000) "A" "O3" (Some 2%Q)] /\
    Stl.r_datetime x = Some t /\ Stl.r_site x = "A" /\ Stl.r_item x = "O3".
Proof.
  pose proof (file_gap_reports_are_consistent flat_fit "f"
    [Stl.mk_row (Some 0) "A" "O3" (Some 1%Q);
     Stl.mk_row (Some 18000) "A" "O3" (Some 2%Q)]
    (Some [Stl.mk_out_row 0 "A" "O3" 1; Stl.mk_out_row 3600 "A" "O3" (6 # 5);
           Stl.mk_out_row 7200 "A" "O3" (7 # 5);
           Stl.mk_out_row 18000 "A" "O3" 2])
    [(Stl.mk_gap_report "f" "A" "O3" "長時間缺測 (STL中斷)" 4 3600 14400)]
    (Stl.mk_gap_report "f" "A" "O3" "長時間缺測 (STL中斷)" 4 3600 14400)) as H.
  destruct H as (_ & Hlong & Hend & _ & Hrow);
    [vm_compute; reflexivity | left |].
  exact (conj Hlong (conj Hend Hrow)).
Defined.

(** ** What [process_and_plot] writes, and when *)

Section GeOutput.
Import Ge.

(** [process_and_plot] gets to its outputs exactly when some clean
    observation of the file has an entry in the baseline index under its
    key; otherwise it returns early and nothing of the file is written,
    the validation report included. *)
Theorem output_needs_a_baseline_match lk file df :
  is_Some (process_and_plot lk file df) <->
  exists o avg, o ∈ clean_rows file df /\ (obs_key o, avg) ∈ lk.
Proof.
  split.
  - intros [out H]. unfold process_and_plot, process_and_plot_by in H.
    destruct (full_range_of df) as [fr|]; [|discriminate].
    destruct (map snd (range_check file (dropna_rows df))); [discriminate|].
    destruct (merge_anomaly (clean_rows file df) lk) as [|m ms] eqn:E;
      [discriminate|].
    assert (Hm : m ∈ merge_anomaly (clean_rows file df) lk)
      by (rewrite E; left).
    apply elem_of_merge_anomaly in Hm as (o & avg & Ho & Hk & _). eauto.
  - intros (o & avg & Ho & Hk). eapply process_and_plot_returns; eassumption.
Qed.

(** A row whose timestamp does not parse and whose value is numeric
    leaves no trace: the result of the file is the one without the row. *)
Theorem unparsable_time_row_leaves_no_trace lk file pre r post v :
  raw_datetime r = None ->
  raw_value r = CNum v ->
  process_and_plot lk file (pre ++ r :: post) =
  process_and_plot lk file (pre ++ post).
Proof.
  intros Hdt Hv.
  assert (Hfr : full_range_of (pre ++ r :: post) = full_range_of (pre ++ post)).
  { unfold full_range_of. rewrite !omap_app. cbn [omap list_omap].
    rewrite Hdt. reflexivity. }
  assert (Hnull : null_findings file (pre ++ r :: post) =
                  null_findings file (pre ++ post)).
  { unfold null_findings. rewrite !filter_app, filter_cons, Hv.
    reflexivity. }
  assert (Htext : invalid_text_findings file (pre ++ r :: post) =
                  invalid_text_findings file (pre ++ post)).
  { unfold invalid_text_findings. rewrite !omap_app. cbn [omap list_omap].
    rewrite Hv. reflexivity. }
  assert (Hdrop : dropna_rows (pre ++ r :: post) = dropna_rows (pre ++ post)).
  { unfold dropna_rows. rewrite !omap_app. cbn [omap list_omap].
    rewrite Hdt. reflexivity. }
  unfold process_and_plot, process_and_plot_by, clean_rows.
  rewrite Hfr, Hnull, Htext, Hdrop.
  reflexivity.
Qed.

End GeOutput.

Lemma unparsable_time_row_leaves_no_trace_witness :
  Ge.process_and_plot scenario_lookup "f"
    ([Ge.mk_raw_row (Some scenario_time) "臺南" "O3" (Ge.CNum (71 # 2))] ++
     Ge.mk_raw_row None "臺南" "O3" (Ge.CNum 900) ::
     [Ge.mk_raw_row (Some (scenario_time + 2 * HOUR)) "臺南" "O3" Ge.CNull]) =
  Ge.process_and_plot scenario_lookup "f"
    ([Ge.mk_raw_row (Some scenario_time) "臺南" "O3" (Ge.CNum (71 # 2))] ++
     [Ge.mk_raw_row (Some (scenario_time + 2 * HOUR)) "臺南" "O3" Ge.CNull]).
Proof.
  apply (unparsable_time_row_leaves_no_trace scenario_lookup "f"
           [Ge.mk_raw_row (Some scenario_time) "臺南" "O3" (Ge.CNum (71 # 2))]
           (Ge.mk_raw_row None "臺南" "O3" (Ge.CNum 900))
           [Ge.mk_raw_row (Some (scenario_time + 2 * HOUR)) "臺南" "O3" Ge.CNull]
           900%Q); reflexivity.
Defined.

Lemma report_ignores_baseline_witness :
  Ge.out_report silent_hour_output =
    Ge.out_report
      (Ge.mk_output
         [Ge.mk_anomaly_record (scenario_time + 2 * HOUR) "臺南" "O3" 1]
         [Ge.mk_regional_average (scenario_time + 2 * HOUR) "O3" "南" 1 "AVG_南"]
         [Ge.mk_finding "f" "臺南" "O3" "時段資料遺失" (Ge.MissingHours 1)]
         [Ge.mk_major_event "f" (scenario_time + HOUR) "重大事件：全網斷訊"]) /\
  Ge.out_major_events silent_hour_output =
    Ge.out_major_events
      (Ge.mk_output
         [Ge.mk_anomaly_record (scenario_time + 2 * HOUR) "臺南" "O3" 1]
         [Ge.mk_regional_average (scenario_time + 2 * HOUR) "O3" "南" 1 "AVG_南"]
         [Ge.mk_finding "f" "臺南" "O3" "時段資料遺失" (Ge.MissingHours 1)]
         [Ge.mk_major_event "f" (scenario_time + HOUR) "重大事件：全網斷訊"]).
Proof.
  apply (report_ignores_baseline scenario_lookup
           [(("O3", "臺南", 45, 12), 35%Q)] "f" silent_hour_raw);
    vm_compute; reflexivity.
Defined.

(** ** The range check *)

Section RangeCheck.
Import Ge.

Lemma Qltb_lt x y : Qltb x y = true <-> (x < y)%Q.
Proof.
  unfold Qltb. rewrite negb_true_iff, <- not_true_iff_false, Qle_bool_iff.
  split; [apply Qnot_le_lt | apply Qlt_not_le].
Qed.

Lemma out_of_bound_spec info o :
  out_of_bound info o = true <->
  (obs_value o < inject_Z (info_min info))%Q \/
  (inject_Z (info_max info) < obs_value o)%Q.
Proof. unfold out_of_bound. rewrite orb_true_iff, !Qltb_lt. reflexivity. Qed.

Lemma within_bound_spec info o :
  out_of_bound info o = false <->
  (inject_Z (info_min info) <= obs_value o <= inject_Z (info_max info))%Q.
Proof.
  rewrite <- not_true_iff_false, out_of_bound_spec. split.
  - intros H. split; apply Qnot_lt_le; intros Hlt; apply H; auto.
  - intros [H1 H2] [H|H]; [apply (Qlt_not_le _ _ H) | apply (Qlt_not_le _ _ H)];
      assumption.
Qed.

Lemma filter_all {A} (P : A -> Prop) `{forall x, Decision (P x)} (l : list A) :
  (forall x, x ∈ l -> P x) -> filter P l = l.
Proof.
  induction l as [|x l IH]; intros Hall; [reflexivity|].
  rewrite filter_cons_True by (apply Hall; left).
  f_equal. apply IH. intros y Hy. apply Hall. right. assumption.
Qed.

(** What a loop over the groups of a frame collects, seen by the key of
    what it collected. *)
Lemma filter_concat_groupby {K A B} `{EqDecision K}
    (cmp : K -> K -> comparison) (key : A -> K) (tag : B -> K)
    (F : K -> list A -> list B) (rows : list A) k0 :
  (forall k b, b ∈ F k (filter (fun r => key r = k) rows) -> tag b = k) ->
  F k0 [] = [] ->
  filter (fun b => tag b = k0)
         (concat (map (fun g : K * list A => F (fst g) (snd g))
                      (Pandas.groupby cmp key rows))) =
  F k0 (filter (fun r => key r = k0) rows).
Proof.
  intros Htag Hnil.
  assert (Hgen : forall groups : list (K * list A),
    NoDup (map fst groups) ->
    (forall g b, g ∈ groups -> b ∈ F (fst g) (snd g) -> tag b = fst g) ->
    filter (fun b => tag b = k0)
           (concat (map (fun g : K * list A => F (fst g) (snd g)) groups)) =
    match list_find (fun g : K * list A => fst g = k0) groups with
    | Some (_, g) => F (fst g) (snd g)
    | None => []
    end).
  { induction groups as [|[k g] groups IH]; intros Hnd Hg; [reflexivity|].
    cbn [map fst] in Hnd. apply NoDup_cons in Hnd as [Hk Hnd].
    cbn [map concat]. rewrite filter_app, (IH Hnd)
      by (intros g' b Hg' Hb; apply (Hg g' b); [right|]; assumption).
    cbn [fst snd list_find]. destruct (decide (k = k0)) as [->|Hne].
    - cbn. rewrite (filter_all (fun b => tag b = k0))
        by (intros b Hb; apply (Hg (k0, g) b); [left|assumption]).
      destruct (list_find _ groups) as [[i [k' g']]|] eqn:Ef.
      + apply list_find_Some in Ef as (Hi & Hk' & _). cbn in Hk'. subst k'.
        exfalso. apply Hk. apply list_elem_of_fmap. exists (k0, g').
        split; [reflexivity|]. eapply list_elem_of_lookup_2; eassumption.
      + apply app_nil_r.
    - rewrite (filter_none (fun b => tag b = k0)).
      2:{ intros b Hb Heq. apply Hne. rewrite <- Heq. symmetry.
          apply (Hg (k, g) b); [left|assumption]. }
      cbn [app]. destruct (list_find _ groups) as [[i [k' g']]|]; reflexivity. }
  rewrite Hgen.
  2:{ apply groupby_keys_NoDup. }
  2:{ intros [k g] b Hin Hb. apply elem_of_groupby in Hin as [_ ->].
      cbn [fst snd] in *. apply Htag. assumption. }
  destruct (list_find _ _) as [[i [k g]]|] eqn:Ef.
  - apply list_find_Some in Ef as (Hi & Hk & _). cbn in Hk. subst k.
    apply list_elem_of_lookup_2 in Hi. apply elem_of_groupby in Hi as [_ ->].
    reflexivity.
  - destruct (decide (k0 ∈ map key rows)) as [Hin|Hnin].
    + exfalso. apply list_find_None in Ef. rewrite Forall_forall in Ef.
      apply (Ef (k0, filter (fun r => key r = k0) rows)); [|reflexivity].
      apply elem_of_groupby. auto.
    + rewrite filter_key_absent by assumption. symmetry. assumption.
Qed.

Lemma check_group_findings file item group f :
  f ∈ fst (check_group file item group) ->
  exists o info,
    o ∈ group /\ items_info_get item = Some info /\
    out_of_bound info o = true /\
    f = mk_finding file (obs_site o) (obs_item o) "數值越界"
          (OutOfBound (obs_value o) (info_min info) (info_max info)).
Proof.
  unfold check_group. destruct (items_info_get item) as [info|];
    [|intros H; inversion H].
  cbn [fst]. intros H. apply list_elem_of_fmap in H as (o & -> & Ho).
  apply elem_of_take in Ho as (i & Ho & _).
  apply list_elem_of_lookup_2 in Ho. apply list_elem_of_filter in Ho as [Hb Ho].
  exists o, info. split; [assumption|]. split; [reflexivity|].
  split; [apply Is_true_true; assumption | reflexivity].
Qed.

Lemma range_findings_item file obs_rows item f :
  f ∈ fst (check_group file item
             (filter (fun o => obs_item o = item) obs_rows)) ->
  f_item f = item.
Proof.
  intros H. apply check_group_findings in H as (o & info & Ho & _ & _ & ->).
  apply list_elem_of_filter in Ho as [Hi _]. exact Hi.
Qed.

Lemma filter_ext_in {A} (P Q : A -> Prop) `{forall x, Decision (P x)}
    `{forall x, Decision (Q x)} (l : list A) :
  (forall x, x ∈ l -> P x <-> Q x) -> filter P l = filter Q l.
Proof.
  induction l as [|x l IH]; intros Hext; [reflexivity|].
  rewrite !filter_cons.
  rewrite IH by (intros y Hy; apply Hext; right; assumption).
  assert (Hx : P x <-> Q x) by (apply Hext; left).
  destruct (decide (P x)) as [HP|HP], (decide (Q x)) as [HQ|HQ];
    try reflexivity; tauto.
Qed.

Lemma range_findings_from_rows file rows f :
  f ∈ concat (map fst (range_check file rows)) ->
  exists o info,
    o ∈ rows /\ items_info_get (obs_item o) = Some info /\
    out_of_bound info o = true /\
    f = mk_finding file (obs_site o) (obs_item o) "數值越界"
          (OutOfBound (obs_value o) (info_min info) (info_max info)).
Proof.
  intros H. apply elem_of_concat in H as (l & Hf & Hl).
  apply list_elem_of_fmap in Hl as (res & -> & Hres).
  unfold range_check in Hres.
  apply list_elem_of_fmap in Hres as ([item g] & -> & Hg).
  apply elem_of_groupby in Hg as [_ ->]. cbn [fst snd] in Hf.
  apply check_group_findings in Hf as (o & info & Ho & Hinfo & Hb & ->).
  apply list_elem_of_filter in Ho as [Hitem Ho].
  exists o, info. rewrite Hitem. auto.
Qed.

Lemma range_findings_count file rows item :
  length (filter (fun f => f_item f = item)
                 (concat (map fst (range_check file rows)))) =
  match items_info_get item with
  | Some info =>
      Nat.min 5 (length (filter (fun o => out_of_bound info o)
                                (filter (fun o => obs_item o = item) rows)))
  | None => 0%nat
  end.
Proof.
  unfold range_check. rewrite map_map.
  rewrite (filter_concat_groupby String.compare obs_item f_item
             (fun k g => fst (check_group file k g)) rows item).
  - unfold check_group. destruct (items_info_get item) as [info|];
      [|reflexivity].
    cbn [fst]. rewrite length_map, length_take. reflexivity.
  - intros k b Hb. eapply range_findings_item. eassumption.
  - unfold check_group. destruct (items_info_get item); reflexivity.
Qed.

(** The out-of-range findings of a report.  Each one stands for an
    observation of the file (numeric value, parsable timestamp) of an item
    with limits, whose value is below the minimum or above the maximum,
    and carries that value and the limits; an item has as many of them as
    it has such observations, but never more than 5, and an item without
    limits has none. *)
Theorem out_of_range_findings lk file df out :
  process_and_plot lk file df = Some out ->
  (forall f,
      f ∈ out_report out -> f_type f = "數值越界" ->
      exists o info,
        o ∈ dropna_rows df /\ items_info_get (obs_item o) = Some info /\
        ((obs_value o < inject_Z (info_min info))%Q \/
         (inject_Z (info_max info) < obs_value o)%Q) /\
        f = mk_finding file (obs_site o) (obs_item o) "數值越界"
              (OutOfBound (obs_value o) (info_min info) (info_max info))) /\
  (forall item,
      length (filter (fun f => f_type f = "數值越界" /\ f_item f = item)
                     (out_report out)) =
      match items_info_get item with
      | Some info =>
          Nat.min 5
            (length (filter (fun o => out_of_bound info o)
                            (filter (fun o => obs_item o = item)
                                    (dropna_rows df))))
      | None => 0%nat
      end).
Proof.
  intros Hout.
  apply process_and_plot_Some in Hout as (fr & _ & _ & _ & Hr & _).
  rewrite Hr. clear Hr. split.
  - intros f Hf Hty. rewrite !elem_of_app in Hf.
    destruct Hf as [H|[H|[H|H]]].
    + apply null_findings_type in H. rewrite H in Hty. discriminate.
    + apply invalid_text_findings_type in H. rewrite H in Hty. discriminate.
    + apply range_findings_from_rows in H as (o & info & Ho & Hi & Hb & ->).
      exists o, info. rewrite <- out_of_bound_spec. auto.
    + apply missing_findings_type in H. rewrite H in Hty. discriminate.
  - intros item. rewrite !filter_app, !length_app.
    rewrite (filter_none _ (null_findings file df)).
    2:{ intros f Hf [Hty _]. apply null_findings_type in Hf.
        rewrite Hf in Hty. discriminate. }
    rewrite (filter_none _ (invalid_text_findings file df)).
    2:{ intros f Hf [Hty _]. apply invalid_text_findings_type in Hf.
        rewrite Hf in Hty. discriminate. }
    rewrite (filter_none _ (missing_findings _ _ _)).
    2:{ intros f Hf [Hty _]. apply missing_findings_type in Hf.
        rewrite Hf in Hty. discriminate. }
    cbn [length]. rewrite Nat.add_0_r.
    rewrite (filter_ext_in _ (fun f => f_item f = item)).
    2:{ intros f Hf. apply range_check_findings_type in Hf. tauto. }
    apply range_findings_count.
Qed.

(** A row of the anomaly table comes from a raw row of the file with its
    timestamp, site and item and a numeric value, and its anomaly is that
    value minus a baseline value the index holds under the key of the
    row; when the item has limits, the value lies inside them, both
    bounds included, and the rows of an item without limits are not
    checked at all. *)
Theorem anomaly_rows_are_within_limits lk file df out a :
  process_and_plot lk file df = Some out ->
  a ∈ out_anomaly out ->
  exists r x avg,
    r ∈ df /\ raw_datetime r = Some (a_datetime a) /\
    raw_site r = a_site a /\ raw_item r = a_item a /\
    raw_value r = CNum x /\
    ((a_item a, a_site a, dayofyear (a_datetime a), hour_of (a_datetime a)),
     avg) ∈ lk /\
    a_anomaly a = (x - avg)%Q /\
    forall info, items_info_get (a_item a) = Some info ->
      (inject_Z (info_min info) <= x <= inject_Z (info_max info))%Q.
Proof.
  intros Hout Ha.
  apply process_and_plot_Some in Hout as (fr & _ & Han & _).
  rewrite Han in Ha. unfold anomaly_csv in Ha.
  apply list_elem_of_fmap in Ha as (m & -> & Hm).
  apply elem_of_merge_anomaly in Hm as (o & avg & Ho & Hk & ->).
  apply elem_of_clean_rows in Ho as [Ho Hb].
  apply elem_of_dropna_rows in Ho as (r & Hr & Hdt & Hv & Hs & Hi).
  exists r, (obs_value o), avg.
  cbn [a_datetime a_site a_item a_anomaly m_datetime m_site m_item m_anomaly].
  repeat (split; [assumption || reflexivity|]).
  intros info Hinfo. rewrite Hinfo in Hb. apply within_bound_spec in Hb.
  exact Hb.
Qed.

End RangeCheck.

Lemma out_of_range_findings_witness :
  length (filter (fun f => Ge.f_type f = "數值越界" /\ Ge.f_item f = "O3")
                 (Ge.out_report mixed_output)) =
  Nat.min 5
    (length (filter (fun o => Ge.out_of_bound
                                (Ge.mk_item_info "臭氧" "ppb" 0 600) o)
                    (filter (fun o => Ge.obs_item o = "O3")
                            (Ge.dropna_rows mixed_raw)))).
Proof.
  pose proof (out_of_range_findings scenario_lookup "f" mixed_raw mixed_output)
    as H.
  destruct H as [_ H]; [vm_compute; reflexivity|].
  exact (H "O3").
Defined.

Lemma anomaly_rows_are_within_limits_witness :
  exists r x avg,
    r ∈ mixed_raw /\ Ge.raw_datetime r = Some scenario_time /\
    Ge.raw_site r = "臺南" /\ Ge.raw_item r = "O3" /\
    Ge.raw_value r = Ge.CNum x /\
    (("O3", "臺南", Ge.dayofyear scenario_time, Ge.hour_of scenario_time),
     avg) ∈ scenario_lookup /\
    (11 # 2) = (x - avg)%Q /\
    forall info, Ge.items_info_get "O3" = Some info ->
      (inject_Z (Ge.info_min info) <= x <= inject_Z (Ge.info_max info))%Q.
Proof.
  apply (anomaly_rows_are_within_limits scenario_lookup "f" mixed_raw
           mixed_output
           (Ge.mk_anomaly_record scenario_time "臺南" "O3" (11 # 2))).
  - vm_compute. reflexivity.
  - left.
Defined.

(** ** The blank-value findings *)

Section NullFindings.
Import Ge.

Lemma elem_of_null_findings file df f :
  f ∈ null_findings file df <->
  exists site item,
    (0 < length (filter (fun r => (raw_site r, raw_item r) = (site, item))
                        (filter (fun r => is_null (raw_value r)) df)))%nat /\
    f = mk_finding file site item "原始資料空值"
          (NullCount
             (length (filter (fun r => (raw_site r, raw_item r) = (site, item))
                             (filter (fun r => is_null (raw_value r)) df)))).
Proof.
  unfold null_findings. rewrite list_elem_of_fmap. split.
  - intros ([[site item] g] & -> & Hg).
    apply elem_of_groupby in Hg as [Hk ->]. exists site, item.
    split; [|reflexivity].
    apply filter_nonempty_elem in Hk.
    destruct (filter _ (filter _ df)); [congruence|cbn; lia].
  - intros (site & item & Hpos & ->).
    exists ((site, item),
            filter (fun r => (raw_site r, raw_item r) = (site, item))
                   (filter (fun r => is_null (raw_value r)) df)).
    split; [reflexivity|]. apply elem_of_groupby. split; [|reflexivity].
    apply filter_nonempty_elem. intros E. rewrite E in Hpos. cbn in Hpos. lia.
Qed.

Lemma null_findings_keys file df :
  map (fun f => (f_site f, f_item f)) (null_findings file df) =
  map fst (Pandas.groupby cmp_site_item (fun r => (raw_site r, raw_item r))
             (filter (fun r => is_null (raw_value r)) df)).
Proof.
  unfold null_findings. rewrite map_map. apply map_ext.
  intros [[site item] g]. reflexivity.
Qed.

(** The blank-value findings of a report: one for each (site, item)
    that has a row with a blank value, and only for those; it carries the
    number of such rows of the (site, item), whether their timestamps
    parse or not. *)
Theorem blank_value_findings lk file df out :
  process_and_plot lk file df = Some out ->
  (forall f,
      f ∈ out_report out /\ f_type f = "原始資料空值" <->
      exists site item,
        (0 < length (filter (fun r => (raw_site r, raw_item r) = (site, item))
                            (filter (fun r => is_null (raw_value r)) df)))%nat /\
        f = mk_finding file site item "原始資料空值"
              (NullCount
                 (length (filter (fun r => (raw_site r, raw_item r) = (site, item))
                                 (filter (fun r => is_null (raw_value r)) df))))) /\
  NoDup (map (fun f => (f_site f, f_item f))
             (filter (fun f => f_type f = "原始資料空值") (out_report out))).
Proof.
  intros Hout.
  apply process_and_plot_Some in Hout as (fr & _ & _ & _ & Hr & _).
  rewrite Hr. clear Hr. split.
  - intros f. rewrite <- elem_of_null_findings, !elem_of_app. split.
    + intros [[H|[H|[H|H]]] Hty]; [assumption|exfalso..].
      * apply invalid_text_findings_type in H. rewrite H in Hty. discriminate.
      * apply range_check_findings_type in H. rewrite H in Hty. discriminate.
      * apply missing_findings_type in H. rewrite H in Hty. discriminate.
    + intros H. split; [left; assumption|].
      eapply null_findings_type. eassumption.
  - rewrite !filter_app.
    rewrite (filter_all _ (null_findings file df))
      by (intros f Hf; eapply null_findings_type; eassumption).
    rewrite (filter_none _ (invalid_text_findings file df)).
    2:{ intros f Hf Hty. apply invalid_text_findings_type in Hf.
        rewrite Hf in Hty. discriminate. }
    rewrite (filter_none _ (concat _)).
    2:{ intros f Hf Hty. apply range_check_findings_type in Hf.
        rewrite Hf in Hty. discriminate. }
    rewrite (filter_none _ (missing_findings _ _ _)).
    2:{ intros f Hf Hty. apply missing_findings_type in Hf.
        rewrite Hf in Hty. discriminate. }
    rewrite !app_nil_r, null_findings_keys. apply groupby_keys_NoDup.
Qed.

End NullFindings.

Lemma blank_value_findings_witness :
  (Ge.mk_finding "f" "臺南" "PM2.5" "原始資料空值" (Ge.NullCount 2)
     ∈ Ge.out_report mixed_output /\
   Ge.f_type (Ge.mk_finding "f" "臺南" "PM2.5" "原始資料空值" (Ge.NullCount 2)) =
     "原始資料空值" <->
   exists site item,
     (0 < length (filter (fun r => (Ge.raw_site r, Ge.raw_item r) = (site, item))
                         (filter (fun r => Ge.is_null (Ge.raw_value r))
                                 mixed_raw)))%nat /\
     Ge.mk_finding "f" "臺南" "PM2.5" "原始資料空值" (Ge.NullCount 2) =
     Ge.mk_finding "f" site item "原始資料空值"
       (Ge.NullCount
          (length (filter (fun r => (Ge.raw_site r, Ge.raw_item r) = (site, item))
                          (filter (fun r => Ge.is_null (Ge.raw_value r))
                                  mixed_raw))))) /\
  NoDup (map (fun f => (Ge.f_site f, Ge.f_item f))
             (filter (fun f => Ge.f_type f = "原始資料空值")
                     (Ge.out_report mixed_output))).
Proof.
  pose proof (blank_value_findings scenario_lookup "f" mixed_raw mixed_output)
    as H.
  destruct H as [H1 H2]; [vm_compute; reflexivity|].
  exact (conj (H1 _) H2).
Defined.

(** ** The region of a station *)

Section Regions.
Import Ge.

Lemma invert_sites (region : string) (sites : list string)
    (m : gmap string string) s :
  foldl (fun m site => <[site := region]> m) m sites !! s =
  if decide (s ∈ sites) then Some region else m !! s.
Proof.
  revert m. induction sites as [|x sites IH]; intros m; [reflexivity|].
  cbn [foldl]. rewrite IH.
  destruct (decide (s ∈ sites)) as [Hin|Hnin].
  - rewrite decide_True by (right; assumption). reflexivity.
  - destruct (decide (s = x)) as [->|Hne].
    + rewrite decide_True by left. apply lookup_insert_eq.
    + rewrite decide_False
        by (intros H; apply elem_of_cons in H as [?|?]; contradiction).
      apply lookup_insert_ne. congruence.
Qed.

(** The loop over a dict of regions in which no station is listed twice. *)
Lemma invert_areas (l : list (string * list string)) :
  forall (m : gmap string string) s region,
    NoDup (concat (map snd l)) ->
    (forall s', is_Some (m !! s') -> s' ∉ concat (map snd l)) ->
    (foldl (fun m (a : string * list string) =>
              foldl (fun m site => <[site := fst a]> m) m (snd a)) m l !! s =
       Some region <->
     m !! s = Some region \/ exists sites, (region, sites) ∈ l /\ s ∈ sites).
Proof.
  induction l as [|[r sites] l IH]; intros m s region Hnd Hdis.
  - cbn. split; [auto|]. intros [H|(sites & H & _)]; [assumption|inversion H].
  - cbn [map snd concat] in Hnd, Hdis.
    apply NoDup_app in Hnd as (Hnd1 & Hcross & Hnd2).
    cbn [foldl fst snd]. rewrite IH; [|assumption|].
    2:{ intros s' [v Hv]. rewrite invert_sites in Hv.
        destruct (decide (s' ∈ sites)) as [Hin|Hnin]; [auto|].
        intros Hin'. apply (Hdis s'); [eauto|].
        apply elem_of_app. right. assumption. }
    rewrite invert_sites. split.
    + intros [H|(sites' & Hin & Hs)].
      * destruct (decide (s ∈ sites)) as [Hs|Hs]; [|auto].
        injection H as <-. right. exists sites. split; [left|assumption].
      * right. exists sites'. split; [right|]; assumption.
    + intros [H|(sites' & Hin & Hs)].
      * left. rewrite decide_False; [assumption|].
        intros Hs. apply (Hdis s); [eauto|]. apply elem_of_app. auto.
      * apply elem_of_cons in Hin as [Heq|Hin].
        -- injection Heq as <- <-. left. rewrite decide_True by assumption.
           reflexivity.
        -- right. eauto.
Qed.

(** The stations of [areas] are pairwise different, and the loop inverts it. *)
Lemma site_to_region_lookup :
  NoDup (concat (map snd areas)) /\
  forall site region,
    site_to_region !! site = Some region <->
    exists sites, (region, sites) ∈ areas /\ site ∈ sites.
Proof.
  assert (Hnd : NoDup (concat (map snd areas))).
  { apply (bool_decide_unpack (NoDup (concat (map snd areas)))).
    vm_compute. exact I. }
  split; [exact Hnd|]. intros site region. unfold site_to_region.
  rewrite (invert_areas areas ∅ site region Hnd).
  - rewrite lookup_empty. split; [intros [H|H]; [discriminate|assumption]|auto].
  - intros s' [v Hv]. rewrite lookup_empty in Hv. discriminate.
Qed.

(** The dict [site_to_region] is the inverse of [areas]: a station is
    mapped to a region exactly when [areas] lists it under that region,
    and no station is listed twice, so the inversion loses no entry. *)
Theorem site_to_region_inverts_areas :
  NoDup (concat (map snd areas)) /\
  forall site region,
    site_to_region !! site = Some region <->
    exists sites, (region, sites) ∈ areas /\ site ∈ sites.
Proof. exact site_to_region_lookup. Qed.

End Regions.

(** ** The calendar part of a join key *)

Section JoinKeys.
Import Ge.

Lemma hour_of_bounds t : 0 <= hour_of t <= 23.
Proof. unfold hour_of. pose proof (Z.mod_pos_bound (t / HOUR) 24). lia. Qed.

(** A day lies in the year [year_of_days] gives it. *)
Lemma year_of_days_bracket days :
  days_of_jan1 (year_of_days days) <= days <
  days_of_jan1 (year_of_days days + 1).
Proof.
  unfold days_of_jan1, year_of_days. cbv zeta.
  destruct (_ <? 10) eqn:E; [apply Z.ltb_lt in E|apply Z.ltb_ge in E];
    Z.to_euclidean_division_equations; lia.
Qed.

Lemma year_length y : days_of_jan1 (y + 1) - days_of_jan1 y <= 366.
Proof.
  unfold days_of_jan1. cbv zeta. Z.to_euclidean_division_equations. lia.
Qed.

Lemma dayofyear_bounds t : 1 <= dayofyear t <= 366.
Proof.
  unfold dayofyear. cbv zeta.
  pose proof (year_of_days_bracket (t / 86400)).
  pose proof (year_length (year_of_days (t / 86400))). lia.
Qed.

(** The key under which a row of the anomaly table met the baseline
    index is a calendar key: its day of the year lies in 1..366 and its
    hour in 0..23, so the casts to int16 and int8 keep both values, and
    an index entry outside these ranges never meets an observation. *)
Theorem joined_keys_are_calendar_keys lk file df out a :
  process_and_plot lk file df = Some out ->
  a ∈ out_anomaly out ->
  exists d h avg,
    ((a_item a, a_site a, d, h), avg) ∈ lk /\
    d = dayofyear (a_datetime a) /\ h = hour_of (a_datetime a) /\
    1 <= d <= 366 /\ 0 <= h <= 23 /\
    - 2 ^ 15 <= d < 2 ^ 15 /\ - 2 ^ 7 <= h < 2 ^ 7.
Proof.
  intros Hout Ha.
  apply process_and_plot_Some in Hout as (fr & _ & Han & _).
  rewrite Han in Ha. unfold anomaly_csv in Ha.
  apply list_elem_of_fmap in Ha as (m & -> & Hm).
  apply elem_of_merge_anomaly in Hm as (o & avg & _ & Hk & ->).
  cbn [a_datetime a_site a_item m_datetime m_site m_item].
  exists (dayofyear (obs_datetime o)), (hour_of (obs_datetime o)), avg.
  pose proof (dayofyear_bounds (obs_datetime o)).
  pose proof (hour_of_bounds (obs_datetime o)).
  split; [exact Hk|]. repeat split; lia.
Qed.

End JoinKeys.

Lemma joined_keys_are_calendar_keys_witness :
  exists d h avg,
    (("O3", "臺南", d, h), avg) ∈ scenario_lookup /\
    d = Ge.dayofyear scenario_time /\ h = Ge.hour_of scenario_time /\
    1 <= d <= 366 /\ 0 <= h <= 23 /\
    - 2 ^ 15 <= d < 2 ^ 15 /\ - 2 ^ 7 <= h < 2 ^ 7.
Proof.
  apply (joined_keys_are_calendar_keys scenario_lookup "f" mixed_raw
           mixed_output
           (Ge.mk_anomaly_record scenario_time "臺南" "O3" (11 # 2))).
  - vm_compute. reflexivity.
  - left.
Defined.

(** ** A column label without an underscore *)

Section BaselineLabels.
Import Ge.

Lemma load_item_entries item tbl es k v :
  load_item item tbl = Some es -> (k, v) ∈ es ->
  fst (fst (fst k)) = item /\
  forall site label c,
    (site, label, c) ∈ melt tbl -> is_Some (parse_day_hour label).
Proof.
  intros Hload Hin.
  apply load_item_keyed in Hload as (keyed & Hall & ->).
  apply list_elem_of_omap in Hin as (e & He & Hnum).
  unfold numeric_entry in Hnum.
  destruct (to_numeric (snd e)); [|discriminate]. injection Hnum as <- _.
  split.
  - apply list_elem_of_lookup in He as (i & Hi).
    destruct (Forall2_lookup_r _ _ _ _ _ Hall Hi) as (x & _ & Hx).
    unfold keyed_row in Hx.
    destruct (parse_day_hour (snd (fst x))) as [[d h]|]; [|discriminate].
    injection Hx as <-. reflexivity.
  - intros site label c Hc.
    apply list_elem_of_lookup in Hc as (i & Hi).
    destruct (Forall2_lookup_l _ _ _ _ _ Hall Hi) as (y & _ & Hy).
    unfold keyed_row in Hy. cbn [fst snd] in Hy.
    destruct (parse_day_hour label); [eauto|discriminate].
Qed.

(** A label without an underscore is not split. *)
Lemma split_underscore_whole (s : string) :
  ~ In "_"%char (list_ascii_of_string s) -> split_underscore s = [s].
Proof.
  induction s as [|c s IH]; intros Hno; [reflexivity|].
  cbn [split_underscore]. cbn [list_ascii_of_string] in Hno.
  destruct (Ascii.eqb c "_") eqn:E.
  - apply Ascii.eqb_eq in E. exfalso. apply Hno. left. assumption.
  - rewrite IH; [reflexivity|]. intros H. apply Hno. right. assumption.
Qed.

(** One value column whose label has no underscore leaves the row of the
    split without a second part: the conversion of the hour raises, the
    table is discarded as a whole, and the index has no entry at all for
    that item. *)
Theorem label_without_underscore_discards_the_item
    avg_file idx item tbl site label c :
  load_and_transform_averages avg_file = Some idx ->
  avg_file item = Some tbl ->
  (site, label, c) ∈ melt tbl ->
  ~ In "_"%char (list_ascii_of_string label) ->
  forall k v, (k, v) ∈ idx -> fst (fst (fst k)) <> item.
Proof.
  intros Hload Hfile Hcell Hno k v Hin Hitem.
  assert (Hbad : parse_day_hour label = None).
  { unfold parse_day_hour. rewrite split_underscore_whole by assumption.
    reflexivity. }
  apply load_and_transform_averages_perm in Hload.
  rewrite Hload in Hin. apply elem_of_concat in Hin as (es & Hin & Hes).
  apply list_elem_of_omap in Hes as (it & _ & Hrows).
  unfold item_rows in Hrows.
  destruct (avg_file (fst it)) as [tbl'|] eqn:Efile; [|discriminate].
  destruct (load_item_entries _ _ _ _ _ Hrows Hin) as [Hk Hlabels].
  rewrite Hitem in Hk. rewrite Hk, Efile in Hfile.
  injection Hfile as ->.
  destruct (Hlabels site label c Hcell) as [dh Hdh]. congruence.
Qed.

End BaselineLabels.

Lemma label_without_underscore_discards_the_item_witness :
  fst (fst (fst (("CO", "臺南", 45, 10) : Ge.key))) <> "O3".
Proof.
  apply (label_without_underscore_discards_the_item
           (fun item =>
              if String.eqb item "O3"
              then Some (Ge.mk_wide_table ["45_10"; "45-11"]
                           [("臺南", [Ge.CNum 30%Q; Ge.CNum 31%Q])])
              else if String.eqb item "CO" then Some scenario_table else None)
           [(("CO", "臺南", 45, 10), 30%Q)] "O3"
           (Ge.mk_wide_table ["45_10"; "45-11"]
              [("臺南", [Ge.CNum 30%Q; Ge.CNum 31%Q])])
           "臺南" "45-11" (Ge.CNum 31%Q)
           ltac:(vm_compute; reflexivity) eq_refl
           ltac:(vm_compute; right; left)
           ltac:(vm_compute; intuition discriminate)
           ("CO", "臺南", 45, 10) 30%Q).
  left.
Defined.

(** ** No valued hour is lost by [process_file] *)

Section StlKeepsKeys.
Import Stl.

Variable fit : list (timestamp * Q) -> nat -> nat -> option (list Q).
Hypothesis fit_aligned : seasonal_aligned fit.

Lemma reindex_lookup_value g full_range (i : nat) t :
  full_range !! i = Some t ->
  reindex g full_range !! i =
  Some (t, match list_find (fun p => fst p = t) g with
           | Some (_, (_, v)) => v
           | None => None
           end).
Proof.
  intros H. unfold reindex. rewrite list_lookup_fmap, H. reflexivity.
Qed.

(** A position that holds a value in the input holds one in the result. *)
Lemma valued_position_is_returned (s : series) site item file i t v :
  s !! i = Some (t, Some v) ->
  exists q, fst (process_series_stl fit s site item file) !! i = Some (t, Some q).
Proof.
  intros Hs.
  pose proof (process_series_stl_index fit s site item file fit_aligned) as Hidx.
  pose proof (process_series_stl_isna fit s site item file i fit_aligned) as Hna.
  assert (Hfst : fst <$> fst (process_series_stl fit s site item file) !! i =
                 Some t).
  { rewrite <- list_lookup_fmap.
    change (map fst (fst (process_series_stl fit s site item file)) !! i = Some t).
    rewrite Hidx. change (map fst s) with (fst <$> s).
    rewrite list_lookup_fmap, Hs. reflexivity. }
  destruct (fst (process_series_stl fit s site item file) !! i)
    as [[t' [q|]]|] eqn:Eo; [| |discriminate].
  - cbn in Hfst. injection Hfst as ->. eauto.
  - exfalso.
    assert (Htrue : isna_at (interpolate TOLERANCE_HOURS s) i = Some true).
    { rewrite <- Hna. unfold isna_at. rewrite Eo. reflexivity. }
    apply interpolate_isna_iff in Htrue as [[t0 Ht0] _]. congruence.
Qed.

(** When the timestamps of a file are whole hours, a row whose
    (timestamp, site, item) carries a value on every row of the file that
    has it is not lost: the de-seasonalised table has a row for that
    (timestamp, site, item). *)
Theorem valued_hours_are_kept file df out reports r t :
  process_file fit file df = Some (out, reports) ->
  (forall x t', x ∈ df -> r_datetime x = Some t' -> (HOUR | t')) ->
  r ∈ df -> r_datetime r = Some t ->
  (forall x, x ∈ df -> r_datetime x = Some t -> r_site x = r_site r ->
             r_item x = r_item r -> is_Some (r_value x)) ->
  exists rows o,
    out = Some rows /\ o ∈ rows /\
    o_datetime o = t /\ o_site o = r_site r /\ o_item o = r_item r.
Proof.
  intros Hfile Hhours Hr Hdt Hval. revert Hfile.
  unfold process_file. cbv zeta. rewrite parsed_rows_datetimes.
  set (parsed := omap (fun r => match r_datetime r with
                                 | Some t => Some (t, r)
                                 | None => None
                                 end) df).
  destruct (Pandas.col_min (omap r_datetime df)) as [min_dt|] eqn:Emin;
    [|intros H; discriminate H].
  destruct (Pandas.col_max (omap r_datetime df)) as [max_dt|] eqn:Emax;
    [|intros H; discriminate H].
  set (fr := Pandas.date_range min_dt max_dt).
  set (groups := Pandas.groupby cmp_site_item _ parsed).
  intros H. injection H as Hout _.
  assert (Hparsed : (t, r) ∈ parsed).
  { unfold parsed. apply list_elem_of_omap. exists r.
    split; [assumption|]. rewrite Hdt. reflexivity. }
  assert (Ht : t ∈ omap r_datetime df).
  { apply list_elem_of_omap. exists r. auto. }
  assert (Hgrid : exists i : nat, fr !! i = Some t).
  { apply list_elem_of_lookup. apply elem_of_date_range.
    pose proof (col_min_le _ _ _ Emin Ht) as Hlo.
    pose proof (col_max_ge _ _ _ Emax Ht) as Hhi.
    pose proof (col_min_elem _ _ Emin) as Hmin.
    apply list_elem_of_omap in Hmin as (x & Hx & Hxm).
    destruct (Hhours x min_dt Hx Hxm) as [a Ha].
    destruct (Hhours r t Hr Hdt) as [b Hb].
    exists (Z.to_nat (b - a)). unfold HOUR in *. split; lia. }
  destruct Hgrid as [i Hi].
  set (grp := filter (fun p : timestamp * row =>
                        (r_site (snd p), r_item (snd p)) = (r_site r, r_item r))
                     parsed).
  assert (Hg : ((r_site r, r_item r), grp) ∈ groups).
  { apply elem_of_groupby. split; [|reflexivity].
    apply list_elem_of_fmap. exists (t, r). auto. }
  assert (Hrow : exists q,
             mk_out_row t (r_site r) (r_item r) q ∈
             fst (process_group fit file fr (r_site r) (r_item r) grp)).
  { unfold process_group. rewrite reindex_drop_duplicated.
    set (indexed := map (fun p : timestamp * row => (fst p, r_value (snd p))) grp).
    assert (Hs : exists v, reindex indexed fr !! i = Some (t, Some v)).
    { rewrite (reindex_lookup_value _ _ _ _ Hi).
      assert (Hin : (t, r_value r) ∈ indexed).
      { apply list_elem_of_fmap. exists (t, r). split; [reflexivity|].
        apply list_elem_of_filter. auto. }
      destruct (list_find (fun p => fst p = t) indexed)
        as [[j [t1 v1]]|] eqn:Ef.
      - apply list_find_Some in Ef as (Hj & Ht1 & _). cbn in Ht1. subst t1.
        apply list_elem_of_lookup_2 in Hj.
        apply list_elem_of_fmap in Hj as ([t2 x] & Hx & Hxg).
        cbn [fst snd] in Hx. injection Hx as <- ->.
        apply list_elem_of_filter in Hxg as [Hkey Hxp]. cbn [snd] in Hkey.
        injection Hkey as Hsite Hitem.
        unfold parsed in Hxp.
        apply list_elem_of_omap in Hxp as (x' & Hx' & Hm).
        destruct (r_datetime x') as [t'|] eqn:Et'; [|discriminate].
        injection Hm as <- <-.
        destruct (Hval x' Hx' Et' Hsite Hitem) as [v Hv].
        exists v. rewrite Hv. reflexivity.
      - exfalso. apply list_find_None in Ef. rewrite Forall_forall in Ef.
        apply (Ef _ Hin). reflexivity. }
    destruct Hs as [v Hs].
    destruct (valued_position_is_returned _ (r_site r) (r_item r) file _ _ _ Hs)
      as [q Hq].
    destruct (process_series_stl fit (reindex indexed fr) (r_site r) (r_item r)
                file) as [ss rp].
    cbn [fst] in *. exists q. apply list_elem_of_omap.
    exists (t, Some q). split; [|reflexivity].
    eapply list_elem_of_lookup_2. eassumption. }
  destruct Hrow as [q Hq].
  assert (Hres : process_group fit file fr (r_site r) (r_item r) grp ∈
                 map (fun g : string * string * list (timestamp * row) =>
                        process_group fit file fr (fst (fst g)) (snd (fst g))
                          (snd g)) groups).
  { apply list_elem_of_fmap. exists ((r_site r, r_item r), grp). auto. }
  destruct (map _ groups) as [|r0 res] eqn:Eres; [inversion Hres|].
  exists (concat (map fst (r0 :: res))), (mk_out_row t (r_site r) (r_item r) q).
  split; [symmetry; exact Hout|]. split; [|auto].
  apply elem_of_concat. exists (fst (process_group fit file fr (r_site r)
                                       (r_item r) grp)).
  split; [assumption|]. apply list_elem_of_fmap. eauto.
Qed.

End StlKeepsKeys.

Lemma valued_hours_are_kept_witness :
  exists rows o,
    Some [Stl.mk_out_row 0 "A" "O3" 1; Stl.mk_out_row 3600 "A" "O3" 2] =
      Some rows /\
    o ∈ rows /\
    Stl.o_datetime o = 3600 /\ Stl.o_site o = "A" /\ Stl.o_item o = "O3".
Proof.
  apply (valued_hours_are_kept flat_fit flat_fit_aligned "f"
           [Stl.mk_row (Some 0) "A" "O3" (Some 1%Q);
            Stl.mk_row (Some 3600) "A" "O3" (Some 2%Q);
            Stl.mk_row (Some 0) "A" "O3" (Some 9%Q)]
           (Some [Stl.mk_out_row 0 "A" "O3" 1; Stl.mk_out_row 3600 "A" "O3" 2])
           []
           (Stl.mk_row (Some 3600) "A" "O3" (Some 2%Q)) 3600).
  - vm_compute. reflexivity.
  - intros x t' Hx Hd.
    apply elem_of_cons in Hx as [->|Hx];
      [injection Hd as <-; exists 0; reflexivity|].
    apply elem_of_cons in Hx as [->|Hx];
      [injection Hd as <-; exists 1; reflexivity|].
    apply elem_of_cons in Hx as [->|Hx];
      [injection Hd as <-; exists 0; reflexivity|].
    inversion Hx.
  - right. left.
  - reflexivity.
  - intros x Hx Hd _ _.
    apply elem_of_cons in Hx as [->|Hx]; [eauto|].
    apply elem_of_cons in Hx as [->|Hx]; [eauto|].
    apply elem_of_cons in Hx as [->|Hx]; [eauto|].
    inversion Hx.
Defined.

(** ** The missing-hours findings *)

Section MissingHours.
Import Ge.

Lemma size_list_to_set_le (l : list Z) :
  (size (list_to_set l : gset Z) <= length l)%nat.
Proof.
  induction l as [|x l IH]; [rewrite list_to_set_nil, size_empty; lia|].
  rewrite list_to_set_cons. cbn [length].
  destruct (decide (x ∈ (list_to_set l : gset Z))) as [Hin|Hnin].
  - assert (({[x]} ∪ list_to_set l : gset Z) = list_to_set l) as ->.
    { apply set_eq. intros y. rewrite elem_of_union, elem_of_singleton.
      split; [intros [->|Hy]; assumption | auto]. }
    lia.
  - rewrite size_union by set_solver. rewrite size_singleton. lia.
Qed.

Lemma size_list_to_set_pos (l : list Z) :
  l <> [] -> (0 < size (list_to_set l : gset Z))%nat.
Proof.
  destruct l as [|x l]; [congruence|]. intros _.
  destruct (size (list_to_set (x :: l) : gset Z)) eqn:E; [|lia].
  apply size_empty_inv in E. set_solver.
Qed.

(** A (site, item) has a missing-hours finding exactly when it has a
    clean row but fewer clean rows than the file has hours; a (site,
    item) without any clean row has none.  The number of hours a finding
    gives is at least 1 and less than the number of hours of the file. *)
Theorem missing_hours_findings lk file df out site item :
  process_and_plot lk file df = Some out ->
  exists full_range,
    full_range_of df = Some full_range /\
    let k := length (filter (fun o => (obs_site o, obs_item o) = (site, item))
                            (clean_rows file df)) in
    ((exists f, f ∈ out_report out /\ f_type f = "時段資料遺失" /\
                f_site f = site /\ f_item f = item) <->
     (0 < k < length full_range)%nat) /\
    (forall n,
        mk_finding file site item "時段資料遺失" (MissingHours n)
          ∈ out_report out ->
        1 <= n <= Z.of_nat (length full_range) - 1).
Proof.
  intros Hout.
  apply process_and_plot_Some in Hout as (fr & Hfr & _ & _ & Hr & _).
  exists fr. split; [assumption|]. intros k. rewrite Hr. clear Hr.
  assert (Hmiss : forall f,
    f ∈ null_findings file df ++ invalid_text_findings file df ++
        concat (map fst (range_check file (dropna_rows df))) ++
        missing_findings file (length fr) (clean_rows file df) ->
    f_type f = "時段資料遺失" ->
    f ∈ missing_findings file (length fr) (clean_rows file df)).
  { intros f Hf Hty. rewrite !elem_of_app in Hf.
    destruct Hf as [H|[H|[H|H]]]; [exfalso..|assumption].
    - apply null_findings_type in H. rewrite H in Hty. discriminate.
    - apply invalid_text_findings_type in H. rewrite H in Hty. discriminate.
    - apply range_check_findings_type in H. rewrite H in Hty. discriminate. }
  assert (Hk : (site, item) ∈ map (fun o => (obs_site o, obs_item o))
                                  (clean_rows file df) <-> (0 < k)%nat).
  { rewrite <- filter_nonempty_elem. subst k.
    destruct (filter _ (clean_rows file df)); cbn; split;
      intros; try congruence; lia. }
  split; [split|].
  - intros (f & Hf & Hty & Hs & Hi). apply Hmiss in Hf; [|assumption].
    apply elem_of_missing_findings in Hf as (s & i & Hkey & Hlen & ->).
    cbn in Hs, Hi. subst s i. split; [apply Hk; assumption|exact Hlen].
  - intros [Hpos Hlen].
    exists (mk_finding file site item "時段資料遺失"
              (MissingHours (Z.of_nat (length fr) -
                             Z.of_nat (size (group_times (clean_rows file df)
                                                         site item))))).
    split; [|auto]. rewrite !elem_of_app. do 3 right.
    apply elem_of_missing_findings. exists site, item.
    split; [apply Hk; assumption|]. split; [exact Hlen|reflexivity].
  - intros n Hf. apply Hmiss in Hf; [|reflexivity].
    apply elem_of_missing_findings in Hf as (s & i & Hkey & Hlen & Heq).
    injection Heq as <- <- ->.
    apply Hk in Hkey. fold k in Hlen. unfold group_times.
    set (g := filter _ (clean_rows file df)) in *.
    pose proof (size_list_to_set_le (map obs_datetime g)) as Hle.
    rewrite length_map in Hle.
    assert (Hne : map obs_datetime g <> []).
    { destruct g; [cbn in Hkey; lia|discriminate]. }
    pose proof (size_list_to_set_pos _ Hne). lia.
Qed.

End MissingHours.

Lemma missing_hours_findings_witness :
  exists full_range,
    Ge.full_range_of mixed_raw = Some full_range /\
    let k := length (filter (fun o => (Ge.obs_site o, Ge.obs_item o) =
                                      ("臺南", "O3"))
                            (Ge.clean_rows "f" mixed_raw)) in
    ((exists f, f ∈ Ge.out_report mixed_output /\
                Ge.f_type f = "時段資料遺失" /\
                Ge.f_site f = "臺南" /\ Ge.f_item f = "O3") <->
     (0 < k < length full_range)%nat) /\
    (forall n,
        Ge.mk_finding "f" "臺南" "O3" "時段資料遺失" (Ge.MissingHours n)
          ∈ Ge.out_report mixed_output ->
        1 <= n <= Z.of_nat (length full_range) - 1).
Proof.
  apply (missing_hours_findings scenario_lookup "f" mixed_raw mixed_output
           "臺南" "O3").
  vm_compute. reflexivity.
Defined.

(** ** The regional table that is pivoted for the plots *)

Section Pivot.
Import Ge.

Lemma NoDup_map_finer {A K1 K2} (h : A -> K1) (g : A -> K2) (l : list A) :
  NoDup (map h l) ->
  (forall x y, x ∈ l -> y ∈ l -> g x = g y -> h x = h y) ->
  NoDup (map g l).
Proof.
  induction l as [|x l IH]; intros Hnd Hfine; [constructor|].
  cbn [map] in *. apply NoDup_cons in Hnd as [Hx Hnd].
  apply NoDup_cons. split.
  - intros Hin. apply list_elem_of_fmap in Hin as (y & Heq & Hy).
    apply Hx. apply list_elem_of_fmap. exists y. split; [|assumption].
    apply Hfine; [left|right; assumption|assumption].
  - apply IH; [assumption|]. intros a b Ha Hb. apply Hfine; right; assumption.
Qed.

Lemma NoDup_map_filter {A K} (h : A -> K) (P : A -> Prop)
    `{forall x, Decision (P x)} (l : list A) :
  NoDup (map h l) -> NoDup (map h (filter P l)).
Proof.
  induction l as [|x l IH]; intros Hnd; [constructor|].
  cbn [map] in Hnd. apply NoDup_cons in Hnd as [Hx Hnd].
  rewrite filter_cons. destruct (decide (P x)); [|auto].
  cbn [map]. apply NoDup_cons. split; [|auto].
  intros Hin. apply Hx. apply list_elem_of_fmap in Hin as (y & Heq & Hy).
  apply list_elem_of_filter in Hy as [_ Hy].
  apply list_elem_of_fmap. eauto.
Qed.

Lemma region_average_keys merged :
  map (fun ra => (ra_datetime ra, ra_item ra, ra_region ra))
      (region_average merged) =
  map fst (Pandas.groupby cmp_dt_item_region region_key (valid_regions merged)).
Proof.
  unfold region_average, region_average_by. rewrite map_map. apply map_ext.
  intros [[[dt item] region] g]. reflexivity.
Qed.

Lemma region_average_site merged ra :
  ra ∈ region_average merged -> ra_site ra = "AVG_" +:+ ra_region ra.
Proof.
  unfold region_average, region_average_by. intros H.
  apply list_elem_of_fmap in H as ([[[dt item] region] g] & -> & _).
  reflexivity.
Qed.

(** Within one item, the regional table has at most one row for a
    (datetime, site): the pivot of the item's rows by datetime and site,
    which raises on a repeated entry, has none to meet. *)
Theorem pivot_entries_are_unique lk file df out item :
  process_and_plot lk file df = Some out ->
  NoDup (map (fun ra => (ra_datetime ra, ra_site ra))
             (filter (fun ra => ra_item ra = item) (out_region_avg out))).
Proof.
  intros Hout.
  apply process_and_plot_Some in Hout as (fr & _ & _ & Hreg & _).
  rewrite Hreg. clear Hreg.
  set (merged := merge_anomaly (clean_rows file df) lk).
  apply (NoDup_map_finer
           (fun ra => (ra_datetime ra, ra_item ra, ra_region ra))).
  - apply NoDup_map_filter. rewrite region_average_keys.
    apply groupby_keys_NoDup.
  - intros x y Hx Hy Heq.
    apply list_elem_of_filter in Hx as [Hix Hx].
    apply list_elem_of_filter in Hy as [Hiy Hy].
    apply region_average_site in Hx. apply region_average_site in Hy.
    injection Heq as Hdt Hsite. rewrite Hx, Hy in Hsite.
    cbn in Hsite. injection Hsite as Hregion.
    change (ra_region x = ra_region y) in Hregion.
    rewrite Hdt, Hix, Hiy, Hregion. reflexivity.
Qed.

End Pivot.

Lemma pivot_entries_are_unique_witness :
  NoDup (map (fun ra => (Ge.ra_datetime ra, Ge.ra_site ra))
             (filter (fun ra => Ge.ra_item ra = "O3")
                     (Ge.out_region_avg mixed_output))).
Proof.
  apply (pivot_entries_are_unique scenario_lookup "f" mixed_raw mixed_output
           "O3").
  vm_compute. reflexivity.
Defined.

(** ** The figures of [plot_file] *)

Section StlPlotFacts.
Import Stl StlPlot.

Lemma elem_of_unique_from l :
  forall seen x, x ∈ unique_from seen l <-> x ∈ l /\ x ∉ seen.
Proof.
  induction l as [|y l IH]; intros seen x; cbn [unique_from].
  - split; [intros H; inversion H|intros [H _]; inversion H].
  - destruct (bool_decide (y ∈ seen)) eqn:E.
    + apply bool_decide_eq_true in E. rewrite IH, elem_of_cons.
      split; [tauto|]. intros [[->|H] Hn]; [contradiction|auto].
    + apply bool_decide_eq_false in E. rewrite !elem_of_cons, IH, elem_of_cons.
      split.
      * intros [->|[H Hn]]; [auto|]. split; [auto|]. intros Hs. apply Hn. auto.
      * intros [[->|H] Hn]; [auto|].
        destruct (decide (x = y)) as [->|Hne]; [auto|].
        right. split; [assumption|]. intros [?|?]; contradiction.
Qed.

Lemma NoDup_unique_from l :
  forall seen, NoDup (unique_from seen l).
Proof.
  induction l as [|y l IH]; intros seen; cbn [unique_from]; [constructor|].
  destruct (bool_decide (y ∈ seen)); [apply IH|].
  apply NoDup_cons. split; [|apply IH].
  rewrite elem_of_unique_from. intros [_ H]. apply H. left.
Qed.

Lemma elem_of_region_avg df rr :
  rr ∈ region_avg df <->
  (rr_datetime rr, rr_item rr, rr_region rr) ∈ map fst (keyed df) /\
  rr_anomaly_stl rr =
    nanmean (map snd (filter (fun e => fst e = (rr_datetime rr, rr_item rr,
                                                 rr_region rr)) (keyed df))).
Proof.
  unfold region_avg. rewrite list_elem_of_fmap. split.
  - intros ([[[dt item] region] g] & -> & Hg).
    apply elem_of_groupby in Hg as [Hk ->]. cbn. auto.
  - intros [Hk Hv].
    exists ((rr_datetime rr, rr_item rr, rr_region rr),
            filter (fun e => fst e = (rr_datetime rr, rr_item rr, rr_region rr))
                   (keyed df)).
    split.
    + destruct rr as [dt item region v]. cbn in *. rewrite Hv. reflexivity.
    + apply elem_of_groupby. auto.
Qed.

Lemma nanmean_is_Some l : is_Some (nanmean l) <-> exists v, Some v ∈ l.
Proof.
  unfold nanmean. destruct (omap id l) as [|v vs] eqn:E.
  - split; [intros [x Hx]; discriminate|].
    intros [v Hv]. exfalso.
    assert (Hin : v ∈ omap id l)
      by (apply list_elem_of_omap; exists (Some v); auto).
    rewrite E in Hin. inversion Hin.
  - split; [|eauto]. intros _. exists v.
    assert (Hin : v ∈ omap id l) by (rewrite E; left).
    apply list_elem_of_omap in Hin as ([x|] & Hx & Hid); [|discriminate].
    cbn in Hid. injection Hid as ->. assumption.
Qed.

Lemma elem_of_keyed df k v :
  (k, v) ∈ keyed df <->
  exists r t, r ∈ df /\ r_datetime r = Some t /\
    Ge.site_to_region !! r_site r = Some (snd k) /\
    k = (t, r_item r, snd k) /\ v = r_value r.
Proof.
  unfold keyed. rewrite list_elem_of_omap. split.
  - intros (r & Hr & Hm).
    destruct (Ge.site_to_region !! r_site r) as [region|] eqn:Ereg;
      [|discriminate].
    destruct (r_datetime r) as [t|] eqn:Et; [|discriminate].
    injection Hm as <- <-. exists r, t. cbn. auto.
  - intros (r & t & Hr & Ht & Hreg & Hk & ->). exists r.
    split; [assumption|]. rewrite Hreg, Ht, Hk. reflexivity.
Qed.

Lemma region_in_order site region :
  Ge.site_to_region !! site = Some region -> region ∈ region_order.
Proof.
  intros H. apply (proj2 site_to_region_lookup) in H as (sites & Hin & _).
  unfold Ge.areas in Hin. unfold region_order.
  repeat (apply elem_of_cons in Hin as [Heq|Hin];
          [injection Heq as -> _; repeat (first [left|right])|]).
  inversion Hin.
Qed.

Lemma has_data_spec data_item :
  has_data data_item = true <->
  exists rr, rr ∈ data_item /\ rr_region rr ∈ region_order /\
             is_Some (rr_anomaly_stl rr).
Proof.
  unfold has_data. rewrite existsb_exists. split.
  - intros (reg & Hreg & H). apply andb_true_iff in H as [_ H].
    apply existsb_exists in H as (rr & Hrr & H).
    apply andb_true_iff in H as [H1 H2].
    apply bool_decide_eq_true in H1. apply bool_decide_eq_true in H2.
    exists rr. rewrite H1. rewrite list_elem_of_In. rewrite list_elem_of_In.
    auto.
  - intros (rr & Hrr & Hreg & Hv). exists (rr_region rr).
    rewrite list_elem_of_In in Hrr. rewrite list_elem_of_In in Hreg.
    split; [assumption|].
    apply andb_true_iff. split; apply existsb_exists; exists rr;
      (split; [assumption|]).
    + apply bool_decide_eq_true. reflexivity.
    + apply andb_true_iff. split; apply bool_decide_eq_true; auto.
Qed.

(** [plot_file] saves the figure of an item exactly when the table
    has, for that item, a row of a station of one of the four regions
    with a timestamp and a value. *)
Theorem figure_is_saved_iff df item :
  item ∈ plotted_items df <->
  exists r, r ∈ df /\ r_item r = item /\ is_Some (r_datetime r) /\
            is_Some (Ge.site_to_region !! r_site r) /\ is_Some (r_value r).
Proof.
  unfold plotted_items. rewrite list_elem_of_filter. unfold unique.
  rewrite elem_of_unique_from. split.
  - intros [Hdata _]. apply Is_true_true in Hdata.
    apply has_data_spec in Hdata as (rr & Hrr & _ & Hv).
    apply list_elem_of_filter in Hrr as [Hitem Hrr].
    apply elem_of_region_avg in Hrr as [_ Hmean].
    rewrite Hmean in Hv. apply nanmean_is_Some in Hv as [v Hv].
    apply list_elem_of_fmap in Hv as ([k v'] & Hv' & Hin).
    cbn in Hv'. subst v'.
    apply list_elem_of_filter in Hin as [Hk Hin]. cbn in Hk. subst k.
    apply elem_of_keyed in Hin as (r & t & Hr & Ht & Hreg & Hk & Hval).
    injection Hk as _ Hi. exists r. rewrite Ht, Hreg, <- Hval, <- Hi.
    split; [assumption|]. split; [assumption|]. eauto.
  - intros (r & Hr & Hitem & [t Ht] & [region Hreg] & [v Hv]).
    set (k := (t, item, region)).
    assert (Hin : (k, Some v) ∈ keyed df).
    { apply elem_of_keyed. exists r, t. cbn. rewrite Hitem. auto. }
    set (rr := mk_region_row t item region
                 (nanmean (map snd (filter (fun e => fst e = k) (keyed df))))).
    assert (Hrr : rr ∈ region_avg df).
    { apply elem_of_region_avg. cbn. split; [|reflexivity].
      apply list_elem_of_fmap. exists (k, Some v). auto. }
    split; [|split; [|apply not_elem_of_nil]].
    + apply Is_true_true. apply has_data_spec. exists rr.
      split; [apply list_elem_of_filter; auto|].
      split; [eapply region_in_order; eassumption|].
      apply nanmean_is_Some. exists v. apply list_elem_of_fmap.
      exists (k, Some v). split; [reflexivity|].
      apply list_elem_of_filter. auto.
    + apply list_elem_of_fmap. exists rr. auto.
Qed.

Lemma region_avg_keys df :
  map (fun rr => (rr_datetime rr, rr_item rr, rr_region rr)) (region_avg df) =
  map fst (Pandas.groupby Ge.cmp_dt_item_region fst (keyed df)).
Proof.
  unfold region_avg. rewrite map_map. apply map_ext.
  intros [[[dt item] region] g]. reflexivity.
Qed.

(** The pivot of an item's regional means by datetime and region has
    no repeated entry to raise on, and no item is plotted twice, so no
    figure of the file is overwritten. *)
Theorem figures_do_not_collide df :
  (forall item,
      NoDup (map (fun rr => (rr_datetime rr, rr_region rr))
                 (filter (fun rr => rr_item rr = item) (region_avg df)))) /\
  NoDup (plotted_items df).
Proof.
  split.
  - intros item.
    apply (NoDup_map_finer
             (fun rr => (rr_datetime rr, rr_item rr, rr_region rr))).
    + apply NoDup_map_filter. rewrite region_avg_keys.
      apply groupby_keys_NoDup.
    + intros x y Hx Hy Heq.
      apply list_elem_of_filter in Hx as [Hix _].
      apply list_elem_of_filter in Hy as [Hiy _].
      injection Heq as Hdt Hreg. rewrite Hdt, Hreg, Hix, Hiy. reflexivity.
  - unfold plotted_items. apply NoDup_filter. apply NoDup_unique_from.
Qed.

End StlPlotFacts.
